(** * geocode_hospitals_csv: a shallow embedding of the CSV geocoder

    The development follows [data/2025/geocode_hospitals_csv.py]: the address
    builders, the single-address Census lookup, and the per-row loop of
    [main] with its cache, its three attempts, the rounding step and the two
    output tables.

    Conventions of the embedding.
    - Python values are the inductive [pyval]; a [dict] is an association
      list in insertion order, read at its first binding for a key.
    - A Python float is an IEEE 754 binary64 number, [spec_float] of the
      standard library with 53 bits of precision: [float()] and [round()]
      round correctly, ties to even, as CPython's conversions do.
    - A character of a string stands for a code point below 256.
    - The network is a function of the events so far and the requested
      address; every request and every [time.sleep] is recorded in the
      [trace] of the state.
    - The rows read by [csv.DictReader] are the input; a row with more
      cells than the header (a [None] key) is not modelled.
    - [print] calls are not modelled. *)

From Stdlib Require Import ZArith QArith String Ascii List Bool Lia.
From Stdlib Require Import DecimalString SpecFloat.
From stdpp Require Import base option list gmap strings.
Import ListNotations.

Local Open Scope string_scope.
Local Open Scope list_scope.
Local Open Scope Z_scope.

(** ** Strings *)

(** Code points below 256 for which [str.isspace] holds; [str.strip()]
    removes exactly these at both ends. *)
Definition is_space (c : ascii) : bool :=
  let n := nat_of_ascii c in
  ((9 <=? n)%nat && (n <=? 13)%nat) || ((28 <=? n)%nat && (n <=? 32)%nat)
  || (n =? 133)%nat || (n =? 160)%nat.

Fixpoint lstrip (s : string) : string :=
  match s with
  | EmptyString => EmptyString
  | String c s' => if is_space c then lstrip s' else s
  end.

Fixpoint rstrip (s : string) : string :=
  match s with
  | EmptyString => EmptyString
  | String c s' =>
      match rstrip s' with
      | EmptyString => if is_space c then EmptyString else String c EmptyString
      | r => String c r
      end
  end.

Definition strip (s : string) : string := rstrip (lstrip s).

Definition nonempty (s : string) : bool :=
  match s with EmptyString => false | _ => true end.

(** ** Floats *)

(** binary64: 53 bits of precision, exponents below 1024. *)
Abbreviation float := spec_float.

(** The float nearest to [num / den], ties to even. *)
Definition f_ratio (neg : bool) (num den : positive) : float :=
  SFdiv 53 1024 (S754_finite neg num 0) (S754_finite false den 0).

(** The float nearest to [m * 10 ^ e] for [m >= 0]: a correctly rounded
    conversion from decimal, which overflows to an infinity and underflows
    to a zero. *)
Definition f_decimal (neg : bool) (m : Z) (e : Z) : float :=
  match m with
  | Zpos p =>
      if 0 <=? e then binary_round 53 1024 neg (p * Z.to_pos (10 ^ e)) 0
      else f_ratio neg p (Z.to_pos (10 ^ (- e)))
  | _ => S754_zero neg
  end.

(** The float that a decimal literal denotes: [b64 0.25] is [0.25]. *)
Definition b64 (q : Q) : float :=
  match Qnum q with
  | Z0 => S754_zero false
  | Zpos n => f_ratio false n (Qden q)
  | Zneg n => f_ratio true n (Qden q)
  end.

(** ** Python values *)

Set Warnings "-register-all".

Inductive pyval : Type :=
| VNone
| VBool (b : bool)
| VInt (z : Z)
| VFloat (f : float)
| VStr (s : string)
| VList (l : list pyval)
| VDict (d : list (string * pyval)).

Abbreviation pydict := (list (string * pyval)).

(** Truth value of an object, as used by [if], [not], [and] and [or]. *)
Definition truthy (v : pyval) : bool :=
  match v with
  | VNone => false
  | VBool b => b
  | VInt z => negb (z =? 0)%Z
  | VFloat f => match f with S754_zero _ => false | _ => true end
  | VStr s => nonempty s
  | VList l => match l with [] => false | _ => true end
  | VDict d => match d with [] => false | _ => true end
  end.

(** [a or b] *)
Definition py_or (a b : pyval) : pyval := if truthy a then a else b.

Definition is_none (v : pyval) : bool :=
  match v with VNone => true | _ => false end.

(** [str(v)].  The address builders apply it to cells of the five address
    columns only; those hold what [csv.DictReader] produced, a [str] or
    [None] for a short line, and [main] never assigns to them.  The text of
    floats and containers is therefore left as a placeholder. *)
Definition py_str (v : pyval) : string :=
  match v with
  | VStr s => s
  | VNone => "None"
  | VBool true => "True"
  | VBool false => "False"
  | VInt z => NilZero.string_of_int (Z.to_int z)
  | VFloat _ => "<float>"
  | VList _ => "<list>"
  | VDict _ => "<dict>"
  end.

(** ** Dictionaries *)

Fixpoint dict_get (d : pydict) (k : string) : option pyval :=
  match d with
  | [] => None
  | (k', v) :: d' => if String.eqb k k' then Some v else dict_get d' k
  end.

(** [d[k] = v]: an existing key keeps its position, a new key goes last. *)
Fixpoint dict_set (k : string) (v : pyval) (d : pydict) : pydict :=
  match d with
  | [] => [(k, v)]
  | (k', v') :: d' =>
      if String.eqb k k' then (k, v) :: d' else (k', v') :: dict_set k v d'
  end.

Definition dict_keys (d : pydict) : list string := map fst d.

(** [d.get(k)] and [d.get(k, dflt)] *)
Definition get_or (d : pydict) (k : string) (dflt : pyval) : pyval :=
  match dict_get d k with Some v => v | None => dflt end.

Definition mem (k : string) (l : list string) : bool :=
  existsb (String.eqb k) l.

(** ** Column names *)

Definition STREET_COL := "Street_Address".
Definition CITY_COL := "City".
Definition STATE_COL := "State".
Definition ZIP_COL := "ZIP_Code".
Definition HOSP_COL := "Hospital_Name".

Definition LAT := "Latitude".
Definition LON := "Longitude".
Definition SRC := "Geo_Source".
Definition CONF := "Geo_Confidence".

(** ** Address builders *)

Definition join_nonempty (parts : list string) (sep : string) : string :=
  String.concat sep (List.filter nonempty parts).

Definition field (row : pydict) (col : string) : string :=
  strip (py_str (get_or row col (VStr ""))).

Definition build_primary_address (row : pydict) : string :=
  let street := field row STREET_COL in
  let city := field row CITY_COL in
  let state := field row STATE_COL in
  let zipc := field row ZIP_COL in
  join_nonempty [street; city; state; zipc] ", ".

Definition build_hospital_address (row : pydict) : string :=
  let name := field row HOSP_COL in
  let city := field row CITY_COL in
  let state := field row STATE_COL in
  let zipc := field row ZIP_COL in
  join_nonempty [name; city; state; zipc] ", ".

Definition build_city_address (row : pydict) : string :=
  let city := field row CITY_COL in
  let state := field row STATE_COL in
  let zipc := field row ZIP_COL in
  join_nonempty [city; state; zipc] ", ".

Definition row_a : pydict :=
  [ (HOSP_COL, VStr "General Hospital"); (STREET_COL, VStr " 900 23rd St NW ");
    (CITY_COL, VStr "Washington"); (STATE_COL, VStr "DC"); (ZIP_COL, VStr "") ].

(** ** Numbers: [float()] and [round()] *)

Definition digit_of (c : ascii) : option Z :=
  let n := nat_of_ascii c in
  if ((48 <=? n)%nat && (n <=? 57)%nat)%bool then Some (Z.of_nat (n - 48)) else None.

(** Reads the leading decimal digits of [s] on top of the accumulator:
    value, number of digits read, rest of the string. *)
Fixpoint read_digits (acc : Z) (cnt : nat) (s : string) : Z * nat * string :=
  match s with
  | EmptyString => (acc, cnt, s)
  | String c s' =>
      match digit_of c with
      | Some d => read_digits (10 * acc + d) (S cnt) s'
      | None => (acc, cnt, s)
      end
  end.

Definition read_sign (s : string) : bool * string :=
  match s with
  | String "-" s' => (true, s')
  | String "+" s' => (false, s')
  | _ => (false, s)
  end.

Definition read_exponent (s : string) : option (Z * string) :=
  match s with
  | String c s' =>
      if (Ascii.eqb c "e" || Ascii.eqb c "E")%bool then
        let '(neg, s1) := read_sign s' in
        let '(ev, ne, s2) := read_digits 0 0 s1 in
        match ne with
        | O => None
        | _ => Some (if neg then - ev else ev, s2)
        end
      else Some (0, s)
  | EmptyString => Some (0, s)
  end.

(** The white space [float()] skips at both ends of a string: the ASCII
    one and, below 256, the two other code points that are spaces. *)
Definition float_space (c : ascii) : bool :=
  let n := nat_of_ascii c in
  ((9 <=? n)%nat && (n <=? 13)%nat) || (n =? 32)%nat || (n =? 133)%nat
  || (n =? 160)%nat.

Fixpoint float_lstrip (s : string) : string :=
  match s with
  | EmptyString => EmptyString
  | String c s' => if float_space c then float_lstrip s' else s
  end.

Fixpoint float_rstrip (s : string) : string :=
  match s with
  | EmptyString => EmptyString
  | String c s' =>
      match float_rstrip s' with
      | EmptyString => if float_space c then EmptyString else String c EmptyString
      | r => String c r
      end
  end.

Definition is_digit (c : ascii) : bool :=
  match digit_of c with Some _ => true | None => false end.

(** Digit-group underscores are removed; each must stand between two
    digits. *)
Fixpoint drop_underscores (prev : ascii) (s : string) : option string :=
  match s with
  | EmptyString => if Ascii.eqb prev "_" then None else Some EmptyString
  | String c s' =>
      if Ascii.eqb c "_" then
        if is_digit prev then drop_underscores c s' else None
      else if (Ascii.eqb prev "_" && negb (is_digit c))%bool then None
      else option_map (String c) (drop_underscores c s')
  end.

Definition lower (c : ascii) : ascii :=
  let n := nat_of_ascii c in
  if ((65 <=? n)%nat && (n <=? 90)%nat)%bool then ascii_of_nat (n + 32) else c.

Fixpoint lowercase (s : string) : string :=
  match s with
  | EmptyString => EmptyString
  | String c s' => String (lower c) (lowercase s')
  end.

(** [inf], [infinity] and [nan] in any case, after the sign. *)
Definition inf_or_nan (neg : bool) (s : string) : option float :=
  let l := lowercase s in
  if (String.eqb l "inf" || String.eqb l "infinity")%bool then Some (S754_infinity neg)
  else if String.eqb l "nan" then Some S754_nan
  else None.

(** [float(s)] for a string: white space at both ends, a sign, decimal
    digits with an optional fraction and an optional exponent, or a
    spelling of infinity or NaN; [None] stands for [ValueError]. *)
Definition float_of_string (s : string) : option float :=
  match drop_underscores "000" s with
  | None => None
  | Some s0 =>
      let '(neg, s1) := read_sign (float_rstrip (float_lstrip s0)) in
      let '(ip, ni, s2) := read_digits 0 0 s1 in
      let '(m, nf, s3) :=
        match s2 with
        | String "." s' => read_digits ip 0 s'
        | _ => (ip, O, s2)
        end in
      match (ni + nf)%nat with
      | O => inf_or_nan neg s1
      | _ =>
          match read_exponent s3 with
          | Some (e, EmptyString) => Some (f_decimal neg m (e - Z.of_nat nf))
          | _ => None
          end
      end
  end.

(** [n / d] rounded to the nearest integer, ties to the even one, for
    [n >= 0] and [d > 0]. *)
Definition rhe_div (n d : Z) : Z :=
  let '(q, r) := Z.div_eucl n d in
  match 2 * r ?= d with
  | Lt => q
  | Gt => q + 1
  | Eq => if Z.even q then q else q + 1
  end.

(** ** Exceptions and results *)

Inductive exn : Type :=
| RequestException   (* requests.get, raise_for_status, r.json *)
| AttributeError
| TypeError
| KeyError
| ValueError
| IndexError
| OverflowError.

Inductive res (A : Type) : Type :=
| Ok (a : A)
| Raise (e : exn).
Arguments Ok {A} a.
Arguments Raise {A} e.

(** [float(z)] for an integer: the nearest float, unless that is beyond the
    largest one. *)
Definition float_of_int (z : Z) : res float :=
  match binary_normalize 53 1024 z 0 false with
  | S754_infinity _ => Raise OverflowError
  | f => Ok f
  end.

(** [float(v)] *)
Definition py_float (v : pyval) : res float :=
  match v with
  | VFloat f => Ok f
  | VInt z => float_of_int z
  | VBool b => float_of_int (if b then 1 else 0)
  | VStr s =>
      match float_of_string s with
      | Some f => Ok f
      | None => Raise ValueError
      end
  | VNone | VList _ | VDict _ => Raise TypeError
  end.

(** [round(x, ndigits)] on a float: an infinity or a NaN is returned as it
    is; otherwise the exact value of [x] is rounded to [ndigits] decimals,
    ties to even, and the float nearest to that decimal is returned, with
    [OverflowError] when there is none.  The two shortcuts are CPython's. *)
Definition py_round (x : float) (ndigits : Z) : res float :=
  match x with
  | S754_finite s m e =>
      if 323 <? ndigits then Ok x
      else if ndigits <? -308 then Ok (S754_zero s)
      else
        let num := Zpos m * 2 ^ Z.max e 0 * 10 ^ Z.max ndigits 0 in
        let den := 2 ^ Z.max (- e) 0 * 10 ^ Z.max (- ndigits) 0 in
        match f_decimal s (rhe_div num den) (- ndigits) with
        | S754_infinity _ => Raise OverflowError
        | f => Ok f
        end
  | _ => Ok x
  end.

#[global] Instance res_ret : MRet res := fun A a => Ok a.
#[global] Instance res_bind : MBind res := fun A B k m =>
  match m with
  | Ok a => k a
  | Raise e => Raise e
  end.

(** [v.get(k)]: only a dict has the method. *)
Definition py_get (v : pyval) (k : string) : res pyval :=
  match v with
  | VDict d => Ok (get_or d k VNone)
  | _ => Raise AttributeError
  end.

(** [v[0]] *)
Definition item0 (v : pyval) : res pyval :=
  match v with
  | VList (x :: _) => Ok x
  | VList [] => Raise IndexError
  | VStr (String c _) => Ok (VStr (String c EmptyString))
  | VStr EmptyString => Raise IndexError
  | VDict _ => Raise KeyError
  | VNone | VBool _ | VInt _ | VFloat _ => Raise TypeError
  end.

(** ** Program state and effects *)

Inductive event : Type :=
| Get (address : string)     (* one HTTP GET to the Census geocoder *)
| Sleep (seconds : float).   (* one completed time.sleep *)

(** What [requests.get], [raise_for_status] and [r.json()] give together:
    an exception, or the decoded body. *)
Inductive response : Type :=
| Failed (e : exn)
| Body (data : pyval).

(** The service may answer differently over time: it sees the events so far. *)
Definition network := list event -> string -> response.

Abbreviation triple := (pyval * pyval * pyval)%type.

Record state : Type := mkState {
  rows : list pydict;               (* the list read from the input file *)
  cache : gmap string triple;
  unmatched_rows : list pydict;
  fout : list (list pyval);         (* records written to the output file *)
  trace : list event }.

(** State and exceptions: a raised exception keeps the state reached. *)
Definition M (A : Type) : Type := state -> res A * state.

#[global] Instance M_ret : MRet M := fun A a s => (Ok a, s).
#[global] Instance M_bind : MBind M := fun A B k m s =>
  match m s with
  | (Ok a, s') => k a s'
  | (Raise e, s') => (Raise e, s')
  end.

Definition lift {A} (r : res A) : M A := fun s => (r, s).

Definition emit (e : event) : M unit := fun s =>
  (Ok tt, mkState (rows s) (cache s) (unmatched_rows s) (fout s) (trace s ++ [e])).

Definition requests_get (net : network) (address : string) : M pyval := fun s =>
  let s' := mkState (rows s) (cache s) (unmatched_rows s) (fout s)
                    (trace s ++ [Get address]) in
  match net (trace s) address with
  | Failed e => (Raise e, s')
  | Body data => (Ok data, s')
  end.

(** [time.sleep(d)] converts the delay to a count of nanoseconds: the
    product with [1e9], as a float, rounded away from zero, which has to fit
    64 bits. *)
Definition NS_PER_S : float := f_decimal false 1 9.

Definition round_away (f : float) : option Z :=
  match f with
  | S754_zero _ => Some 0
  | S754_finite s m e =>
      let v := if 0 <=? e then Zpos m * 2 ^ e
               else (Zpos m + 2 ^ (- e) - 1) / 2 ^ (- e) in
      Some (if s then - v else v)
  | _ => None
  end.

(** The exception with which [time.sleep(d)] refuses a delay: [ValueError]
    for a NaN and for a negative count, [OverflowError] for a count that
    does not fit.  (In CPython 3.11 the count [2 ^ 63] passes the range
    check and wraps to a negative one.) *)
Definition sleep_refusal (d : float) : option exn :=
  match d with
  | S754_nan => Some ValueError
  | _ =>
      match round_away (SFmul 53 1024 d NS_PER_S) with
      | Some t =>
          if (- 2 ^ 63 <=? t) && (t <=? 2 ^ 63) then
            if (t <? 0) || (t =? 2 ^ 63) then Some ValueError else None
          else Some OverflowError
      | None => Some OverflowError
      end
  end.

Definition time_sleep (d : float) : M unit :=
  match sleep_refusal d with
  | None => emit (Sleep d)
  | Some e => lift (Raise e)
  end.

Definition cache_lookup (key : string) : M (option triple) := fun s =>
  (Ok (cache s !! key), s).

Definition cache_store (key : string) (v : triple) : M unit := fun s =>
  (Ok tt, mkState (rows s) (<[key := v]> (cache s)) (unmatched_rows s) (fout s) (trace s)).

(** Position of [l[i]] for a list of length [n], negative indices counting
    from the end. *)
Definition py_index (n : nat) (i : Z) : option nat :=
  if 0 <=? i then
    if i <? Z.of_nat n then Some (Z.to_nat i) else None
  else
    if 0 <=? Z.of_nat n + i then Some (Z.to_nat (Z.of_nat n + i)) else None.

Definition get_row (idx : Z) : M pydict := fun s =>
  match py_index (length (rows s)) idx with
  | Some i =>
      match rows s !! i with
      | Some row => (Ok row, s)
      | None => (Raise IndexError, s)
      end
  | None => (Raise IndexError, s)
  end.

(** The row is a reference into [rows]: assignments to it are seen there. *)
Definition store_row (idx : Z) (row : pydict) : M unit := fun s =>
  match py_index (length (rows s)) idx with
  | Some i =>
      (Ok tt, mkState (<[i := row]> (rows s)) (cache s) (unmatched_rows s) (fout s) (trace s))
  | None => (Raise IndexError, s)
  end.

Definition append_unmatched (row_copy : pydict) : M unit := fun s =>
  (Ok tt, mkState (rows s) (cache s) (unmatched_rows s ++ [row_copy]) (fout s) (trace s)).

(** [csv.DictWriter.writerow]: a key outside the field names is refused,
    a missing one is written as the empty string. *)
Definition dict_to_list (fieldnames : list string) (row : pydict) : res (list pyval) :=
  if forallb (fun k => mem k fieldnames) (dict_keys row)
  then Ok (map (fun k => get_or row k (VStr "")) fieldnames)
  else Raise ValueError.

Definition writerow (fieldnames : list string) (row : pydict) : M unit := fun s =>
  match dict_to_list fieldnames row with
  | Ok rec =>
      (Ok tt, mkState (rows s) (cache s) (unmatched_rows s) (fout s ++ [rec]) (trace s))
  | Raise e => (Raise e, s)
  end.

(** ** The single-address lookup *)

Definition absent : triple := (VNone, VNone, VNone).

(** Lines 71-80: what is made of the decoded body. *)
Definition parse_body (r : pyval) : res triple :=
  let data := py_or r (VDict []) in
  result ← py_get data "result";
  am ← py_get (py_or result (VDict [])) "addressMatches";
  let matches := py_or am (VList []) in
  if negb (truthy matches) then Ok absent
  else
    top ← item0 matches;
    co ← py_get top "coordinates";
    let coords := py_or co (VDict []) in
    lon ← py_get coords "x";
    lat ← py_get coords "y";
    tl ← py_get top "tigerLine";
    conf ← py_get (py_or tl (VDict [])) "side";
    Ok (lat, lon, conf).

Definition census_geocode (net : network) (address : string) : M triple :=
  if negb (nonempty address) then mret absent
  else
    r ← requests_get net address;
    lift (parse_body r).

(** ** The row loop of [main] *)

Record args : Type := mkArgs {
  outfile : string;
  sleep : float;
  round_decimals : Z;
  start : Z;
  limit : option Z }.

(** [lat is not None and lon is not None] *)
Definition matched (lat lon : pyval) : bool :=
  negb (is_none lat) && negb (is_none lon).

(** The three attempts of an uncached row: street address, hospital name,
    city centroid. *)
Definition attempts (net : network) (row : pydict) (primary_addr : string)
    (source : pyval) : M (triple * pyval) :=
  '(lat, lon, conf) ← census_geocode net primary_addr;
  if matched lat lon then mret (lat, lon, conf, VStr "census_primary")
  else
    let hosp_addr := build_hospital_address row in
    '(lat, lon, conf, source) ←
      (if nonempty hosp_addr && negb (String.eqb hosp_addr primary_addr) then
         '(lat, lon, conf) ← census_geocode net hosp_addr;
         mret (lat, lon, conf,
               if matched lat lon then VStr "census_hospital" else source)
       else mret (lat, lon, conf, source));
    if is_none lat || is_none lon then
      let city_addr := build_city_address row in
      if nonempty city_addr then
        '(lat, lon, conf) ← census_geocode net city_addr;
        mret (lat, lon, conf,
              if matched lat lon then VStr "census_city" else source)
      else mret (lat, lon, conf, source)
    else mret (lat, lon, conf, source).

(** The guarded block: cache first, else the attempts, then the cache
    store and the delay. *)
Definition resolve (net : network) (a : args) (row : pydict)
    (primary_addr : string) (lat lon conf source : pyval) : M (triple * pyval) :=
  if negb (truthy lat && truthy lon) && nonempty primary_addr then
    let cache_key := primary_addr in
    hit ← cache_lookup cache_key;
    match hit with
    | Some (lat, lon, conf) => mret (lat, lon, conf, source)
    | None =>
        '(lat, lon, conf, source) ← attempts net row primary_addr source;
        _ ← cache_store cache_key (lat, lon, conf);
        _ ← time_sleep (sleep a);
        mret (lat, lon, conf, source)
    end
  else mret (lat, lon, conf, source).

(** [round(float(v), n)] unless [v] is [None]. *)
Definition round_coord (v : pyval) (n : Z) : res pyval :=
  if is_none v then Ok v
  else
    x ← py_float v;
    y ← py_round x n;
    Ok (VFloat y).

(** The [try] block around both roundings: an exception leaves the
    assignments already made and skips the rest. *)
Definition round_coords (lat lon : pyval) (n : Z) : pyval * pyval :=
  match round_coord lat n with
  | Raise _ => (lat, lon)
  | Ok lat' =>
      match round_coord lon n with
      | Raise _ => (lat', lon)
      | Ok lon' => (lat', lon')
      end
  end.

Definition U_PRIMARY := "Unmatched_Primary_Address".
Definition U_HOSPITAL := "Unmatched_Hospital_Address".
Definition U_CITY := "Unmatched_City_Address".

Definition set_results (lat lon source conf : pyval) (row : pydict) : pydict :=
  dict_set CONF conf (dict_set SRC source (dict_set LON lon (dict_set LAT lat row))).

Definition unmatched_copy (primary_addr : string) (row : pydict) : pydict :=
  let row_copy := row in
  let row_copy := dict_set U_PRIMARY (VStr primary_addr) row_copy in
  let row_copy := dict_set U_HOSPITAL (VStr (build_hospital_address row)) row_copy in
  dict_set U_CITY (VStr (build_city_address row)) row_copy.

(** One iteration of [for idx in range(args.start, end)]. *)
Definition process_row (net : network) (a : args) (fieldnames : list string)
    (idx : Z) : M unit :=
  row ← get_row idx;
  let primary_addr := build_primary_address row in
  let lat := get_or row LAT VNone in
  let lon := get_or row LON VNone in
  let conf := get_or row CONF VNone in
  let source := py_or (get_or row SRC VNone) (VStr "census") in
  '(lat, lon, conf, source) ← resolve net a row primary_addr lat lon conf source;
  let '(lat, lon) := round_coords lat lon (round_decimals a) in
  let row := set_results lat lon source conf row in
  _ ← store_row idx row;
  _ ← (if is_none lat || is_none lon
       then append_unmatched (unmatched_copy primary_addr row)
       else mret tt);
  writerow fieldnames row.

Fixpoint for_each (body : Z -> M unit) (l : list Z) : M unit :=
  match l with
  | [] => mret tt
  | i :: l' => _ ← body i; for_each body l'
  end.

(** [range(lo, hi)] *)
Definition py_range (lo hi : Z) : list Z :=
  map (fun k => lo + Z.of_nat k) (seq 0 (Z.to_nat (hi - lo))).

(** ** [main] *)

Record csvfile : Type := mkCsv {
  header : list string;
  records : list (list pyval) }.

Inductive status : Type :=
| NoRows                         (* "No data rows found in CSV." *)
| MissingColumn (col : string)   (* "ERROR: Column ... not found" *)
| Finished
| Aborted (e : exn).

Record outcome : Type := mkOutcome {
  result : status;
  final : state;
  files : list (string * csvfile) }.   (* files written, in order *)

Definition required_columns : list string :=
  [STREET_COL; CITY_COL; STATE_COL; ZIP_COL; HOSP_COL].

Definition result_columns : list string := [LAT; LON; SRC; CONF].

Definition output_fieldnames (headers : list string) : list string :=
  fold_left (fun fieldnames col =>
               if mem col fieldnames then fieldnames else fieldnames ++ [col])
            result_columns headers.

Definition range_end (a : args) (n : nat) : Z :=
  match limit a with
  | None => Z.of_nat n
  | Some l => Z.min (Z.of_nat n) (start a + l)
  end.

Definition initial (table : list pydict) : state :=
  mkState table ∅ [] [] [].

(** Writes rows one after the other; stops at the first refused one. *)
Fixpoint write_rows (fieldnames : list string) (rs : list pydict)
    (written : list (list pyval)) : res unit * list (list pyval) :=
  match rs with
  | [] => (Ok tt, written)
  | r :: rs' =>
      match dict_to_list fieldnames r with
      | Ok rec => write_rows fieldnames rs' (written ++ [rec])
      | Raise e => (Raise e, written)
      end
  end.

Definition unmatched_path := "unmatched_geocode.csv".

Definition main (net : network) (a : args) (table : list pydict) : outcome :=
  let s0 := initial table in
  match table with
  | [] => mkOutcome NoRows s0 []
  | row0 :: _ =>
      let headers := dict_keys row0 in
      match List.find (fun col => negb (mem col headers)) required_columns with
      | Some col => mkOutcome (MissingColumn col) s0 []
      | None =>
          let fieldnames := output_fieldnames headers in
          let end_ := range_end a (length table) in
          let '(r, s) := for_each (process_row net a fieldnames)
                                  (py_range (start a) end_) s0 in
          let out := (outfile a, mkCsv fieldnames (fout s)) in
          match r with
          | Raise e => mkOutcome (Aborted e) s [out]
          | Ok _ =>
              match unmatched_rows s with
              | [] => mkOutcome Finished s [out]
              | u0 :: _ =>
                  let u_fieldnames := dict_keys u0 in
                  let '(r', written) := write_rows u_fieldnames (unmatched_rows s) [] in
                  let files := [out; (unmatched_path, mkCsv u_fieldnames written)] in
                  match r' with
                  | Ok _ => mkOutcome Finished s files
                  | Raise e => mkOutcome (Aborted e) s files
                  end
              end
          end
      end
  end.

(** ** A sample run *)

Definition candidate (x y : float) (side : string) : pyval :=
  VDict [ ("matchedAddress", VStr "...");
          ("coordinates", VDict [("x", VFloat x); ("y", VFloat y)]);
          ("tigerLine", VDict [("side", VStr side); ("tigerLineId", VStr "76225813")]) ].

Definition matches_body (l : list pyval) : pyval :=
  VDict [("result", VDict [("input", VDict []); ("addressMatches", VList l)])].

Definition sample_net : network := fun _ address =>
  if String.eqb address "900 23rd St NW, Washington, DC" then
    Body (matches_body [candidate (b64 (-77.050556)) (b64 38.900712776) "L";
                        candidate (b64 (-77.1)) (b64 38.8) "R"])
  else if String.eqb address "Richmond, VA" then
    Body (matches_body [candidate (b64 (-77.43605)) (b64 37.54072) "R"])
  else Body (matches_body []).

Definition mk_row (name street city st : string) : pydict :=
  [ (HOSP_COL, VStr name); (STREET_COL, VStr street); (CITY_COL, VStr city);
    (STATE_COL, VStr st); (ZIP_COL, VStr "") ].

Definition sample_table : list pydict :=
  [ mk_row "GW Hospital" "900 23rd St NW" "Washington" "DC";
    mk_row "GW Annex" " 900 23rd St NW" "Washington" "DC";
    mk_row "Nowhere Clinic" "1 Unknown Rd" "Richmond" "VA";
    mk_row "Other Clinic" "2 Unknown Rd" "Richmond" "VA";
    mk_row "Lost Clinic" "3 Unknown Rd" "Atlantis" "ZZ" ].

Definition sample_args : args := mkArgs "out.csv" (b64 0.25) 5 0 None.

Definition with_results (row : pydict) (lat lon src conf : string) : pydict :=
  row ++ [(LAT, VStr lat); (LON, VStr lon); (SRC, VStr src); (CONF, VStr conf)].

Definition bad_latitude_table : list pydict :=
  [ with_results (mk_row "GW Hospital" "900 23rd St NW" "Washington" "DC")
                 "n/a" "-77.123456789" "" "" ].

Definition precise_row : pydict :=
  with_results (mk_row "GW Hospital" "900 23rd St NW" "Washington" "DC")
               "38.123456789" "-77.5" "census_primary" "L".


Definition sample_headers : list string :=
  output_fieldnames (dict_keys (mk_row "" "" "" "")).

(** ** Vocabulary of the statements *)

Definition add_events (s : state) (evs : list event) : state :=
  mkState (rows s) (cache s) (unmatched_rows s) (fout s) (trace s ++ evs).

(** Addresses sent to the service, in order. *)
Definition requests (evs : list event) : list string :=
  omap (fun e => match e with Get x => Some x | Sleep _ => None end) evs.

Definition sleeps (evs : list event) : list float :=
  omap (fun e => match e with Sleep d => Some d | Get _ => None end) evs.

(** Result of one lookup of [address] when the events so far are [tr]. *)
Definition answer (net : network) (tr : list event) (address : string) : res triple :=
  match net tr address with
  | Failed e => Raise e
  | Body data => parse_body data
  end.

Definition matched_answer (r : res triple) : Prop :=
  exists lat lon conf, r = Ok (lat, lon, conf) /\ matched lat lon = true.

Definition unmatched_answer (r : res triple) : Prop :=
  exists lat lon conf, r = Ok (lat, lon, conf) /\ matched lat lon = false.

Definition matched_t (t : triple) : bool := matched t.1.1 t.1.2.

(** How the answers of the service decide which attempts are made and what
    the block yields.  [hosp_tried] and [city_tried] tell whether the second
    and third attempt were made; [tr] is the trace when the block starts. *)
Definition chain_facts (net : network) (tr : list event) (p h c : string)
    (source : pyval) (hosp_tried city_tried : bool) (r : res (triple * pyval)) : Prop :=
  let a1 := answer net tr p in
  let a2 := answer net (tr ++ [Get p]) h in
  let a3 := answer net (tr ++ Get p :: (if hosp_tried then [Get h] else [])) c in
  (hosp_tried = true <-> unmatched_answer a1 /\ nonempty h = true /\ h <> p)
  /\ (city_tried = true <->
      unmatched_answer a1 /\ (hosp_tried = true -> unmatched_answer a2)
      /\ nonempty c = true)
  /\ (forall e, a1 = Raise e -> r = Raise e)
  /\ (forall e, hosp_tried = true -> a2 = Raise e -> r = Raise e)
  /\ (forall e, city_tried = true -> a3 = Raise e -> r = Raise e)
  /\ (forall t, city_tried = true -> a3 = Ok t ->
      r = Ok (t, if matched_t t then VStr "census_city" else source))
  /\ (forall t, city_tried = false -> hosp_tried = true -> a2 = Ok t ->
      r = Ok (t, if matched_t t then VStr "census_hospital" else source))
  /\ (forall t, city_tried = false -> hosp_tried = false -> a1 = Ok t ->
      r = Ok (t, if matched_t t then VStr "census_primary" else source)).

Definition chain_events (p h c : string) (hosp_tried city_tried : bool) : list event :=
  Get p :: (if hosp_tried then [Get h] else []) ++ (if city_tried then [Get c] else []).

(** The condition guarding the lookup block of a row. *)
Definition needs_lookup (row : pydict) : bool :=
  negb (truthy (get_or row LAT VNone) && truthy (get_or row LON VNone))
  && nonempty (build_primary_address row).

(** The row as it is stored and written once the lookup block gave the
    triple [t] and the source tag [src]. *)
Definition final_row (a : args) (row : pydict) (t : triple) (src : pyval) : pydict :=
  let '(lat, lon) := round_coords t.1.1 t.1.2 (round_decimals a) in
  set_results lat lon src t.2 row.

Definition is_unmatched (row : pydict) : bool :=
  is_none (get_or row LAT VNone) || is_none (get_or row LON VNone).

Definition existing (row : pydict) : triple :=
  (get_or row LAT VNone, get_or row LON VNone, get_or row CONF VNone).

Definition existing_source (row : pydict) : pyval :=
  py_or (get_or row SRC VNone) (VStr "census").

Definition resolve_row (net : network) (a : args) (row : pydict) : M (triple * pyval) :=
  resolve net a row (build_primary_address row) (get_or row LAT VNone)
          (get_or row LON VNone) (get_or row CONF VNone) (existing_source row).

Definition tier_tags : list string :=
  ["census_primary"; "census_hospital"; "census_city"].

(** What an iteration does once the lookup block has left the state [s1]
    with the triple [t] and the source [src]. *)
Definition stored (a : args) (fieldnames : list string) (i : nat) (row : pydict)
    (t : triple) (src : pyval) (s1 : state) : res unit * state :=
  let row' := final_row a row t src in
  let um := unmatched_rows s1 ++
              (if is_unmatched row'
               then [unmatched_copy (build_primary_address row) row'] else []) in
  match dict_to_list fieldnames row' with
  | Ok rec => (Ok tt, mkState (<[i := row']> (rows s1)) (cache s1) um
                              (fout s1 ++ [rec]) (trace s1))
  | Raise e => (Raise e, mkState (<[i := row']> (rows s1)) (cache s1) um
                                 (fout s1) (trace s1))
  end.

(** ** Vocabulary of the further properties *)

(** White space only: what [strip] turns into the empty string. *)
Fixpoint blank (s : string) : bool :=
  match s with
  | EmptyString => true
  | String c s' => is_space c && blank s'
  end.

(** The text of a cell as the address builders read it, before [strip]. *)
Definition cell_text (row : pydict) (col : string) : string :=
  py_str (get_or row col (VStr "")).

(** The indices that the loop of [main] goes through. *)
Definition iterations (a : args) (table : list pydict) : list Z :=
  py_range (start a) (range_end a (length table)).

(** Two rows agree outside the four result columns. *)
Definition same_input (r r0 : pydict) : Prop :=
  forall col dflt, ~ In col result_columns -> get_or r col dflt = get_or r0 col dflt.

(** The source tags an iteration can store for a row: the row's own source,
    [census] in its place, or one of the three tier tags. *)
Definition possible_source (row : pydict) (src : pyval) : Prop :=
  src = existing_source row \/ exists tag, In tag tier_tags /\ src = VStr tag.






(** A service that is down, a row of blank cells, and a negative delay. *)
Definition failing_net : network := fun _ _ => Failed RequestException.

Definition blank_row : pydict := with_results (mk_row "" "" "" "") "" "" "" "".

Definition hasty_args : args := mkArgs "out.csv" (b64 (-1)) 5 0 None.

(** * Properties *)

(** ** Address builders *)

Example build_primary_row_a :
  build_primary_address row_a = "900 23rd St NW, Washington, DC".
Proof. reflexivity. Qed.

Example build_hospital_row_a :
  build_hospital_address row_a = "General Hospital, Washington, DC".
Proof. reflexivity. Qed.

Example build_city_row_a : build_city_address row_a = "Washington, DC".
Proof. reflexivity. Qed.

(** ** Effects of the primitive steps *)

Lemma add_events_app s e1 e2 :
  add_events (add_events s e1) e2 = add_events s (e1 ++ e2).
Proof. unfold add_events; simpl. by rewrite <- app_assoc. Qed.

Lemma census_geocode_run net address s :
  nonempty address = true ->
  census_geocode net address s
  = (answer net (trace s) address, add_events s [Get address]).
Proof.
  intros H. unfold census_geocode, answer, mbind, M_bind, requests_get, lift, add_events.
  rewrite H; simpl. by destruct (net (trace s) address).
Qed.

Lemma census_geocode_empty net address s :
  nonempty address = false -> census_geocode net address s = (Ok absent, s).
Proof. intros H. unfold census_geocode. by rewrite H. Qed.

Lemma matched_or_not (r : res triple) :
  matched_answer r \/ unmatched_answer r \/ exists e, r = Raise e.
Proof.
  destruct r as [[[lat lon] conf]|e]; [|eauto].
  destruct (matched lat lon) eqn:E; [left|right; left]; by exists lat, lon, conf.
Qed.

Lemma matched_not_unmatched r : matched_answer r -> unmatched_answer r -> False.
Proof. intros (?&?&?&->&?) (?&?&?&[=]&?); congruence. Qed.

(** ** The three attempts *)

Section Attempts.
Context (net : network) (row : pydict) (p : string) (source : pyval).
Let h := build_hospital_address row.
Let c := build_city_address row.

Lemma attempts_spec s :
  nonempty p = true ->
  exists (hosp_tried city_tried : bool) r,
    attempts net row p source s
    = (r, add_events s (chain_events p h c hosp_tried city_tried))
    /\ chain_facts net (trace s) p h c source hosp_tried city_tried r.
Proof.
  intros Hp. unfold chain_facts, chain_events, attempts, mbind, M_bind, mret, M_ret.
  rewrite census_geocode_run by done.
  fold h c.
  destruct (answer net (trace s) p) as [[[lat1 lon1] conf1]|e1] eqn:A1.
  2:{ exists false, false, (Raise e1). simpl. repeat split; try done.
      - intros ((?&?&?&?&?)&_); done.
      - intros ((?&?&?&?&?)&_); done.
      - by intros ? [= ->]. }
  destruct (matched lat1 lon1) eqn:M1.
  { exists false, false, (Ok (lat1, lon1, conf1, VStr "census_primary")).
    simpl. repeat split; try done.
    - intros ((?&?&?&[= <- <- <-]&?)&_); congruence.
    - intros ((?&?&?&[= <- <- <-]&?)&_); congruence.
    - intros t _ _ [= <-]. unfold matched_t; simpl. by rewrite M1. }
  assert (U1 : unmatched_answer (Ok (lat1, lon1, conf1))) by (by exists lat1, lon1, conf1).
  assert (N1 : is_none lat1 || is_none lon1 = true).
  { unfold matched in M1. destruct (is_none lat1), (is_none lon1); done. }
  destruct (nonempty h && negb (String.eqb h p)) eqn:HO.
  - (* hospital name tried *)
    apply andb_true_iff in HO as [Hh Hne]. apply negb_true_iff, String.eqb_neq in Hne.
    rewrite census_geocode_run by done. simpl.
    destruct (answer net (trace s ++ [Get p]) h) as [[[lat2 lon2] conf2]|e2] eqn:A2.
    2:{ exists true, false, (Raise e2). simpl. rewrite ?A2, add_events_app. repeat split; try done.
        - intros (_&H2&_). destruct (H2 eq_refl) as (?&?&?&?&?); done.
        - by intros ? _ [= ->]. }
    destruct (matched lat2 lon2) eqn:M2.
    + assert (N2 : is_none lat2 || is_none lon2 = false).
      { unfold matched in M2. destruct (is_none lat2), (is_none lon2); done. }
      rewrite N2.
      exists true, false, (Ok (lat2, lon2, conf2, VStr "census_hospital")).
      simpl. rewrite ?A2, add_events_app. repeat split; try done.
      * intros (_&H2&_). destruct (H2 eq_refl) as (?&?&?&[= <- <- <-]&?); congruence.
      * intros t _ _ [= <-]. unfold matched_t; simpl. by rewrite M2.
    + assert (N2 : is_none lat2 || is_none lon2 = true).
      { unfold matched in M2. destruct (is_none lat2), (is_none lon2); done. }
      assert (U2 : unmatched_answer (Ok (lat2, lon2, conf2))) by (by exists lat2, lon2, conf2).
      rewrite N2. destruct (nonempty c) eqn:Hc.
      * rewrite census_geocode_run by done. simpl.
        rewrite !add_events_app. simpl.
        destruct (answer net ((trace s ++ [Get p]) ++ [Get h]) c)
          as [[[lat3 lon3] conf3]|e3] eqn:A3;
          rewrite <- app_assoc in A3; simpl in A3.
        -- exists true, true,
             (Ok (lat3, lon3, conf3,
                  if matched lat3 lon3 then VStr "census_city" else source)).
           simpl. rewrite ?A2, ?A3. repeat split; try done.
           by intros t _ [= <-].
        -- exists true, true, (Raise e3). simpl. rewrite ?A2, ?A3.
           repeat split; try done. by intros ? _ [= ->].
      * exists true, false, (Ok (lat2, lon2, conf2, source)).
        simpl. rewrite ?A2, add_events_app. repeat split; try done.
        -- intros (_&_&?); done.
        -- intros t _ _ [= <-]. unfold matched_t; simpl. by rewrite M2.
  - (* hospital name skipped *)
    assert (HO' : ~ (nonempty h = true /\ h <> p)).
    { intros [Hh Hne]. apply String.eqb_neq in Hne. by rewrite Hh, Hne in HO. }
    simpl. rewrite N1. destruct (nonempty c) eqn:Hc.
    + rewrite census_geocode_run by done. simpl. rewrite add_events_app. simpl.
      destruct (answer net (trace s ++ [Get p]) c) as [[[lat3 lon3] conf3]|e3] eqn:A3.
      * exists false, true,
          (Ok (lat3, lon3, conf3,
               if matched lat3 lon3 then VStr "census_city" else source)).
        simpl. rewrite ?A3. repeat split; try done.
        -- intros (_&?&?); exfalso; by apply HO'.
        -- by intros t _ [= <-].
      * exists false, true, (Raise e3). simpl. rewrite ?A3.
        repeat split; try done.
        -- intros (_&?&?); exfalso; by apply HO'.
        -- by intros ? _ [= ->].
    + exists false, false, (Ok (lat1, lon1, conf1, source)).
      simpl. repeat split; try done.
      * intros (_&?&?); exfalso; by apply HO'.
      * intros (_&_&?); done.
      * intros t _ _ [= <-]. unfold matched_t; simpl. by rewrite M1.
Qed.
End Attempts.

(** ** Dictionaries *)

Lemma dict_get_set_eq k v d : dict_get (dict_set k v d) k = Some v.
Proof.
  induction d as [|[k' v'] d IH]; simpl.
  - by rewrite String.eqb_refl.
  - destruct (String.eqb k k') eqn:E; simpl.
    + by rewrite String.eqb_refl.
    + by rewrite E.
Qed.

Lemma dict_get_set_ne k k' v d :
  k <> k' -> dict_get (dict_set k v d) k' = dict_get d k'.
Proof.
  intros Hne. induction d as [|[k0 v0] d IH]; simpl.
  - apply String.eqb_neq in Hne. rewrite String.eqb_sym. by rewrite Hne.
  - destruct (String.eqb k k0) eqn:E; simpl.
    + apply String.eqb_eq in E as <-.
      destruct (String.eqb k' k) eqn:E'; [|done].
      apply String.eqb_eq in E'. congruence.
    + by rewrite IH.
Qed.

Lemma get_or_set_eq k v d dflt : get_or (dict_set k v d) k dflt = v.
Proof. unfold get_or. by rewrite dict_get_set_eq. Qed.

Lemma get_or_set_ne k k' v d dflt :
  k <> k' -> get_or (dict_set k v d) k' dflt = get_or d k' dflt.
Proof. intros. unfold get_or. by rewrite dict_get_set_ne. Qed.

Lemma get_or_some d k v dflt : dict_get d k = Some v -> get_or d k dflt = v.
Proof. unfold get_or. by intros ->. Qed.

(** Keys after an assignment: the same list, or one more key at the end. *)
Lemma dict_keys_set k v d :
  dict_keys (dict_set k v d)
  = if mem k (dict_keys d) then dict_keys d else dict_keys d ++ [k].
Proof.
  induction d as [|[k' v'] d IH]; simpl; [done|].
  destruct (String.eqb k k') eqn:E; simpl.
  - apply String.eqb_eq in E. by subst.
  - unfold dict_keys in *. rewrite IH. unfold mem. by destruct (existsb _ _).
Qed.

Lemma mem_true_iff k l : mem k l = true <-> In k l.
Proof.
  unfold mem. rewrite existsb_exists. split.
  - intros (x&Hx&E). apply String.eqb_eq in E. by subst.
  - intros H. exists k. split; [done|]. apply String.eqb_refl.
Qed.

(** ** One row *)

Section Resolve.
Context (net : network) (a : args) (row : pydict).
Let p := build_primary_address row.

Lemma resolve_skip s :
  needs_lookup row = false ->
  resolve_row net a row s = (Ok (existing row, existing_source row), s).
Proof.
  unfold needs_lookup, resolve_row, resolve. fold p. intros ->. done.
Qed.

Lemma resolve_hit s t :
  needs_lookup row = true -> cache s !! p = Some t ->
  resolve_row net a row s = (Ok (t, existing_source row), s).
Proof.
  unfold needs_lookup, resolve_row, resolve. fold p. intros -> Hc.
  unfold mbind, M_bind, cache_lookup. rewrite Hc.
  by destruct t as [[lat lon] conf].
Qed.

Lemma resolve_miss s :
  needs_lookup row = true -> cache s !! p = None ->
  resolve_row net a row s =
  match attempts net row p (existing_source row) s with
  | (Ok (t, src), s1) =>
      let s2 := mkState (rows s1) (<[p := t]> (cache s1)) (unmatched_rows s1)
                        (fout s1) (trace s1) in
      match sleep_refusal (sleep a) with
      | None => (Ok (t, src), add_events s2 [Sleep (sleep a)])
      | Some e => (Raise e, s2)
      end
  | (Raise e, s1) => (Raise e, s1)
  end.
Proof.
  unfold needs_lookup, resolve_row, resolve. fold p. intros -> Hc.
  unfold mbind, M_bind, cache_lookup. rewrite Hc.
  destruct (attempts net row p (existing_source row) s) as [[[[[lat lon] conf] src]|e] s1];
    [|done].
  unfold cache_store, time_sleep, emit, lift, mret, M_ret, add_events; simpl.
  by destruct (sleep_refusal (sleep a)).
Qed.
End Resolve.

Lemma results_set_results lat lon src conf row :
  let row' := set_results lat lon src conf row in
  get_or row' LAT VNone = lat /\ get_or row' LON VNone = lon
  /\ get_or row' SRC VNone = src /\ get_or row' CONF VNone = conf.
Proof.
  unfold set_results; simpl.
  repeat split;
    repeat first [ apply get_or_set_eq | rewrite get_or_set_ne by done ].
Qed.

Lemma is_unmatched_set_results lat lon src conf row :
  is_unmatched (set_results lat lon src conf row) = is_none lat || is_none lon.
Proof.
  unfold is_unmatched.
  destruct (results_set_results lat lon src conf row) as (-> & -> & _). done.
Qed.

(** What follows the lookup block: rounding, the four assignments, the
    unmatched copy and the output record. *)
Lemma process_row_run net a fieldnames idx s i row :
  py_index (length (rows s)) idx = Some i ->
  rows s !! i = Some row ->
  process_row net a fieldnames idx s =
  match resolve_row net a row s with
  | (Ok (t, src), s1) =>
      let row' := final_row a row t src in
      match py_index (length (rows s1)) idx with
      | Some j =>
          let s2 := mkState (<[j := row']> (rows s1)) (cache s1)
                      (unmatched_rows s1 ++
                         (if is_unmatched row'
                          then [unmatched_copy (build_primary_address row) row']
                          else []))
                      (fout s1) (trace s1) in
          match dict_to_list fieldnames row' with
          | Ok rec =>
              (Ok tt, mkState (rows s2) (cache s2) (unmatched_rows s2)
                              (fout s2 ++ [rec]) (trace s2))
          | Raise e => (Raise e, s2)
          end
      | None => (Raise IndexError, s1)
      end
  | (Raise e, s1) => (Raise e, s1)
  end.
Proof.
  intros Hi Hrow.
  unfold process_row, mbind, M_bind, get_row. rewrite Hi, Hrow.
  change (resolve net a row _ _ _ _ _ s) with (resolve_row net a row s).
  destruct (resolve_row net a row s) as [[[[[lat lon] conf] src]|e] s1]; [|done].
  unfold final_row; simpl.
  destruct (round_coords lat lon (round_decimals a)) as [lat' lon'] eqn:R.
  rewrite (is_unmatched_set_results lat' lon' src conf row).
  unfold store_row.
  destruct (py_index (length (rows s1)) idx) as [j|]; [|done]. simpl.
  unfold writerow, append_unmatched, mret, M_ret.
  destruct (is_none lat' || is_none lon'); simpl;
    destruct (dict_to_list fieldnames _); simpl; try done.
  - by rewrite app_nil_r.
  - by rewrite app_nil_r.
Qed.

(** The four result columns are not address columns: the addresses of a
    row are the same before and after the assignments. *)
Lemma field_set_results lat lon src conf row col :
  In col (HOSP_COL :: required_columns) ->
  field (set_results lat lon src conf row) col = field row col.
Proof.
  intros Hin. unfold field, set_results.
  rewrite !get_or_set_ne; [done|..];
    intros <-; simpl in Hin; repeat destruct Hin as [Hin|Hin]; done.
Qed.

Lemma addresses_final_row a row t src :
  build_primary_address (final_row a row t src) = build_primary_address row
  /\ build_hospital_address (final_row a row t src) = build_hospital_address row
  /\ build_city_address (final_row a row t src) = build_city_address row.
Proof.
  unfold final_row. destruct (round_coords _ _ _) as [lat lon].
  unfold build_primary_address, build_hospital_address, build_city_address.
  rewrite !field_set_results by (simpl; auto 10). done.
Qed.

(** The lookup block touches the cache and the trace only. *)
Lemma attempts_frame net row p src s :
  nonempty p = true ->
  exists r evs, attempts net row p src s = (r, add_events s evs) /\ evs <> []
    /\ (forall x, In x (requests evs) ->
        x = p \/ x = build_hospital_address row \/ x = build_city_address row)
    /\ sleeps evs = [].
Proof.
  intros Hp. destruct (attempts_spec net row p src s Hp) as (b1&b2&r&H&_).
  eexists _, _. split; [exact H|]. split; [done|].
  unfold chain_events. split; [|by destruct b1, b2].
  intros x. destruct b1, b2; simpl; intuition auto.
Qed.

Lemma resolve_row_frame net a row s :
  exists r c' evs,
    resolve_row net a row s
    = (r, mkState (rows s) c' (unmatched_rows s) (fout s) (trace s ++ evs))
    /\ (forall k t, cache s !! k = Some t -> c' !! k = Some t)
    /\ (c' = cache s \/
        exists t, cache s !! build_primary_address row = None
                  /\ c' = <[build_primary_address row := t]> (cache s)).
Proof.
  destruct (needs_lookup row) eqn:N.
  2:{ rewrite resolve_skip by done. eexists _, (cache s), [].
      rewrite app_nil_r. destruct s; simpl; eauto. }
  destruct (cache s !! build_primary_address row) as [t|] eqn:C.
  { rewrite (resolve_hit _ _ _ _ t) by done. eexists _, (cache s), [].
    rewrite app_nil_r. destruct s; simpl; eauto. }
  rewrite resolve_miss by done.
  assert (Hp : nonempty (build_primary_address row) = true).
  { unfold needs_lookup in N. by apply andb_true_iff in N as [_ ?]. }
  destruct (attempts_frame net row _ (existing_source row) s Hp) as (r&evs&->&_).
  destruct r as [[t src]|e].
  - destruct (sleep_refusal (sleep a)); simpl.
    + eexists _, _, evs. split; [done|]. split; [|eauto].
      intros k t' Hk. rewrite lookup_insert_ne; [done|]. congruence.
    + eexists _, _, (evs ++ [Sleep (sleep a)]). unfold add_events; simpl.
      rewrite app_assoc. split; [done|]. split; [|eauto].
      intros k t' Hk. rewrite lookup_insert_ne; [done|]. congruence.
  - eexists _, (cache s), evs. unfold add_events. eauto.
Qed.

Lemma process_row_after net a fieldnames idx s i row t src s1 :
  py_index (length (rows s)) idx = Some i ->
  rows s !! i = Some row ->
  resolve_row net a row s = (Ok (t, src), s1) ->
  rows s1 = rows s ->
  let row' := final_row a row t src in
  let um := unmatched_rows s1 ++
              (if is_unmatched row'
               then [unmatched_copy (build_primary_address row) row'] else []) in
  process_row net a fieldnames idx s =
  match dict_to_list fieldnames row' with
  | Ok rec => (Ok tt, mkState (<[i := row']> (rows s)) (cache s1) um
                              (fout s1 ++ [rec]) (trace s1))
  | Raise e => (Raise e, mkState (<[i := row']> (rows s)) (cache s1) um
                                 (fout s1) (trace s1))
  end.
Proof.
  intros Hi Hrow Hres Hrows. rewrite (process_row_run _ _ _ _ _ i row) by done.
  rewrite Hres, Hrows, Hi. simpl. by destruct (dict_to_list _ _).
Qed.

(** ** Rounding *)

Lemma round_coord_is_none v n v' :
  round_coord v n = Ok v' -> is_none v' = is_none v.
Proof.
  unfold round_coord. destruct (is_none v) eqn:E.
  - by intros [= <-].
  - unfold mbind, res_bind. destruct (py_float v) as [x|]; [|done].
    destruct (py_round x n); [|done]. by intros [= <-].
Qed.

(** Rounding never turns a coordinate into [None] nor [None] into one. *)
Lemma round_coords_is_none lat lon n :
  is_none (round_coords lat lon n).1 = is_none lat
  /\ is_none (round_coords lat lon n).2 = is_none lon.
Proof.
  unfold round_coords.
  destruct (round_coord lat n) as [lat'|e1] eqn:E1; [|done].
  destruct (round_coord lon n) as [lon'|e2] eqn:E2; simpl;
    eauto using round_coord_is_none.
Qed.

Lemma final_row_results a row t src :
  let row' := final_row a row t src in
  (get_or row' LAT VNone, get_or row' LON VNone)
  = round_coords t.1.1 t.1.2 (round_decimals a)
  /\ get_or row' SRC VNone = src /\ get_or row' CONF VNone = t.2.
Proof.
  unfold final_row. destruct (round_coords _ _ _) as [lat lon].
  destruct (results_set_results lat lon src t.2 row) as (->&->&->&->). done.
Qed.

Lemma final_row_unmatched a row t src :
  is_unmatched (final_row a row t src) = negb (matched_t t).
Proof.
  unfold is_unmatched.
  destruct (final_row_results a row t src) as (H&_).
  apply (f_equal (fun x => (is_none x.1, is_none x.2))) in H; simpl in H.
  destruct (round_coords_is_none t.1.1 t.1.2 (round_decimals a)) as [E1 E2].
  rewrite E1, E2 in H. injection H as -> ->.
  unfold matched_t, matched. by destruct (is_none t.1.1), (is_none t.1.2).
Qed.

(** * The claims *)

(** ** C6: the single-address lookup *)

(** C6.  [census_geocode] on the empty address returns the absent result
    and leaves the state, hence the trace, as it is: no request is made.  On
    a non-empty address exactly one request is recorded; when the decoded
    body lists no candidate the result is absent, and otherwise the result
    is read off the first candidate alone, whatever follows it: its [y] and
    [x] coordinates as latitude and longitude, and the [side] of its
    [tigerLine] as confidence. *)
Theorem C6_census_geocode :
  (forall net s, census_geocode net "" s = (Ok absent, s))
  /\ (forall net address s d r cands,
        nonempty address = true ->
        net (trace s) address = Body (VDict d) ->
        dict_get d "result" = Some (VDict r) ->
        dict_get r "addressMatches" = Some (VList cands) ->
        exists res,
          census_geocode net address s = (res, add_events s [Get address])
          /\ (cands = [] -> res = Ok absent)
          /\ (forall top rest co tl,
                cands = VDict top :: rest ->
                dict_get top "coordinates" = Some (VDict co) ->
                dict_get top "tigerLine" = Some (VDict tl) ->
                res = Ok (get_or co "y" VNone, get_or co "x" VNone,
                          get_or tl "side" VNone))).
Proof.
  split; [done|].
  intros net address s d r cands Ha Hnet Hd Hr.
  rewrite census_geocode_run by done. eexists. split; [done|].
  unfold answer. rewrite Hnet.
  assert (Td : py_or (VDict d) (VDict []) = VDict d) by (by destruct d).
  assert (Tr : py_or (VDict r) (VDict []) = VDict r) by (by destruct r).
  unfold parse_body, mbind, res_bind. rewrite Td. simpl.
  rewrite (get_or_some _ _ _ VNone Hd), Tr. simpl.
  rewrite (get_or_some _ _ _ VNone Hr).
  split.
  - by intros ->.
  - intros top rest co tl -> Hco Htl. simpl.
    assert (Tc : py_or (VDict co) (VDict []) = VDict co) by (by destruct co).
    assert (Tt : py_or (VDict tl) (VDict []) = VDict tl) by (by destruct tl).
    rewrite (get_or_some _ _ _ VNone Hco), Tc. simpl.
    by rewrite (get_or_some _ _ _ VNone Htl), Tt.
Qed.

Lemma C6_census_geocode_witness :
  exists res,
    census_geocode sample_net "900 23rd St NW, Washington, DC" (initial [])
    = (res, add_events (initial []) [Get "900 23rd St NW, Washington, DC"])
    /\ res = Ok (VFloat (b64 38.900712776), VFloat (b64 (-77.050556)), VStr "L").
Proof.
  destruct (proj2 C6_census_geocode sample_net "900 23rd St NW, Washington, DC"
              (initial []) _ _ _ eq_refl eq_refl eq_refl eq_refl)
    as (res & Hrun & _ & Hfirst).
  exists res. split; [exact Hrun|].
  exact (Hfirst _ _ _ _ eq_refl eq_refl eq_refl).
Defined.

(** ** C7: rounding *)

Lemma py_round_correct_examples :
  py_round (b64 40.712776) 5 = Ok (b64 40.71278)
  /\ py_round (b64 40.712776) 2 = Ok (b64 40.71).
Proof. split; vm_compute; reflexivity. Qed.

(** When the latitude is [None] or a number, each present numeric
    coordinate is rounded. *)
Lemma round_coord_numeric v n x y :
  py_float v = Ok x -> py_round x n = Ok y -> round_coord v n = Ok (VFloat y).
Proof.
  intros H1 H2. unfold round_coord, mbind, res_bind. rewrite H1, H2.
  by destruct v.
Qed.

Lemma round_coord_refused v n e :
  is_none v = false ->
  (py_float v = Raise e \/ exists x, py_float v = Ok x /\ py_round x n = Raise e) ->
  round_coord v n = Raise e.
Proof.
  intros N H. unfold round_coord, mbind, res_bind. rewrite N.
  destruct H as [->|(x&->&->)]; done.
Qed.

Lemma round_coords_numeric lat lon n x1 x2 y1 y2 :
  py_float lat = Ok x1 -> py_round x1 n = Ok y1 ->
  py_float lon = Ok x2 -> py_round x2 n = Ok y2 ->
  round_coords lat lon n = (VFloat y1, VFloat y2).
Proof.
  intros H1 R1 H2 R2. unfold round_coords.
  by rewrite (round_coord_numeric _ _ _ _ H1 R1), (round_coord_numeric _ _ _ _ H2 R2).
Qed.

Lemma round_coords_no_latitude lon n x y :
  py_float lon = Ok x -> py_round x n = Ok y ->
  round_coords VNone lon n = (VNone, VFloat y).
Proof.
  intros H R. unfold round_coords.
  by rewrite (round_coord_numeric _ _ _ _ H R).
Qed.

(** A value that [float()] refuses is left as it is. *)
Lemma round_coords_not_a_number lat lon n e :
  is_none lat = false -> py_float lat = Raise e ->
  round_coords lat lon n = (lat, lon).
Proof.
  intros H1 H2. unfold round_coords.
  by rewrite (round_coord_refused lat n e H1 (or_introl H2)).
Qed.

(** C7.  The rounding step on the input row with Latitude [n/a] and
    Longitude [-77.123456789] at precision 5: the run finishes without any
    request, [float] refuses the latitude, and the longitude, a present
    numeric coordinate, is written as it came, not as [-77.12346]; with no
    latitude at all the same longitude is rounded. *)
Theorem C7_longitude_left_unrounded :
  let o := main sample_net sample_args bad_latitude_table in
  result o = Finished
  /\ trace (final o) = []
  /\ (exists fieldnames rec,
        files o = [("out.csv", mkCsv fieldnames [rec])]
        /\ fieldnames !! 5%nat = Some LAT /\ rec !! 5%nat = Some (VStr "n/a")
        /\ fieldnames !! 6%nat = Some LON
        /\ rec !! 6%nat = Some (VStr "-77.123456789"))
  /\ round_coords VNone (VStr "-77.123456789") 5
     = (VNone, VFloat (b64 (-77.12346))).
Proof.
  cbv zeta. split; [by vm_compute|]. split; [by vm_compute|]. split.
  - eexists _, _. split; [vm_compute; reflexivity|]. by vm_compute.
  - by vm_compute.
Qed.

(** ** Rows that skip the lookups *)

Lemma process_row_skip net a fieldnames idx s i row :
  py_index (length (rows s)) idx = Some i ->
  rows s !! i = Some row ->
  needs_lookup row = false ->
  let row' := final_row a row (existing row) (existing_source row) in
  let s' := (process_row net a fieldnames idx s).2 in
  trace s' = trace s /\ cache s' = cache s /\ rows s' = <[i := row']> (rows s).
Proof.
  intros Hi Hrow N.
  rewrite (process_row_after net a fieldnames idx s i row
             (existing row) (existing_source row) s) by auto using resolve_skip.
  by destruct (dict_to_list _ _).
Qed.

Lemma process_row_hit net a fieldnames idx s i row t :
  py_index (length (rows s)) idx = Some i ->
  rows s !! i = Some row ->
  needs_lookup row = true ->
  cache s !! build_primary_address row = Some t ->
  let row' := final_row a row t (existing_source row) in
  let s' := (process_row net a fieldnames idx s).2 in
  trace s' = trace s /\ cache s' = cache s /\ rows s' = <[i := row']> (rows s).
Proof.
  intros Hi Hrow N C.
  rewrite (process_row_after net a fieldnames idx s i row
             t (existing_source row) s) by auto using resolve_hit.
  by destruct (dict_to_list _ _).
Qed.

(** ** The whole iteration, by cases *)

Lemma stored_fields a fieldnames i row t src s1 :
  let rs := stored a fieldnames i row t src s1 in
  let row' := final_row a row t src in
  rows rs.2 = <[i := row']> (rows s1)
  /\ cache rs.2 = cache s1
  /\ trace rs.2 = trace s1
  /\ unmatched_rows rs.2
     = unmatched_rows s1 ++
         (if is_unmatched row'
          then [unmatched_copy (build_primary_address row) row'] else [])
  /\ ((exists rec, dict_to_list fieldnames row' = Ok rec /\ rs.1 = Ok tt
                   /\ fout rs.2 = fout s1 ++ [rec])
      \/ (exists e, rs.1 = Raise e /\ fout rs.2 = fout s1)).
Proof.
  unfold stored. destruct (dict_to_list _ _) as [rec|e]; simpl; eauto 10.
Qed.

Lemma process_row_stored net a fieldnames idx s i row t src s1 :
  py_index (length (rows s)) idx = Some i ->
  rows s !! i = Some row ->
  resolve_row net a row s = (Ok (t, src), s1) ->
  rows s1 = rows s ->
  process_row net a fieldnames idx s = stored a fieldnames i row t src s1.
Proof.
  intros Hi Hrow Hres Hrows.
  rewrite (process_row_after _ _ _ _ _ i row t src s1) by done.
  unfold stored. by rewrite Hrows.
Qed.

Lemma process_row_raise net a fieldnames idx s i row e s1 :
  py_index (length (rows s)) idx = Some i ->
  rows s !! i = Some row ->
  resolve_row net a row s = (Raise e, s1) ->
  process_row net a fieldnames idx s = (Raise e, s1).
Proof.
  intros Hi Hrow Hres. rewrite (process_row_run _ _ _ _ _ i row) by done.
  by rewrite Hres.
Qed.

Section Iteration.
Context (net : network) (a : args) (fieldnames : list string).
Context (idx : Z) (s : state) (i : nat) (row : pydict).
Hypothesis Hi : py_index (length (rows s)) idx = Some i.
Hypothesis Hrow : rows s !! i = Some row.
Let p := build_primary_address row.
Let h := build_hospital_address row.
Let c := build_city_address row.

Lemma iteration_skip :
  needs_lookup row = false ->
  process_row net a fieldnames idx s
  = stored a fieldnames i row (existing row) (existing_source row) s.
Proof. intros N. apply process_row_stored; auto using resolve_skip. Qed.

Lemma iteration_hit t :
  needs_lookup row = true -> cache s !! p = Some t ->
  process_row net a fieldnames idx s
  = stored a fieldnames i row t (existing_source row) s.
Proof. intros N C. apply process_row_stored; auto using resolve_hit. Qed.

Lemma iteration_miss :
  needs_lookup row = true -> cache s !! p = None ->
  exists (hosp_tried city_tried : bool) r,
    chain_facts net (trace s) p h c (existing_source row) hosp_tried city_tried r
    /\ let evs := chain_events p h c hosp_tried city_tried in
       process_row net a fieldnames idx s =
       match r with
       | Raise e => (Raise e, add_events s evs)
       | Ok (t, src) =>
           let s2 := mkState (rows s) (<[p := t]> (cache s)) (unmatched_rows s)
                             (fout s) (trace s ++ evs) in
           match sleep_refusal (sleep a) with
           | None => stored a fieldnames i row t src (add_events s2 [Sleep (sleep a)])
           | Some e => (Raise e, s2)
           end
       end.
Proof.
  intros N C.
  assert (Hp : nonempty p = true).
  { unfold needs_lookup in N. by apply andb_true_iff in N as [_ ?]. }
  destruct (attempts_spec net row p (existing_source row) s Hp) as (b1&b2&r&Hat&Hf).
  exists b1, b2, r. split; [exact Hf|]. cbv zeta.
  pose proof (resolve_miss net a row s N C) as Hres. fold p in Hres.
  rewrite Hat in Hres. fold h c in Hres.
  destruct r as [[t src]|e].
  - simpl in Hres. destruct (sleep_refusal (sleep a)).
    + by eapply process_row_raise.
    + by apply process_row_stored.
  - by eapply process_row_raise.
Qed.
End Iteration.

Lemma matched_answer_t r :
  matched_answer r <-> exists t, r = Ok t /\ matched_t t = true.
Proof.
  split.
  - intros (lat&lon&conf&->&H). by exists (lat, lon, conf).
  - intros ([[lat lon] conf]&->&H). by exists lat, lon, conf.
Qed.

Lemma unmatched_answer_t r :
  unmatched_answer r <-> exists t, r = Ok t /\ matched_t t = false.
Proof.
  split.
  - intros (lat&lon&conf&->&H). by exists (lat, lon, conf).
  - intros ([[lat lon] conf]&->&H). by exists lat, lon, conf.
Qed.

Lemma requests_chain_events p h c (b1 b2 : bool) :
  requests (chain_events p h c b1 b2)
  = p :: (if b1 then [h] else []) ++ (if b2 then [c] else []).
Proof. by destruct b1, b2. Qed.

Lemma sleeps_chain_events p h c (b1 b2 : bool) :
  sleeps (chain_events p h c b1 b2) = [].
Proof. by destruct b1, b2. Qed.

Lemma requests_app e1 e2 : requests (e1 ++ e2) = requests e1 ++ requests e2.
Proof. unfold requests. apply omap_app. Qed.

Lemma sleeps_app e1 e2 : sleeps (e1 ++ e2) = sleeps e1 ++ sleeps e2.
Proof. unfold sleeps. apply omap_app. Qed.

(** The source tag that the block yields when an attempt matched. *)
Lemma chain_sources net tr p h c source b1 b2 r :
  chain_facts net tr p h c source b1 b2 r ->
  let a1 := answer net tr p in
  let a2 := answer net (tr ++ [Get p]) h in
  let a3 := answer net (tr ++ Get p :: (if b1 then [Get h] else [])) c in
  (matched_answer a1 -> b1 = false /\ b2 = false
                        /\ exists t, a1 = Ok t /\ r = Ok (t, VStr "census_primary"))
  /\ (b1 = true -> matched_answer a2 ->
      b2 = false /\ exists t, a2 = Ok t /\ r = Ok (t, VStr "census_hospital"))
  /\ (b2 = true -> matched_answer a3 ->
      exists t, a3 = Ok t /\ r = Ok (t, VStr "census_city")).
Proof.
  intros (H1&H2&_&_&_&K4&K5&K6). cbv zeta. repeat split.
  - destruct b1; [|done]. destruct (proj1 H1 eq_refl) as (U&_).
    by destruct (matched_not_unmatched _ H U).
  - destruct b2; [|done]. destruct (proj1 H2 eq_refl) as (U&_).
    by destruct (matched_not_unmatched _ H U).
  - assert (b1 = false) as ->.
    { destruct b1; [|done]. destruct (proj1 H1 eq_refl) as (U&_).
      by destruct (matched_not_unmatched _ H U). }
    assert (b2 = false) as ->.
    { destruct b2; [|done]. destruct (proj1 H2 eq_refl) as (U&_).
      by destruct (matched_not_unmatched _ H U). }
    apply matched_answer_t in H as (t&Ht&Mt). exists t. split; [done|].
    rewrite (K6 t eq_refl eq_refl Ht). by rewrite Mt.
  - destruct b2; [|done]. destruct (proj1 H2 eq_refl) as (_&U&_).
    by destruct (matched_not_unmatched _ H0 (U H)).
  - assert (b2 = false) as ->.
    { destruct b2; [|done]. destruct (proj1 H2 eq_refl) as (_&U&_).
      by destruct (matched_not_unmatched _ H0 (U H)). }
    apply matched_answer_t in H0 as (t&Ht&Mt). exists t. split; [done|].
    rewrite (K5 t eq_refl H Ht). by rewrite Mt.
  - intros Hb M. apply matched_answer_t in M as (t&Ht&Mt). exists t. split; [done|].
    rewrite (K4 t Hb Ht). by rewrite Mt.
Qed.

(** ** C1: the order of the attempts *)

(** C1.  Take a row without both coordinates.  If its primary address is
    empty, its iteration adds no event.  If the primary address is non-empty
    and not in the cache, the addresses requested during the iteration are
    the primary address first, then the hospital address if that attempt is
    made, then the city address if that attempt is made.  The hospital
    attempt is made exactly when the primary answer is unmatched and the
    hospital address is non-empty and differs from the primary one; the city
    attempt exactly when the last answer so far is unmatched and the city
    address is non-empty.  A matched primary answer rules both out.  In the
    row stored by a completed iteration the source is [census_primary],
    [census_hospital] or [census_city] according to the attempt that
    matched. *)
Theorem C1_fallback_chain net a fieldnames idx s i row :
  py_index (length (rows s)) idx = Some i ->
  rows s !! i = Some row ->
  truthy (get_or row LAT VNone) && truthy (get_or row LON VNone) = false ->
  let p := build_primary_address row in
  let h := build_hospital_address row in
  let c := build_city_address row in
  let rs := process_row net a fieldnames idx s in
  (nonempty p = false -> trace rs.2 = trace s)
  /\ (nonempty p = true -> cache s !! p = None ->
      exists hosp_tried city_tried : bool,
        let a1 := answer net (trace s) p in
        let a2 := answer net (trace s ++ [Get p]) h in
        let a3 := answer net (trace s ++ Get p :: (if hosp_tried then [Get h] else [])) c in
        (exists evs,
           trace rs.2 = trace s ++ evs
           /\ requests evs
              = p :: (if hosp_tried then [h] else []) ++ (if city_tried then [c] else []))
        /\ (hosp_tried = true <->
            unmatched_answer a1 /\ nonempty h = true /\ h <> p)
        /\ (city_tried = true <->
            unmatched_answer a1 /\ (hosp_tried = true -> unmatched_answer a2)
            /\ nonempty c = true)
        /\ (matched_answer a1 -> hosp_tried = false /\ city_tried = false)
        /\ (rs.1 = Ok tt ->
            exists row',
              rows rs.2 !! i = Some row'
              /\ (matched_answer a1 -> get_or row' SRC VNone = VStr "census_primary")
              /\ (hosp_tried = true -> matched_answer a2 ->
                  get_or row' SRC VNone = VStr "census_hospital")
              /\ (city_tried = true -> matched_answer a3 ->
                  get_or row' SRC VNone = VStr "census_city"))).
Proof.
  intros Hi Hrow Hll p h c rs. split.
  - intros Hp.
    assert (N : needs_lookup row = false).
    { unfold needs_lookup. fold p. rewrite Hp. apply andb_false_r. }
    by destruct (process_row_skip net a fieldnames idx s i row Hi Hrow N) as (Ht&_).
  - intros Hp C.
    assert (N : needs_lookup row = true).
    { unfold needs_lookup. fold p. by rewrite Hll, Hp. }
    destruct (iteration_miss net a fieldnames idx s i row Hi Hrow N C)
      as (b1&b2&r&Hf&Hrun).
    fold p h c in Hf, Hrun. cbv zeta in Hrun. fold rs in Hrun.
    exists b1, b2. cbv zeta.
    pose proof (chain_sources _ _ _ _ _ _ _ _ _ Hf) as (S1&S2&S3).
    destruct Hf as (H1&H2&_).
    split; [|split; [exact H1|split; [exact H2|split]]].
    + (* the requests *)
      destruct r as [[t src]|e].
      * destruct (sleep_refusal (sleep a)).
        -- exists (chain_events p h c b1 b2). rewrite Hrun. simpl.
           split; [done|]. apply requests_chain_events.
        -- exists (chain_events p h c b1 b2 ++ [Sleep (sleep a)]).
           destruct (stored_fields a fieldnames i row t src
                       (add_events
                          (mkState (rows s) (<[p := t]> (cache s)) (unmatched_rows s)
                             (fout s) (trace s ++ chain_events p h c b1 b2))
                          [Sleep (sleep a)])) as (_&_&Ht&_).
           rewrite Hrun, Ht. unfold add_events. cbn [trace].
           rewrite <- app_assoc. split; [done|].
           rewrite requests_app. by destruct b1, b2.
      * exists (chain_events p h c b1 b2). rewrite Hrun. simpl.
        split; [done|]. apply requests_chain_events.
    + intros M. by destruct (S1 M) as (?&?&_).
    + (* the stored source *)
      intros Hok. destruct r as [[t src]|e]; [|by rewrite Hrun in Hok].
      destruct (sleep_refusal (sleep a)); [by rewrite Hrun in Hok|].
      destruct (stored_fields a fieldnames i row t src
                  (add_events
                     (mkState (rows s) (<[p := t]> (cache s)) (unmatched_rows s)
                        (fout s) (trace s ++ chain_events p h c b1 b2))
                     [Sleep (sleep a)])) as (Hr&_).
      rewrite <- Hrun in Hr. simpl in Hr.
      exists (final_row a row t src). split.
      { rewrite Hr. apply list_lookup_insert_eq. by eapply lookup_lt_Some. }
      destruct (final_row_results a row t src) as (_&Hs&_). rewrite Hs.
      split; [|split].
      * intros M. destruct (S1 M) as (_&_&t'&_&[= _ ->]). done.
      * intros Hb M. destruct (S2 Hb M) as (_&t'&_&[= _ ->]). done.
      * intros Hb M. destruct (S3 Hb M) as (t'&_&[= _ ->]). done.
Qed.

Lemma C1_fallback_chain_witness :
  let rs := process_row sample_net sample_args sample_headers 2 (initial sample_table) in
  exists hosp_tried city_tried : bool,
    exists evs,
      trace rs.2 = [] ++ evs
      /\ requests evs
         = "1 Unknown Rd, Richmond, VA"
             :: (if hosp_tried then ["Nowhere Clinic, Richmond, VA"] else [])
             ++ (if city_tried then ["Richmond, VA"] else []).
Proof.
  destruct (proj2 (C1_fallback_chain sample_net sample_args sample_headers 2
                     (initial sample_table) 2%nat _ eq_refl eq_refl eq_refl)
              eq_refl eq_refl) as (b1 & b2 & H & _).
  exists b1, b2. exact H.
Defined.

(** ** Every completed iteration *)

Section Completed.
Context (net : network) (a : args) (fieldnames : list string).
Context (idx : Z) (s : state) (i : nat) (row : pydict).
Hypothesis Hi : py_index (length (rows s)) idx = Some i.
Hypothesis Hrow : rows s !! i = Some row.
Let p := build_primary_address row.
Let rs := process_row net a fieldnames idx s.

(** Whatever the iteration does, it extends the trace and the cache and
    leaves the other rows alone. *)
Lemma iteration_frame :
  (exists evs, trace rs.2 = trace s ++ evs)
  /\ (forall k v, cache s !! k = Some v -> cache rs.2 !! k = Some v)
  /\ length (rows rs.2) = length (rows s)
  /\ (forall j, j <> i -> rows rs.2 !! j = rows s !! j)
  /\ (forall e, rs.1 = Raise e -> fout rs.2 = fout s).
Proof.
  subst rs. rewrite (process_row_run _ _ _ _ _ i row) by done.
  destruct (resolve_row_frame net a row s) as (r&c'&evs&->&Hc&_).
  destruct r as [[t src]|e]; simpl.
  2:{ repeat split; eauto. }
  rewrite Hi. destruct (dict_to_list _ _); simpl;
    (split; [eauto|]; split; [done|]; split; [apply length_insert|]; split;
     [intros j Hj; by rewrite list_lookup_insert_ne|done]).
Qed.

Lemma iteration_ok :
  rs.1 = Ok tt ->
  exists t src rec evs,
    let row' := final_row a row t src in
    rows rs.2 = <[i := row']> (rows s)
    /\ unmatched_rows rs.2
       = unmatched_rows s ++
           (if is_unmatched row' then [unmatched_copy p row'] else [])
    /\ dict_to_list fieldnames row' = Ok rec
    /\ fout rs.2 = fout s ++ [rec]
    /\ trace rs.2 = trace s ++ evs
    /\ (needs_lookup row = false ->
        t = existing row /\ src = existing_source row /\ evs = []
        /\ cache rs.2 = cache s)
    /\ (needs_lookup row = true ->
        cache rs.2 !! p = Some t
        /\ (forall t0, cache s !! p = Some t0 ->
            t = t0 /\ src = existing_source row /\ evs = [] /\ cache rs.2 = cache s)
        /\ (cache s !! p = None ->
            cache rs.2 = <[p := t]> (cache s)
            /\ exists reqs, evs = map Get reqs ++ [Sleep (sleep a)]
                            /\ (1 <= length reqs <= 3)%nat)).
Proof.
  intros Hok.
  assert (Hst : forall t src s1 evs c',
            rs = stored a fieldnames i row t src s1 ->
            s1 = mkState (rows s) c' (unmatched_rows s) (fout s) (trace s ++ evs) ->
            exists rec,
              rows rs.2 = <[i := final_row a row t src]> (rows s)
              /\ unmatched_rows rs.2
                 = unmatched_rows s ++
                     (if is_unmatched (final_row a row t src)
                      then [unmatched_copy p (final_row a row t src)] else [])
              /\ dict_to_list fieldnames (final_row a row t src) = Ok rec
              /\ fout rs.2 = fout s ++ [rec]
              /\ trace rs.2 = trace s ++ evs
              /\ cache rs.2 = c').
  { intros t src s1 evs c' E ->.
    destruct (stored_fields a fieldnames i row t src
                (mkState (rows s) c' (unmatched_rows s) (fout s) (trace s ++ evs)))
      as (H1&H2&H3&H4&H5).
    rewrite <- E in H1, H2, H3, H4, H5. simpl in *.
    destruct H5 as [(rec&?&?&?)|(e&He&_)]; [|congruence].
    exists rec. done. }
  destruct (needs_lookup row) eqn:N.
  2:{ destruct (Hst (existing row) (existing_source row) s [] (cache s))
        as (rec&?&?&?&?&?&?).
      { subst rs. by apply iteration_skip. }
      { rewrite app_nil_r. by destruct s. }
      exists (existing row), (existing_source row), rec, [].
      cbv zeta. repeat split; try done. }
  destruct (cache s !! p) as [t0|] eqn:C.
  { destruct (Hst t0 (existing_source row) s [] (cache s))
      as (rec&?&?&?&?&?&Hc).
    { subst rs. by apply iteration_hit. }
    { rewrite app_nil_r. by destruct s. }
    exists t0, (existing_source row), rec, [].
    cbv zeta. repeat split; try done.
    - by rewrite Hc.
    - congruence. }
  destruct (iteration_miss net a fieldnames idx s i row Hi Hrow N C)
    as (b1&b2&r&_&Hrun). cbv zeta in Hrun. fold rs p in Hrun.
  destruct r as [[t src]|e]; [|by rewrite Hrun in Hok].
  destruct (sleep_refusal (sleep a)); [by rewrite Hrun in Hok|].
  destruct (Hst t src _ (chain_events p (build_hospital_address row)
                           (build_city_address row) b1 b2 ++ [Sleep (sleep a)])
              (<[p := t]> (cache s)) Hrun)
    as (rec&?&?&?&?&?&Hc).
  { unfold add_events; simpl. by rewrite <- app_assoc. }
  exists t, src, rec,
    (chain_events p (build_hospital_address row) (build_city_address row) b1 b2
       ++ [Sleep (sleep a)]).
  cbv zeta. repeat split; try done.
  - rewrite Hc. apply lookup_insert_eq.
  - exists (p :: (if b1 then [build_hospital_address row] else [])
              ++ (if b2 then [build_city_address row] else [])).
    split; [by destruct b1, b2|]. destruct b1, b2; simpl; lia.
Qed.
End Completed.

(** ** The unmatched list and its file *)

Lemma dict_keys_set_incl k v d x : In x (dict_keys d) -> In x (dict_keys (dict_set k v d)).
Proof.
  rewrite dict_keys_set. destruct (mem k (dict_keys d)); [done|].
  intros H. apply in_or_app. by left.
Qed.

Lemma unmatched_copy_spec p row :
  let u := unmatched_copy p row in
  dict_get u U_PRIMARY = Some (VStr p)
  /\ dict_get u U_HOSPITAL = Some (VStr (build_hospital_address row))
  /\ dict_get u U_CITY = Some (VStr (build_city_address row))
  /\ (forall k, In k (dict_keys row) -> In k (dict_keys u))
  /\ (forall k, ~ In k [U_PRIMARY; U_HOSPITAL; U_CITY] -> dict_get u k = dict_get row k).
Proof.
  unfold unmatched_copy. cbv zeta. repeat split.
  - rewrite !dict_get_set_ne by done. apply dict_get_set_eq.
  - rewrite dict_get_set_ne by done. apply dict_get_set_eq.
  - apply dict_get_set_eq.
  - intros k Hk. by do 3 apply dict_keys_set_incl.
  - intros k Hk. rewrite !dict_get_set_ne; [done|..]; intros <-; apply Hk; simpl; auto.
Qed.

Lemma write_rows_ok fieldnames rs acc w :
  write_rows fieldnames rs acc = (Ok tt, w) ->
  w = acc ++ map (fun u => map (fun k => get_or u k (VStr "")) fieldnames) rs.
Proof.
  revert acc. induction rs as [|r rs IH]; intros acc; simpl.
  - intros [= <-]. by rewrite app_nil_r.
  - unfold dict_to_list. destruct (forallb _ _); [|done].
    intros H. rewrite (IH _ H). by rewrite <- app_assoc.
Qed.

Lemma is_unmatched_cases row :
  (is_unmatched row = true /\
   (get_or row LAT VNone = VNone \/ get_or row LON VNone = VNone))
  \/ (is_unmatched row = false /\
      get_or row LAT VNone <> VNone /\ get_or row LON VNone <> VNone).
Proof.
  unfold is_unmatched.
  destruct (get_or row LAT VNone), (get_or row LON VNone); simpl;
    first [ left; split; [done|]; by auto | right; by repeat split ].
Qed.

Lemma main_unmatched_file net a table :
  let o := main net a table in
  (forall path csv,
     files o !! 1%nat = Some (path, csv) ->
     path = unmatched_path
     /\ exists u0,
          head (unmatched_rows (final o)) = Some u0
          /\ header csv = dict_keys u0
          /\ (result o = Finished ->
              records csv
              = map (fun u => map (fun k => get_or u k (VStr "")) (dict_keys u0))
                    (unmatched_rows (final o))))
  /\ (unmatched_rows (final o) = [] -> (length (files o) <= 1)%nat)
  /\ (result o = Finished -> unmatched_rows (final o) <> [] ->
      exists csv, files o !! 1%nat = Some (unmatched_path, csv)).
Proof.
  unfold main. destruct table as [|row0 table];
    [repeat split; simpl; (done || lia)|].
  destruct (List.find _ required_columns);
    [repeat split; simpl; (done || lia)|].
  destruct (for_each _ _ _) as [[[]|e] s1];
    [|repeat split; simpl; (done || lia)].
  destruct (unmatched_rows s1) as [|u0 us] eqn:U.
  { simpl. rewrite U. repeat split; simpl; (done || lia). }
  destruct (write_rows (dict_keys u0) (u0 :: us) []) as [[[]|e] w] eqn:W; simpl;
    rewrite U; (split; [|split; [done|eauto]]).
  - intros path csv [= <- <-]. split; [done|]. exists u0. simpl.
    split; [done|]. split; [done|]. intros _. by apply write_rows_ok in W.
  - intros path csv [= <- <-]. split; [done|]. exists u0. simpl.
    split; [done|]. split; [done|]. done.
Qed.

(** ** The loop *)

Lemma py_range_nil lo hi : hi <= lo -> py_range lo hi = [].
Proof. intros H. unfold py_range. by replace (Z.to_nat (hi - lo)) with 0%nat by lia. Qed.

Lemma py_range_cons lo hi : lo < hi -> py_range lo hi = lo :: py_range (lo + 1) hi.
Proof.
  intros H. unfold py_range.
  replace (Z.to_nat (hi - lo)) with (S (Z.to_nat (hi - (lo + 1)))) by lia.
  simpl. f_equal; [lia|]. rewrite <- seq_shift, map_map.
  apply map_ext. intros k. lia.
Qed.

Lemma for_each_app body l1 l2 s :
  for_each body (l1 ++ l2) s =
  match for_each body l1 s with
  | (Ok _, s1) => for_each body l2 s1
  | (Raise e, s1) => (Raise e, s1)
  end.
Proof.
  revert s. induction l1 as [|x l1 IH]; intros s; simpl; [done|].
  unfold mbind, M_bind. destruct (body x s) as [[[]|e] s1]; [apply IH|done].
Qed.

Lemma for_each_cons_ok body x l s s' :
  for_each body (x :: l) s = (Ok tt, s') ->
  exists s1, body x s = (Ok tt, s1) /\ for_each body l s1 = (Ok tt, s').
Proof.
  simpl. unfold mbind, M_bind. destruct (body x s) as [[[]|e] s1]; [eauto|done].
Qed.

Lemma py_index_lt n k i : py_index n k = Some i -> (i < n)%nat.
Proof.
  unfold py_index. destruct (0 <=? k) eqn:E1.
  - destruct (k <? Z.of_nat n) eqn:E2; [|done]. intros [= <-].
    apply Z.leb_le in E1. apply Z.ltb_lt in E2. lia.
  - destruct (0 <=? Z.of_nat n + k) eqn:E2; [|done]. intros [= <-].
    apply Z.leb_gt in E1. apply Z.leb_le in E2. lia.
Qed.

Section Loop.
Context (net : network) (a : args) (fieldnames : list string).
Let body := process_row net a fieldnames.

(** Whatever index it is given, an iteration only adds to the cache. *)
Lemma iteration_cache idx s k v :
  cache s !! k = Some v -> cache (body idx s).2 !! k = Some v.
Proof.
  intros H. destruct (py_index (length (rows s)) idx) as [i|] eqn:Hi.
  - destruct (lookup_lt_is_Some_2 (rows s) i (py_index_lt _ _ _ Hi)) as [row Hrow].
    destruct (iteration_frame net a fieldnames idx s i row Hi Hrow) as (_&Hc&_).
    by apply Hc.
  - subst body. unfold process_row, mbind, M_bind, get_row. by rewrite Hi.
Qed.

(** So does any sequence of iterations. *)
Lemma run_cache l : forall s k v,
  cache s !! k = Some v -> cache (for_each body l s).2 !! k = Some v.
Proof.
  induction l as [|idx l IH]; intros s k v H; simpl; [done|].
  unfold mbind, M_bind.
  pose proof (iteration_cache idx s k v H) as H1.
  destruct (body idx s) as [[[]|e] s1]; simpl in *; [by apply IH|done].
Qed.

(** Once an iteration on a row with primary address [p] has gone through
    the lookup block, [p] stays in the cache with the triple it was given,
    and that triple is the one stored in the row. *)
Lemma run_cached l1 x l2 s0 s_i s_j ix row_x :
  for_each body l1 s0 = (Ok tt, s_i) ->
  for_each body (l1 ++ x :: l2) s0 = (Ok tt, s_j) ->
  py_index (length (rows s_i)) x = Some ix ->
  rows s_i !! ix = Some row_x ->
  needs_lookup row_x = true ->
  exists t src,
    cache s_j !! build_primary_address row_x = Some t
    /\ rows (body x s_i).2 !! ix = Some (final_row a row_x t src)
    /\ (trace (body x s_i).2 <> trace s_i \/ cache s_i !! build_primary_address row_x = Some t).
Proof.
  intros R1 R Hi Hrow N.
  rewrite for_each_app, R1 in R.
  apply for_each_cons_ok in R as (s_i1&R2&R3).
  assert (Hok : (process_row net a fieldnames x s_i).1 = Ok tt)
    by (fold body; by rewrite R2).
  destruct (iteration_ok net a fieldnames x s_i ix row_x Hi Hrow Hok)
    as (t&src&rec&evs&Hr&_&_&_&Ht&_&Hn).
  fold body in Hr, Ht, Hn. destruct (Hn N) as (Hc&Hhit&Hmiss).
  exists t, src. split; [|split].
  - pose proof (run_cache l2 s_i1 _ _ ltac:(by rewrite R2 in Hc)) as H.
    by rewrite R3 in H.
  - rewrite Hr. apply list_lookup_insert_eq. by eapply lookup_lt_Some.
  - destruct (cache s_i !! build_primary_address row_x) as [t0|] eqn:C.
    + right. by destruct (Hhit t0 eq_refl) as (->&_).
    + left. destruct (Hmiss eq_refl) as (_&reqs&->&_).
      rewrite Ht. intros E. apply (f_equal length) in E.
      rewrite !length_app in E. simpl in E. lia.
Qed.
End Loop.

(** ** C2: the cache *)

(** C2.  Take two iterations of one run that started with the empty cache,
    the one on index [x] before the one on index [y], whose rows both enter
    the lookup block with the same primary address.  When [y] is reached the
    cache holds under that address the triple the row of [x] was given,
    whichever attempt produced it and whether or not it is a match; the
    iteration on [y] adds no event, so no request and no delay, and stores
    the same latitude, longitude and confidence as were stored for [x]. *)
Theorem C2_cache_by_primary net a fieldnames table l1 x l2 y s_i s_j ix iy row_x row_y :
  let body := process_row net a fieldnames in
  for_each body l1 (initial table) = (Ok tt, s_i) ->
  for_each body (l1 ++ x :: l2) (initial table) = (Ok tt, s_j) ->
  py_index (length (rows s_i)) x = Some ix -> rows s_i !! ix = Some row_x ->
  py_index (length (rows s_j)) y = Some iy -> rows s_j !! iy = Some row_y ->
  needs_lookup row_x = true ->
  needs_lookup row_y = true ->
  build_primary_address row_x = build_primary_address row_y ->
  let rs := body y s_j in
  trace rs.2 = trace s_j
  /\ exists t rx ry,
       cache s_j !! build_primary_address row_y = Some t
       /\ rows (body x s_i).2 !! ix = Some rx
       /\ rows rs.2 !! iy = Some ry
       /\ (get_or rx LAT VNone, get_or rx LON VNone)
          = round_coords t.1.1 t.1.2 (round_decimals a)
       /\ get_or rx CONF VNone = t.2
       /\ get_or ry LAT VNone = get_or rx LAT VNone
       /\ get_or ry LON VNone = get_or rx LON VNone
       /\ get_or ry CONF VNone = get_or rx CONF VNone.
Proof.
  intros body R1 R Hx Hrx Hy Hry Nx Ny Hp rs.
  destruct (run_cached net a fieldnames l1 x l2 (initial table) s_i s_j ix row_x
              R1 R Hx Hrx Nx) as (t&src&Hc&Hr&_).
  rewrite Hp in Hc.
  destruct (process_row_hit net a fieldnames y s_j iy row_y t Hy Hry Ny Hc)
    as (Ht&_&Hr').
  split; [exact Ht|].
  exists t, (final_row a row_x t src), (final_row a row_y t (existing_source row_y)).
  split; [exact Hc|]. split; [exact Hr|]. split.
  { subst rs body. rewrite Hr'. apply list_lookup_insert_eq. by eapply lookup_lt_Some. }
  destruct (final_row_results a row_x t src) as (Li&_&Ci).
  destruct (final_row_results a row_y t (existing_source row_y)) as (Lj&_&Cj).
  split; [exact Li|]. split; [exact Ci|].
  rewrite <- Li in Lj. injection Lj as -> ->. by rewrite Ci, Cj.
Qed.

(** ** C5: how often an address is requested *)

(** C5 (amended).  Take two iterations of one run that started with the
    empty cache, the one on index [x] before the one on index [y], whose
    rows have the same primary address.  If the iteration on [x] added an
    event, that is, sent a request, then the iteration on [y] adds none: for
    each primary address at most one iteration of the run makes lookups. *)
Theorem C5_one_chain_per_primary net a fieldnames table l1 x l2 y s_i s_j ix iy
    row_x row_y :
  let body := process_row net a fieldnames in
  for_each body l1 (initial table) = (Ok tt, s_i) ->
  for_each body (l1 ++ x :: l2) (initial table) = (Ok tt, s_j) ->
  py_index (length (rows s_i)) x = Some ix -> rows s_i !! ix = Some row_x ->
  py_index (length (rows s_j)) y = Some iy -> rows s_j !! iy = Some row_y ->
  build_primary_address row_x = build_primary_address row_y ->
  trace (body x s_i).2 <> trace s_i ->
  trace (body y s_j).2 = trace s_j.
Proof.
  intros body R1 R Hx Hrx Hy Hry Hp Hsent.
  assert (Nx : needs_lookup row_x = true).
  { destruct (needs_lookup row_x) eqn:N; [done|]. exfalso. apply Hsent.
    by destruct (process_row_skip net a fieldnames x s_i ix row_x Hx Hrx N) as (?&_). }
  destruct (run_cached net a fieldnames l1 x l2 (initial table) s_i s_j ix row_x
              R1 R Hx Hrx Nx) as (t&src&Hc&_).
  rewrite Hp in Hc.
  destruct (needs_lookup row_y) eqn:Ny.
  - by destruct (process_row_hit net a fieldnames y s_j iy row_y t Hy Hry Ny Hc) as (?&_).
  - by destruct (process_row_skip net a fieldnames y s_j iy row_y Hy Hry Ny) as (?&_).
Qed.

(** Requests are not unique per address string: in the sample run the
    city address shared by two rows with different street addresses is
    requested once for each. *)
Lemma C5_counterexample :
  ~ NoDup (requests (trace (final (main sample_net sample_args sample_table)))).
Proof.
  intros H.
  assert (E : requests (trace (final (main sample_net sample_args sample_table)))
              = ["900 23rd St NW, Washington, DC";
                 "1 Unknown Rd, Richmond, VA"; "Nowhere Clinic, Richmond, VA";
                 "Richmond, VA";
                 "2 Unknown Rd, Richmond, VA"; "Other Clinic, Richmond, VA";
                 "Richmond, VA";
                 "3 Unknown Rd, Atlantis, ZZ"; "Lost Clinic, Atlantis, ZZ";
                 "Atlantis, ZZ"]) by (vm_compute; reflexivity).
  rewrite E in H.
  do 3 apply NoDup_cons_1_2 in H. apply NoDup_cons_1_1 in H.
  apply H. do 2 apply list_elem_of_further. apply list_elem_of_here.
Qed.

(** ** C9: the output table *)

Lemma mem_app k l1 l2 : mem k (l1 ++ l2) = mem k l1 || mem k l2.
Proof. unfold mem. apply existsb_app. Qed.

Lemma output_fieldnames_eq headers :
  output_fieldnames headers
  = headers ++ List.filter (fun c => negb (mem c headers)) result_columns.
Proof.
  unfold output_fieldnames, result_columns. simpl.
  destruct (mem LAT headers) eqn:E1; simpl;
    repeat rewrite ?mem_app, ?E1; simpl;
    destruct (mem LON headers) eqn:E2; simpl;
    repeat rewrite ?mem_app, ?E1, ?E2; simpl;
    destruct (mem SRC headers) eqn:E3; simpl;
    repeat rewrite ?mem_app, ?E1, ?E2, ?E3; simpl;
    destruct (mem CONF headers) eqn:E4; simpl;
    repeat rewrite ?mem_app, ?E1, ?E2, ?E3, ?E4; simpl;
    rewrite <- ?app_assoc; simpl; by rewrite ?app_nil_r.
Qed.

Lemma get_or_final_row a row t src col dflt :
  ~ In col result_columns ->
  get_or (final_row a row t src) col dflt = get_or row col dflt.
Proof.
  intros Hc. unfold final_row. destruct (round_coords _ _ _) as [lat lon].
  unfold set_results.
  rewrite !get_or_set_ne; [done|..]; intros <-; apply Hc; simpl; auto.
Qed.

Lemma dict_keys_final_row a row t src k :
  In k (dict_keys row) -> In k (dict_keys (final_row a row t src)).
Proof.
  intros H. unfold final_row. destruct (round_coords _ _ _) as [lat lon].
  unfold set_results. by do 4 apply dict_keys_set_incl.
Qed.

(** What a written record says about the row it was made from. *)
Lemma record_of_row a fieldnames row t src rec :
  dict_to_list fieldnames (final_row a row t src) = Ok rec ->
  length rec = length fieldnames
  /\ (forall col, In col (dict_keys row) -> In col fieldnames)
  /\ (forall pos col, fieldnames !! pos = Some col -> ~ In col result_columns ->
      rec !! pos = Some (get_or row col (VStr ""))).
Proof.
  unfold dict_to_list. destruct (forallb _ _) eqn:F; [|done]. intros [= <-].
  split; [by rewrite length_map|]. split.
  - intros col Hc. rewrite forallb_forall in F. apply mem_true_iff, F.
    by apply dict_keys_final_row.
  - intros pos col Hpos Hc. rewrite list_lookup_fmap, Hpos. simpl.
    by rewrite get_or_final_row.
Qed.

Lemma py_index_nat n (k : Z) :
  0 <= k < Z.of_nat n -> py_index n k = Some (Z.to_nat k).
Proof.
  intros [H1 H2]. unfold py_index.
  destruct (Z.leb_spec 0 k); [|lia]. by destruct (Z.ltb_spec k (Z.of_nat n)); [|lia].
Qed.

Section Output.
Context (net : network) (a : args) (fieldnames : list string).
Let body := process_row net a fieldnames.

Lemma run_output n : forall lo s,
  0 <= lo -> lo + Z.of_nat n <= Z.of_nat (length (rows s)) ->
  let rs := for_each body (py_range lo (lo + Z.of_nat n)) s in
  exists recs,
    fout rs.2 = fout s ++ recs
    /\ (length recs <= n)%nat
    /\ (rs.1 = Ok tt -> length recs = n)
    /\ (forall k rec, recs !! k = Some rec ->
        exists row t src,
          rows s !! (Z.to_nat lo + k)%nat = Some row
          /\ dict_to_list fieldnames (final_row a row t src) = Ok rec).
Proof.
  induction n as [|n IH]; intros lo s Hlo Hhi; cbv zeta.
  { rewrite py_range_nil by lia. exists []. simpl. rewrite app_nil_r.
    repeat split; try done. }
  rewrite py_range_cons by lia. simpl. unfold mbind, M_bind.
  assert (Hi : py_index (length (rows s)) lo = Some (Z.to_nat lo))
    by (apply py_index_nat; lia).
  destruct (lookup_lt_is_Some_2 (rows s) (Z.to_nat lo) ltac:(lia)) as [row Hrow].
  pose proof (iteration_frame net a fieldnames lo s _ row Hi Hrow) as (_&_&Hl&Hr&Hf).
  pose proof (iteration_ok net a fieldnames lo s _ row Hi Hrow) as Hok.
  fold body in Hl, Hr, Hf, Hok.
  destruct (body lo s) as [[[]|e] s1]; simpl in *.
  - destruct (Hok eq_refl) as (t&src&rec&evs&_&_&Hrec&Hfo&_).
    replace (lo + Z.of_nat (S n)) with (lo + 1 + Z.of_nat n) by lia.
    destruct (IH (lo + 1) s1 ltac:(lia) ltac:(lia)) as (recs&Hfo'&Hle&Heq&Hrecs).
    exists (rec :: recs). split; [|split; [|split]].
    + rewrite Hfo', Hfo. by rewrite <- app_assoc.
    + simpl. lia.
    + intros H. simpl. by rewrite Heq.
    + intros [|k] rec' Hk; simpl in Hk.
      * injection Hk as <-. exists row, t, src. by rewrite Nat.add_0_r.
      * destruct (Hrecs k rec' Hk) as (row'&t'&src'&Hrow'&Hrec').
        exists row', t', src'. split; [|done].
        rewrite Hr in Hrow' by lia. rewrite <- Hrow'. f_equal. lia.
  - exists []. rewrite app_nil_r. repeat split; try done.
    + by apply Hf with e.
    + simpl. lia.
Qed.
End Output.

(** C9 (amended).  Whenever [main], started at a non-negative row index,
    writes the output file, its columns are the columns of the input followed by those
    of [Latitude], [Longitude], [Geo_Source] and [Geo_Confidence] that the
    input does not have already; every record has one cell per column; the
    [k]-th record comes from the [k]-th row of the selected range, whose
    columns are all among the output columns and whose cells, outside the
    four result columns, are written as they were read; and a finished run
    has written one record per row of the range. *)
Theorem C9_output_table net a table :
  0 <= start a ->
  let o := main net a table in
  forall path csv,
    files o !! 0%nat = Some (path, csv) ->
    exists row0,
      head table = Some row0
      /\ let headers := dict_keys row0 in
         path = outfile a
         /\ header csv
            = headers ++ List.filter (fun c => negb (mem c headers)) result_columns
         /\ (forall c, In c (header csv) <-> In c headers \/ In c result_columns)
         /\ (result o = Finished ->
             Z.of_nat (length (records csv))
             = Z.max 0 (range_end a (length table) - start a))
         /\ (forall k rec,
               records csv !! k = Some rec ->
               exists row,
                 table !! (Z.to_nat (start a) + k)%nat = Some row
                 /\ length rec = length (header csv)
                 /\ (forall col, In col (dict_keys row) -> In col (header csv))
                 /\ (forall pos col,
                       header csv !! pos = Some col -> ~ In col result_columns ->
                       rec !! pos = Some (get_or row col (VStr "")))).
Proof.
  intros Hs o path csv. subst o. unfold main.
  destruct table as [|row0 table']; [done|].
  destruct (List.find _ required_columns); [done|].
  set (table := row0 :: table').
  set (fns := output_fieldnames (dict_keys row0)).
  set (hi := range_end a (length table)).
  set (n := Z.to_nat (hi - start a)).
  assert (Hhi : hi <= Z.of_nat (length table)).
  { subst hi. unfold range_end. destruct (limit a); lia. }
  assert (Hout : exists recs,
            fout (for_each (process_row net a fns) (py_range (start a) hi)
                           (initial table)).2 = recs
            /\ ((for_each (process_row net a fns) (py_range (start a) hi)
                          (initial table)).1 = Ok tt -> length recs = n)
            /\ (forall k rec, recs !! k = Some rec ->
                exists row t src,
                  table !! (Z.to_nat (start a) + k)%nat = Some row
                  /\ dict_to_list fns (final_row a row t src) = Ok rec)).
  { destruct (Z.le_gt_cases hi (start a)) as [Hle|Hgt].
    - rewrite py_range_nil by done. exists []. simpl. split; [done|].
      split; [intros _; subst n; lia|done].
    - pose proof (run_output net a fns n (start a) (initial table) Hs) as H.
      cbv zeta in H. replace (start a + Z.of_nat n) with hi in H by (subst n; lia).
      destruct (H Hhi) as (recs&H1&_&H3&H4). exists recs. simpl in H1. done. }
  destruct Hout as (recs&Hfo&Hlen&Hrecs).
  assert (Hhead : forall c, In c fns <-> In c (dict_keys row0) \/ In c result_columns).
  { intros c. subst fns. rewrite output_fieldnames_eq, in_app_iff, filter_In.
    split; [tauto|]. intros [?|Hc]; [tauto|].
    destruct (mem c (dict_keys row0)) eqn:E; [left; by apply mem_true_iff|tauto]. }
  assert (Hgoal : forall r files',
            nth_error (A:=string * csvfile) ((outfile a, mkCsv fns recs) :: files') 0
            = Some (path, csv) ->
            (r = Finished -> length recs = n) ->
            exists row1,
              Some row0 = Some row1
              /\ path = outfile a
              /\ header csv
                 = dict_keys row1
                     ++ List.filter (fun c => negb (mem c (dict_keys row1))) result_columns
              /\ (forall c, In c (header csv) <-> In c (dict_keys row1) \/ In c result_columns)
              /\ (r = Finished ->
                  Z.of_nat (length (records csv)) = Z.max 0 (hi - start a))
              /\ (forall k rec,
                    records csv !! k = Some rec ->
                    exists row,
                      table !! (Z.to_nat (start a) + k)%nat = Some row
                      /\ length rec = length (header csv)
                      /\ (forall col, In col (dict_keys row) -> In col (header csv))
                      /\ (forall pos col,
                            header csv !! pos = Some col -> ~ In col result_columns ->
                            rec !! pos = Some (get_or row col (VStr ""))))).
  { intros r files' [= <- <-] Hfin. exists row0. simpl.
    split; [done|]. split; [done|]. split; [apply output_fieldnames_eq|].
    split; [exact Hhead|]. split; [intros H; rewrite (Hfin H); subst n; lia|].
    intros k rec Hk. destruct (Hrecs k rec Hk) as (row&t&src&Hrow&Hrec).
    exists row. split; [exact Hrow|]. by apply (record_of_row a fns row t src). }
  destruct (for_each _ _ _) as [[[]|e] s1] eqn:R; simpl in Hfo, Hlen; subst recs.
  - destruct (unmatched_rows s1) as [|u0 us].
    + simpl. intros H. apply (Hgoal Finished [] H). auto.
    + destruct (write_rows _ _ _) as [[[]|e] w]; simpl; intros H.
      * apply (Hgoal Finished [(unmatched_path, mkCsv (dict_keys u0) w)] H). auto.
      * apply (Hgoal (Aborted e) [(unmatched_path, mkCsv (dict_keys u0) w)] H). done.
  - simpl. intros H. apply (Hgoal (Aborted e) [] H). done.
Qed.

(** ** The theorems at work on the sample run *)

Lemma C2_cache_by_primary_witness :
  let s_j := (process_row sample_net sample_args sample_headers 0
                          (initial sample_table)).2 in
  let rs := process_row sample_net sample_args sample_headers 1 s_j in
  build_primary_address (mk_row "GW Hospital" "900 23rd St NW" "Washington" "DC")
  = build_primary_address (mk_row "GW Annex" " 900 23rd St NW" "Washington" "DC")
  /\ trace rs.2 = trace s_j.
Proof.
  split; [reflexivity|].
  refine (proj1 (C2_cache_by_primary sample_net sample_args sample_headers
                   sample_table [] 0 [] 1 (initial sample_table)
                   (process_row sample_net sample_args sample_headers 0
                                (initial sample_table)).2
                   0%nat 1%nat _ _
                   eq_refl _ eq_refl eq_refl eq_refl eq_refl eq_refl eq_refl eq_refl)).
  vm_compute. reflexivity.
Defined.

Lemma C5_one_chain_per_primary_witness :
  let s_j := (process_row sample_net sample_args sample_headers 0
                          (initial sample_table)).2 in
  trace (process_row sample_net sample_args sample_headers 0 (initial sample_table)).2
  <> trace (initial sample_table)
  /\ trace (process_row sample_net sample_args sample_headers 1 s_j).2 = trace s_j.
Proof.
  assert (Hsent : trace (process_row sample_net sample_args sample_headers 0
                                     (initial sample_table)).2
                  <> trace (initial sample_table)).
  { intros H. vm_compute in H. discriminate H. }
  split; [exact Hsent|].
  refine (C5_one_chain_per_primary sample_net sample_args sample_headers
            sample_table [] 0 [] 1 (initial sample_table)
            (process_row sample_net sample_args sample_headers 0
                         (initial sample_table)).2
            0%nat 1%nat _ _
            eq_refl _ eq_refl eq_refl eq_refl eq_refl eq_refl Hsent).
  vm_compute. reflexivity.
Defined.

Lemma C9_output_table_witness :
  0 <= start sample_args
  /\ exists csv row0,
       files (main sample_net sample_args sample_table) !! 0%nat = Some ("out.csv", csv)
       /\ head sample_table = Some row0
       /\ header csv
          = dict_keys row0
              ++ List.filter (fun c => negb (mem c (dict_keys row0))) result_columns.
Proof.
  split; [done|].
  destruct (files (main sample_net sample_args sample_table) !! 0%nat)
    as [[path csv]|] eqn:E; [|vm_compute in E; discriminate E].
  destruct (C9_output_table sample_net sample_args sample_table
              ltac:(done) path csv E) as (row0 & Hh & Hp & Hhd & _).
  assert (path = "out.csv") as -> by (rewrite Hp; reflexivity).
  exists csv, row0. split; [reflexivity|]. split; [exact Hh|exact Hhd].
Defined.

(** ** Further runs *)

(** The sample run: one delay per uncached row, none for the second row,
    whose primary address was cached by the first. *)
Example sample_run_trace :
  trace (final (main sample_net sample_args sample_table))
  = [ Get "900 23rd St NW, Washington, DC"; Sleep (b64 0.25);
      Get "1 Unknown Rd, Richmond, VA"; Get "Nowhere Clinic, Richmond, VA";
      Get "Richmond, VA"; Sleep (b64 0.25);
      Get "2 Unknown Rd, Richmond, VA"; Get "Other Clinic, Richmond, VA";
      Get "Richmond, VA"; Sleep (b64 0.25);
      Get "3 Unknown Rd, Atlantis, ZZ"; Get "Lost Clinic, Atlantis, ZZ";
      Get "Atlantis, ZZ"; Sleep (b64 0.25) ].
Proof. vm_compute. reflexivity. Qed.

(** A row without street address: its primary and its city address are the
    same string, which is requested at the first and at the third attempt. *)
Example empty_street_requests_city_twice :
  requests (trace (final (main sample_net sample_args
                                [mk_row "Lost Clinic" "" "Atlantis" "ZZ"])))
  = ["Atlantis, ZZ"; "Lost Clinic, Atlantis, ZZ"; "Atlantis, ZZ"].
Proof. vm_compute. reflexivity. Qed.

(** The start index is not checked: a negative one makes [rows[idx]] count
    from the end, so that here the last row is written first and once more
    at its own place. *)
Example negative_start_wraps_around :
  let o := main sample_net (mkArgs "out.csv" (b64 0.25) 5 (-1) None) sample_table in
  map (fun rec => rec !! 0%nat) (fout (final o))
  = map (fun name => Some (VStr name))
        ["Lost Clinic"; "GW Hospital"; "GW Annex"; "Nowhere Clinic";
         "Other Clinic"; "Lost Clinic"].
Proof. vm_compute. reflexivity. Qed.

(** With a negative start index the records do not follow the input: started
    at -1 with a limit of 2, the run writes the last row of the table and
    then the first one. *)
Lemma C9_counterexample :
  let o := main sample_net (mkArgs "out.csv" (b64 0.25) 5 (-1) (Some 2)) sample_table in
  exists csv rec0 rec1 first_row last_row,
    files o !! 0%nat = Some ("out.csv", csv)
    /\ records csv = [rec0; rec1]
    /\ sample_table !! 0%nat = Some first_row
    /\ sample_table !! 4%nat = Some last_row
    /\ dict_get first_row HOSP_COL <> dict_get last_row HOSP_COL
    /\ header csv !! 0%nat = Some HOSP_COL
    /\ rec0 !! 0%nat = dict_get last_row HOSP_COL
    /\ rec1 !! 0%nat = dict_get first_row HOSP_COL.
Proof.
  cbv zeta. eexists _, _, _, _, _.
  split; [vm_compute; reflexivity|].
  split; [reflexivity|]. split; [reflexivity|]. split; [reflexivity|].
  split; [discriminate|]. split; [reflexivity|]. split; reflexivity.
Qed.

(** * Further properties of the code *)

(** ** The address builders *)

Lemma append_empty s1 s2 : (s1 ++ s2)%string = "" -> s1 = "".
Proof. by destruct s1. Qed.

Lemma concat_nonempty sep l :
  Forall (fun x => nonempty x = true) l -> String.concat sep l = "" -> l = [].
Proof.
  intros Hl H. destruct l as [|x xs]; [done|].
  apply Forall_cons in Hl as [Hx _]. simpl in H.
  destruct xs; [by subst|]. apply append_empty in H. by subst.
Qed.

Lemma join_nonempty_empty parts sep :
  join_nonempty parts sep = "" <-> forall p, In p parts -> p = "".
Proof.
  unfold join_nonempty. split.
  - intros H p Hp.
    apply concat_nonempty in H.
    + destruct p as [|c p']; [done|]. exfalso.
      assert (Hin : In (String c p') (List.filter nonempty parts))
        by (by apply filter_In).
      by rewrite H in Hin.
    + apply Forall_forall. intros x Hx. apply list_elem_of_In in Hx.
      by apply filter_In in Hx as [_ ?].
  - intros H. replace (List.filter nonempty parts) with (@nil string); [done|].
    symmetry. induction parts as [|x xs IH]; [done|]. simpl.
    rewrite (H x) by (by left). simpl. apply IH. intros p Hp. apply H. by right.
Qed.

Lemma join_nonempty_cons x l sep :
  join_nonempty (x :: l) sep =
  if nonempty x
  then if nonempty (join_nonempty l sep)
       then (x ++ sep ++ join_nonempty l sep)%string else x
  else join_nonempty l sep.
Proof.
  unfold join_nonempty. simpl. destruct (nonempty x) eqn:Hx; [|done]. simpl.
  destruct (List.filter nonempty l) as [|y ys] eqn:E; [done|].
  assert (Hne : nonempty (String.concat sep (y :: ys)) = true).
  { destruct (String.concat sep (y :: ys)) eqn:C; [|done].
    apply concat_nonempty in C; [done|].
    rewrite <- E. apply Forall_forall. intros z Hz. apply list_elem_of_In in Hz.
    by apply filter_In in Hz as [_ ?]. }
  by rewrite Hne.
Qed.

Lemma join_nonempty_nest x l sep :
  join_nonempty (x :: l) sep = join_nonempty [x; join_nonempty l sep] sep.
Proof.
  rewrite !join_nonempty_cons. change (join_nonempty [] sep) with "".
  destruct (join_nonempty l sep); simpl; by destruct (nonempty x).
Qed.

(** X1.  [join_nonempty] skips the empty parts, whatever the separator: it
    gives the empty string exactly when every part is empty, an empty part
    can be dropped anywhere, and joining a part with the join of the others
    gives the join of all of them. *)
Theorem join_nonempty_skips_empty parts sep :
  (join_nonempty parts sep = "" <-> forall p, In p parts -> p = "")
  /\ (forall l1 l2, parts = l1 ++ "" :: l2 ->
        join_nonempty parts sep = join_nonempty (l1 ++ l2) sep)
  /\ join_nonempty (List.filter nonempty parts) sep = join_nonempty parts sep
  /\ (forall x, join_nonempty (x :: parts) sep
                = join_nonempty [x; join_nonempty parts sep] sep).
Proof.
  split; [apply join_nonempty_empty|]. split; [|split].
  - intros l1 l2 ->. unfold join_nonempty. by rewrite !List.filter_app.
  - unfold join_nonempty. f_equal.
    induction parts as [|x xs IH]; [done|]. simpl.
    destruct (nonempty x) eqn:E; [|done]. simpl. by rewrite E, IH.
  - intros x. apply join_nonempty_nest.
Qed.

Lemma join_nonempty_pair x y sep :
  join_nonempty [x; y] sep
  = if nonempty x then if nonempty y then (x ++ sep ++ y)%string else x else y.
Proof. by destruct x, y. Qed.

(** X2.  The primary address is the street followed by the city address,
    and the hospital address is the hospital name followed by the city
    address: with a blank street (or name) it is the city address itself,
    with an empty city address it is the street (or name) alone, and
    otherwise the two are joined by a comma and a space. *)
Theorem addresses_extend_city_address row :
  let city := build_city_address row in
  let street := field row STREET_COL in
  let name := field row HOSP_COL in
  build_primary_address row = join_nonempty [street; city] ", "
  /\ build_hospital_address row = join_nonempty [name; city] ", "
  /\ (street = "" -> build_primary_address row = city)
  /\ (name = "" -> build_hospital_address row = city)
  /\ (city = "" ->
      build_primary_address row = street /\ build_hospital_address row = name)
  /\ (street <> "" -> city <> "" ->
      build_primary_address row = (street ++ ", " ++ city)%string)
  /\ (name <> "" -> city <> "" ->
      build_hospital_address row = (name ++ ", " ++ city)%string).
Proof.
  intros city street name.
  assert (E1 : build_primary_address row = join_nonempty [street; city] ", ")
    by apply join_nonempty_nest.
  assert (E2 : build_hospital_address row = join_nonempty [name; city] ", ")
    by apply join_nonempty_nest.
  split; [exact E1|]. split; [exact E2|].
  rewrite E1, E2, !join_nonempty_pair.
  destruct street, name, city; simpl; repeat split; done.
Qed.

Lemma addresses_extend_city_address_witness :
  build_primary_address (mk_row "Lost Clinic" " " "Atlantis" "ZZ") = "Atlantis, ZZ"
  /\ build_hospital_address (mk_row "Lost Clinic" " " "Atlantis" "ZZ")
     = "Lost Clinic, Atlantis, ZZ".
Proof.
  destruct (addresses_extend_city_address (mk_row "Lost Clinic" " " "Atlantis" "ZZ"))
    as (_ & _ & H1 & _ & _ & _ & H2).
  split; [exact (H1 eq_refl)|].
  apply H2; discriminate.
Defined.

(** ** Blank cells *)

Lemma lstrip_blank s : blank s = true -> lstrip s = "".
Proof.
  induction s as [|c s IH]; simpl; [done|].
  intros [Hc Hs]%andb_true_iff. rewrite Hc. by apply IH.
Qed.

Lemma blank_lstrip s : blank (lstrip s) = blank s.
Proof.
  induction s as [|c s IH]; simpl; [done|].
  destruct (is_space c) eqn:Hc; simpl; [done|]. by rewrite Hc.
Qed.

Lemma rstrip_empty_iff s : rstrip s = "" <-> blank s = true.
Proof.
  induction s as [|c s IH]; simpl; [done|].
  destruct (rstrip s) eqn:E.
  - destruct (is_space c); simpl; [|done]. split; intros _; [by apply IH|done].
  - split; [done|]. intros [_ Hs]%andb_true_iff. by apply IH in Hs.
Qed.

Lemma strip_empty_iff s : strip s = "" <-> blank s = true.
Proof. unfold strip. by rewrite rstrip_empty_iff, blank_lstrip. Qed.

(** X3.  An address is empty exactly when all the cells it is built from
    are blank (white space only, or missing): four cells for the primary
    address, three for the city address.  A row whose street, city, state
    and ZIP cells are all blank therefore never enters the lookup block. *)
Theorem blank_cells_give_empty_address row :
  (build_primary_address row = "" <->
   forall col, In col [STREET_COL; CITY_COL; STATE_COL; ZIP_COL] ->
               blank (cell_text row col) = true)
  /\ (build_city_address row = "" <->
      forall col, In col [CITY_COL; STATE_COL; ZIP_COL] ->
                  blank (cell_text row col) = true)
  /\ ((forall col, In col [STREET_COL; CITY_COL; STATE_COL; ZIP_COL] ->
                   blank (cell_text row col) = true) ->
      needs_lookup row = false).
Proof.
  assert (H4 : build_primary_address row = "" <->
               forall col, In col [STREET_COL; CITY_COL; STATE_COL; ZIP_COL] ->
                           blank (cell_text row col) = true).
  { unfold build_primary_address. cbv zeta. rewrite join_nonempty_empty. split.
    - intros H col Hc. apply strip_empty_iff. apply H.
      simpl in Hc. simpl. unfold field, cell_text in *.
      destruct Hc as [<-|[<-|[<-|[<-|[]]]]]; auto.
    - intros H p Hp. simpl in Hp.
      destruct Hp as [<-|[<-|[<-|[<-|[]]]]]; apply strip_empty_iff, H; simpl; auto. }
  split; [exact H4|]. split.
  - unfold build_city_address. cbv zeta. rewrite join_nonempty_empty. split.
    + intros H col Hc. apply strip_empty_iff. apply H.
      simpl in Hc. simpl. unfold field, cell_text in *.
      destruct Hc as [<-|[<-|[<-|[]]]]; auto.
    + intros H p Hp. simpl in Hp.
      destruct Hp as [<-|[<-|[<-|[]]]]; apply strip_empty_iff, H; simpl; auto.
  - intros H. apply H4 in H. unfold needs_lookup. rewrite H. apply andb_false_r.
Qed.

Lemma blank_cells_give_empty_address_witness :
  needs_lookup [(STREET_COL, VStr "  "); (CITY_COL, VStr ""); (HOSP_COL, VStr "GW")]
  = false.
Proof.
  apply (proj2 (proj2 (blank_cells_give_empty_address
                         [(STREET_COL, VStr "  "); (CITY_COL, VStr "");
                          (HOSP_COL, VStr "GW")]))).
  intros col Hc. simpl in Hc.
  destruct Hc as [<-|[<-|[<-|[<-|[]]]]]; reflexivity.
Defined.

(** ** The decoded body *)

(** X4.  What [census_geocode] makes of unusual bodies.  A falsy body, a
    falsy or missing [result], and a falsy or missing [addressMatches] all
    give the absent result, and so does a first candidate that has neither
    coordinates nor a [tigerLine].  A truthy body or [result] that is not an
    object, and a first candidate that is not an object, raise
    [AttributeError]. *)
Theorem parse_body_edges :
  (forall r, truthy r = false -> parse_body r = Ok absent)
  /\ (forall r, truthy r = true -> (forall d, r <> VDict d) ->
      parse_body r = Raise AttributeError)
  /\ (forall d, truthy (get_or d "result" VNone) = false ->
      parse_body (VDict d) = Ok absent)
  /\ (forall d, truthy (get_or d "result" VNone) = true ->
      (forall r, get_or d "result" VNone <> VDict r) ->
      parse_body (VDict d) = Raise AttributeError)
  /\ (forall d r, get_or d "result" VNone = VDict r ->
      truthy (get_or r "addressMatches" VNone) = false ->
      parse_body (VDict d) = Ok absent)
  /\ (forall d r x rest,
      get_or d "result" VNone = VDict r ->
      get_or r "addressMatches" VNone = VList (x :: rest) ->
      (forall top, x = VDict top ->
         truthy (get_or top "coordinates" VNone) = false ->
         truthy (get_or top "tigerLine" VNone) = false ->
         parse_body (VDict d) = Ok absent)
      /\ ((forall top, x <> VDict top) -> parse_body (VDict d) = Raise AttributeError)).
Proof.
  assert (Td : forall d, py_or (VDict d) (VDict []) = VDict d) by (by intros []).
  repeat split.
  - intros r Hr. unfold parse_body, py_or. rewrite Hr. reflexivity.
  - intros r Hr Hd. unfold parse_body, py_or. rewrite Hr.
    destruct r; try done. by destruct (Hd d).
  - intros d Hr. unfold parse_body, mbind, res_bind. rewrite Td. simpl.
    unfold py_or at 1. rewrite Hr. reflexivity.
  - intros d Hr Hd. unfold parse_body, mbind, res_bind. rewrite Td. simpl.
    unfold py_or at 1. rewrite Hr.
    destruct (get_or d "result" VNone) as [| | | | | |r]; try done. by destruct (Hd r).
  - intros d r Hr Ham. unfold parse_body, mbind, res_bind. rewrite Td. simpl.
    rewrite Hr, Td. simpl. unfold py_or at 1 2. by rewrite Ham.
  - intros top -> Hco Htl. unfold parse_body, mbind, res_bind. rewrite Td. simpl.
    rewrite H, Td. simpl. rewrite H0. simpl.
    unfold py_or at 1 2. rewrite Hco. simpl. unfold py_or. by rewrite Htl.
  - intros Hx. unfold parse_body, mbind, res_bind. rewrite Td. simpl.
    rewrite H, Td. simpl. rewrite H0. simpl.
    destruct x; try done. by destruct (Hx d0).
Qed.

Lemma parse_body_edges_witness :
  parse_body (VDict [("result", VDict [("addressMatches", VList [VDict [("matchedAddress", VStr "x")]])])])
  = Ok absent
  /\ parse_body (VList [VInt 1]) = Raise AttributeError.
Proof.
  destruct parse_body_edges as (_ & H2 & _ & _ & _ & H6).
  split.
  - destruct (H6 [("result", VDict [("addressMatches", VList [VDict [("matchedAddress", VStr "x")]])])]
                 _ _ _ eq_refl eq_refl) as (H & _).
    exact (H _ eq_refl eq_refl eq_refl).
  - apply H2; [reflexivity | discriminate].
Defined.

(** ** The start of [main] *)

Lemma find_first {A} (f : A -> bool) l x :
  List.find f l = Some x <->
  exists before after,
    l = before ++ x :: after /\ f x = true /\ forall c, In c before -> f c = false.
Proof.
  induction l as [|y l IH]; simpl.
  - split; [done|]. intros (b&af&H&_). by destruct b.
  - destruct (f y) eqn:Hy.
    + split.
      * intros [= <-]. exists [], l. by repeat split.
      * intros ([|z b]&af&H&Hx&Hb); simpl in H.
        -- by injection H as <- _.
        -- injection H as <- _. rewrite (Hb y) in Hy by (by left). done.
    + rewrite IH. split.
      * intros (b&af&->&Hx&Hb). exists (y :: b), af. repeat split; [done|].
        intros c [<-|Hc]; [done|by apply Hb].
      * intros ([|z b]&af&H&Hx&Hb); simpl in H.
        -- injection H as <- _. congruence.
        -- injection H as <- ->. exists b, af. repeat split; [done|].
           intros c Hc. apply Hb. by right.
Qed.

Lemma mem_false_iff k l : mem k l = false <-> ~ In k l.
Proof. rewrite <- mem_true_iff. by destruct (mem k l). Qed.

(** X5.  [main] stops before opening any file in two cases only: an empty
    table, and a first row that lacks one of the five required columns; the
    column reported is the first missing one in the order street, city,
    state, ZIP, hospital name.  Only the keys of the first row are looked
    at.  In both cases no request is sent and nothing is changed. *)
Theorem main_early_exits net a table :
  let o := main net a table in
  (table = [] <-> result o = NoRows)
  /\ (forall col,
        result o = MissingColumn col <->
        exists row0 rest before after,
          table = row0 :: rest
          /\ required_columns = before ++ col :: after
          /\ ~ In col (dict_keys row0)
          /\ forall c, In c before -> In c (dict_keys row0))
  /\ (files o = [] <-> result o = NoRows \/ exists col, result o = MissingColumn col)
  /\ (files o = [] -> final o = initial table).
Proof.
  cbv zeta. unfold main.
  destruct table as [|row0 rest].
  { repeat split; try done; eauto.
    - intros (?&?&?&?&?&_); done. }
  destruct (List.find _ required_columns) as [col0|] eqn:F.
  { simpl. apply find_first in F as (b&af&Hreq&Hx&Hb).
    apply negb_true_iff, mem_false_iff in Hx.
    assert (Hb' : forall c, In c b -> In c (dict_keys row0)).
    { intros c Hc. apply mem_true_iff. specialize (Hb c Hc).
      by apply negb_false_iff in Hb. }
    repeat split; try done; eauto.
    - intros [= <-]. by exists row0, rest, b, af.
    - intros (r0&rs&b2&af2&[= <- <-]&Hreq2&Hx2&Hb2). f_equal.
      (* both are the first missing column *)
      rewrite Hreq in Hreq2. clear Hreq.
      revert b2 Hreq2 Hb2. induction b as [|y b IHb]; intros [|z b2] E Hb2;
        simpl in E.
      + by injection E.
      + injection E as -> _. destruct Hx. apply Hb2. by left.
      + injection E as -> _. destruct Hx2. apply Hb'. by left.
      + injection E as -> E. apply (IHb ltac:(intros; apply Hb; by right)
                                       ltac:(intros; apply Hb'; by right) b2 E).
        intros c Hc. apply Hb2. by right. }
  assert (Hnone : forall col before after,
            required_columns = before ++ col :: after ->
            ~ In col (dict_keys row0) -> False).
  { intros col b af Hreq Hx.
    pose proof (find_none _ _ F col) as H.
    rewrite Hreq in H. specialize (H ltac:(apply in_or_app; right; by left)).
    apply negb_false_iff, mem_true_iff in H. done. }
  destruct (for_each _ _ _) as [[[]|e] s1].
  - destruct (unmatched_rows s1) as [|u0 us].
    + simpl. repeat split; try done.
      * intros (?&?&?&?&[= <- <-]&?&?&_); exfalso; eauto.
      * intros [?|[? ?]]; done.
    + destruct (write_rows _ _ _) as [[[]|e] w]; simpl; repeat split; try done;
        try (intros (?&?&?&?&[= <- <-]&?&?&_); exfalso; eauto);
        try (intros [?|[? ?]]; done).
  - simpl. repeat split; try done.
    + intros (?&?&?&?&[= <- <-]&?&?&_); exfalso; eauto.
    + intros [?|[? ?]]; done.
Qed.

Lemma main_early_exits_witness :
  result (main sample_net sample_args [[(CITY_COL, VStr "Richmond"); (STREET_COL, VStr "1 A St")]])
  = MissingColumn STATE_COL.
Proof.
  apply (proj1 (proj2 (main_early_exits sample_net sample_args
                         [[(CITY_COL, VStr "Richmond"); (STREET_COL, VStr "1 A St")]]))).
  exists [(CITY_COL, VStr "Richmond"); (STREET_COL, VStr "1 A St")], [],
    [STREET_COL; CITY_COL], [ZIP_COL; HOSP_COL].
  split; [reflexivity|]. split; [reflexivity|]. split.
  - simpl. intros [H|[H|[]]]; discriminate H.
  - intros c [<-|[<-|[]]]; simpl; auto.
Defined.

(** ** The output columns *)

Lemma output_fieldnames_full headers :
  (forall c, In c result_columns -> In c headers) ->
  output_fieldnames headers = headers.
Proof.
  intros H. unfold output_fieldnames, result_columns in *. simpl.
  assert (H1 : mem LAT headers = true) by (apply mem_true_iff, H; simpl; auto).
  assert (H2 : mem LON headers = true) by (apply mem_true_iff, H; simpl; auto).
  assert (H3 : mem SRC headers = true) by (apply mem_true_iff, H; simpl; auto).
  assert (H4 : mem CONF headers = true) by (apply mem_true_iff, H; simpl; auto 6).
  by rewrite H1, H2, H3, H4.
Qed.

Lemma in_output_fieldnames headers c :
  In c (output_fieldnames headers) <-> In c headers \/ In c result_columns.
Proof.
  rewrite output_fieldnames_eq, in_app_iff, filter_In.
  split; [tauto|]. intros [?|Hc]; [tauto|].
  destruct (mem c headers) eqn:E; [left; by apply mem_true_iff|tauto].
Qed.

(** X6.  The output columns always contain the four result columns and
    start with the input columns; computing them from columns that are
    already output columns adds nothing, so the output of one run has the
    same header when it is the input of the next; and they have no
    duplicate when the input columns have none. *)
Theorem output_fieldnames_stable headers :
  output_fieldnames (output_fieldnames headers) = output_fieldnames headers
  /\ (forall c, In c result_columns -> In c (output_fieldnames headers))
  /\ (exists added,
        output_fieldnames headers = headers ++ added
        /\ (length added <= 4)%nat
        /\ forall c, In c added -> In c result_columns /\ ~ In c headers)
  /\ (NoDup headers -> NoDup (output_fieldnames headers)).
Proof.
  split; [|split; [|split]].
  - apply output_fieldnames_full. intros c Hc. apply in_output_fieldnames. by right.
  - intros c Hc. apply in_output_fieldnames. by right.
  - exists (List.filter (fun c => negb (mem c headers)) result_columns).
    split; [apply output_fieldnames_eq|]. split.
    + unfold result_columns. simpl.
      repeat (destruct (negb _); simpl); lia.
    + intros c Hc. apply filter_In in Hc as [Hc Hm]. split; [done|].
      by apply negb_true_iff, mem_false_iff in Hm.
  - intros Hnd. rewrite output_fieldnames_eq. apply NoDup_app. split; [done|]. split.
    + intros c Hc Hc'. apply list_elem_of_In in Hc, Hc'.
      apply filter_In in Hc' as [_ Hm]. by apply negb_true_iff, mem_false_iff in Hm.
    + apply NoDup_ListNoDup, List.NoDup_filter. unfold result_columns.
      apply NoDup_ListNoDup. apply (bool_decide_unpack _). by vm_compute.
Qed.

Lemma output_fieldnames_stable_witness :
  NoDup (output_fieldnames (dict_keys precise_row)).
Proof.
  apply (proj2 (proj2 (proj2 (output_fieldnames_stable (dict_keys precise_row))))).
  apply (bool_decide_unpack _). vm_compute. reflexivity.
Defined.

(** ** The selected range *)

Lemma required_present row0 :
  (forall c, In c required_columns -> In c (dict_keys row0)) ->
  List.find (fun col => negb (mem col (dict_keys row0))) required_columns = None.
Proof.
  intros H. destruct (List.find _ _) as [col|] eqn:F; [|done].
  apply find_some in F as [Hin Hm].
  apply negb_true_iff, mem_false_iff in Hm. by destruct (Hm (H col Hin)).
Qed.

(** X7.  When the range is empty, because the start index is not below the
    number of rows or because the limit is zero or negative, [main]
    finishes at once: the output file holds the header and no record, no
    request is sent, and no unmatched file is written. *)
Theorem empty_range_writes_header_only net a row0 rest :
  let table := row0 :: rest in
  (forall c, In c required_columns -> In c (dict_keys row0)) ->
  (Z.of_nat (length table) <= start a \/ exists l, limit a = Some l /\ l <= 0) ->
  main net a table
  = mkOutcome Finished (initial table)
      [(outfile a, mkCsv (output_fieldnames (dict_keys row0)) [])].
Proof.
  intros table Hreq Hrange. subst table. unfold main.
  rewrite (required_present row0 Hreq).
  rewrite py_range_nil; [done|].
  unfold range_end. destruct Hrange as [H|(l&->&H)]; [destruct (limit a)|]; lia.
Qed.

Lemma empty_range_writes_header_only_witness :
  files (main sample_net (mkArgs "out.csv" (b64 0.25) 5 0 (Some 0)) sample_table)
  = [("out.csv", mkCsv sample_headers [])].
Proof.
  refine (f_equal files
            (empty_range_writes_header_only sample_net
               (mkArgs "out.csv" (b64 0.25) 5 0 (Some 0))
               (mk_row "GW Hospital" "900 23rd St NW" "Washington" "DC")
               (tl sample_table) _ _)).
  - intros c Hc. simpl in Hc. simpl.
    destruct Hc as [<-|[<-|[<-|[<-|[<-|[]]]]]]; auto 10.
  - right. exists 0. split; [reflexivity|lia].
Defined.

(** X8.  A start index below minus the number of rows, with a range that is
    not empty, makes the first [rows[idx]] raise [IndexError]: the run is
    aborted with the header as the only content of the output file, before
    any request. *)
Theorem start_below_table_aborts net a row0 rest :
  let table := row0 :: rest in
  (forall c, In c required_columns -> In c (dict_keys row0)) ->
  start a < - Z.of_nat (length table) ->
  (limit a = None \/ exists l, limit a = Some l /\ 0 < l) ->
  main net a table
  = mkOutcome (Aborted IndexError) (initial table)
      [(outfile a, mkCsv (output_fieldnames (dict_keys row0)) [])].
Proof.
  intros table Hreq Hstart Hlimit. unfold main, table.
  rewrite (required_present row0 Hreq). fold table.
  assert (Hend : start a < range_end a (length table)).
  { unfold range_end. destruct Hlimit as [->|(l&->&H)]; lia. }
  rewrite (py_range_cons _ _ Hend). simpl for_each.
  unfold mbind at 1, M_bind at 1.
  assert (E : process_row net a (output_fieldnames (dict_keys row0)) (start a)
                (initial table) = (Raise IndexError, initial table)).
  { unfold process_row, mbind, M_bind, get_row, py_index.
    change (length (rows (initial table))) with (length table).
    destruct (Z.leb_spec 0 (start a)); [lia|].
    by destruct (Z.leb_spec 0 (Z.of_nat (length table) + start a)); [lia|]. }
  by rewrite E.
Qed.

Lemma start_below_table_aborts_witness :
  result (main sample_net (mkArgs "out.csv" (b64 0.25) 5 (-6) None) sample_table)
  = Aborted IndexError.
Proof.
  refine (f_equal result
            (start_below_table_aborts sample_net
               (mkArgs "out.csv" (b64 0.25) 5 (-6) None)
               (mk_row "GW Hospital" "900 23rd St NW" "Washington" "DC")
               (tl sample_table) _ _ _)).
  - intros c Hc. simpl in Hc. simpl.
    destruct Hc as [<-|[<-|[<-|[<-|[<-|[]]]]]]; auto 10.
  - simpl. lia.
  - by left.
Defined.

(** ** One iteration, in general *)

Lemma chain_result_source net tr p h c source b1 b2 r t src :
  chain_facts net tr p h c source b1 b2 r ->
  r = Ok (t, src) ->
  src = source \/ exists tag, In tag tier_tags /\ src = VStr tag.
Proof.
  intros (_&_&K1&K2&K3&K4&K5&K6) ->.
  assert (Htag : forall (t' : triple) (tag : string), In tag tier_tags ->
            Ok (t, src) = Ok (t', if matched_t t' then VStr tag else source) ->
            src = source \/ exists tag, In tag tier_tags /\ src = VStr tag).
  { intros t' tag Htag [= -> ->]. destruct (matched_t t'); eauto. }
  destruct b2.
  - destruct (answer net (tr ++ Get p :: (if b1 then [Get h] else [])) c) as [t'|e] eqn:A.
    + apply (Htag t' "census_city"); [simpl; auto|]. by apply K4.
    + by specialize (K3 e eq_refl eq_refl).
  - destruct b1.
    + destruct (answer net (tr ++ [Get p]) h) as [t'|e] eqn:A.
      * apply (Htag t' "census_hospital"); [simpl; auto|]. by apply K5.
      * by specialize (K2 e eq_refl eq_refl).
    + destruct (answer net tr p) as [t'|e] eqn:A.
      * apply (Htag t' "census_primary"); [simpl; auto|]. by apply K6.
      * by specialize (K1 e eq_refl).
Qed.

Lemma process_row_bad_index net a fieldnames idx s :
  py_index (length (rows s)) idx = None ->
  process_row net a fieldnames idx s = (Raise IndexError, s).
Proof. intros H. unfold process_row, mbind, M_bind, get_row. by rewrite H. Qed.

Section Summary.
Context (net : network) (a : args) (fieldnames : list string).
Context (idx : Z) (s : state) (i : nat) (row : pydict).
Hypothesis Hi : py_index (length (rows s)) idx = Some i.
Hypothesis Hrow : rows s !! i = Some row.
Let p := build_primary_address row.
Let rs := process_row net a fieldnames idx s.

(** Everything an iteration on an existing row can do to the state. *)
Lemma iteration_summary :
  exists evs,
    trace rs.2 = trace s ++ evs
    /\ (length (requests evs) <= 3)%nat
    /\ ((cache rs.2 = cache s /\ sleeps evs = [])
        \/ (exists t, cache s !! p = None /\ nonempty p = true
                      /\ cache rs.2 = <[p := t]> (cache s)
                      /\ ((sleeps evs = [sleep a] /\ sleep_refusal (sleep a) = None)
                          \/ (exists e,
                              sleeps evs = [] /\ sleep_refusal (sleep a) = Some e
                              /\ rs.1 = Raise e /\ rows rs.2 = rows s
                              /\ fout rs.2 = fout s
                              /\ unmatched_rows rs.2 = unmatched_rows s))))
    /\ ((rows rs.2 = rows s /\ unmatched_rows rs.2 = unmatched_rows s
         /\ fout rs.2 = fout s /\ exists e, rs.1 = Raise e)
        \/ (exists t src,
              let row' := final_row a row t src in
              possible_source row src
              /\ rows rs.2 = <[i := row']> (rows s)
              /\ unmatched_rows rs.2
                 = unmatched_rows s ++
                     (if is_unmatched row' then [unmatched_copy p row'] else [])
              /\ ((exists rec, dict_to_list fieldnames row' = Ok rec
                               /\ rs.1 = Ok tt /\ fout rs.2 = fout s ++ [rec])
                  \/ (dict_to_list fieldnames row' = Raise ValueError
                      /\ rs.1 = Raise ValueError /\ fout rs.2 = fout s)))).
Proof.
  assert (Hst : forall t src s1 evs,
            rs = stored a fieldnames i row t src s1 ->
            rows s1 = rows s -> unmatched_rows s1 = unmatched_rows s ->
            fout s1 = fout s -> trace s1 = trace s ++ evs ->
            possible_source row src ->
            trace rs.2 = trace s ++ evs /\ cache rs.2 = cache s1
            /\ exists t src,
                 let row' := final_row a row t src in
                 possible_source row src
                 /\ rows rs.2 = <[i := row']> (rows s)
                 /\ unmatched_rows rs.2
                    = unmatched_rows s ++
                        (if is_unmatched row' then [unmatched_copy p row'] else [])
                 /\ ((exists rec, dict_to_list fieldnames row' = Ok rec
                                  /\ rs.1 = Ok tt /\ fout rs.2 = fout s ++ [rec])
                     \/ (dict_to_list fieldnames row' = Raise ValueError
                         /\ rs.1 = Raise ValueError /\ fout rs.2 = fout s))).
  { intros t src s1 evs E H1 H2 H3 H4 Hsrc. rewrite E. unfold stored.
    rewrite H1, H2, H3, H4.
    destruct (dict_to_list fieldnames (final_row a row t src)) as [rec|e] eqn:D; simpl.
    - split; [done|]. split; [done|]. exists t, src. cbv zeta.
      rewrite D. split; [done|]. split; [done|]. split; [done|]. left. by exists rec.
    - assert (e = ValueError) as ->.
      { unfold dict_to_list in D. by destruct (forallb _ _); [|injection D as <-]. }
      split; [done|]. split; [done|]. exists t, src. cbv zeta.
      rewrite D. split; [done|]. split; [done|]. split; [done|]. by right. }
  destruct (needs_lookup row) eqn:N.
  2:{ destruct (Hst (existing row) (existing_source row) s [])
        as (Ht&Hc&Hrest); try done.
      { subst rs. by apply iteration_skip. }
      { by rewrite app_nil_r. }
      { by left. }
      exists []. split; [exact Ht|]. split; [simpl; lia|].
      split; [by left|]. by right. }
  destruct (cache s !! p) as [t0|] eqn:C.
  { destruct (Hst t0 (existing_source row) s []) as (Ht&Hc&Hrest); try done.
    { subst rs. by apply iteration_hit. }
    { by rewrite app_nil_r. }
    { by left. }
    exists []. split; [exact Ht|]. split; [simpl; lia|].
    split; [by left|]. by right. }
  assert (Hp : nonempty p = true).
  { unfold needs_lookup in N. by apply andb_true_iff in N as [_ ?]. }
  destruct (iteration_miss net a fieldnames idx s i row Hi Hrow N C)
    as (b1&b2&r&Hf&Hrun). cbv zeta in Hrun. fold rs p in Hrun, Hf.
  set (h := build_hospital_address row) in *.
  set (c := build_city_address row) in *.
  assert (Hreq : (length (requests (chain_events p h c b1 b2)) <= 3)%nat).
  { rewrite requests_chain_events. destruct b1, b2; simpl; lia. }
  destruct r as [[t src]|e].
  - pose proof (chain_result_source _ _ _ _ _ _ _ _ _ t src Hf eq_refl) as Hsrc.
    destruct (sleep_refusal (sleep a)) as [e0|] eqn:Q.
    + exists (chain_events p h c b1 b2). rewrite Hrun.
      cbn [fst snd trace cache rows fout unmatched_rows].
      split; [done|]. split; [exact Hreq|]. rewrite sleeps_chain_events. split.
      * right. exists t. repeat split; try done. right. exists e0. by repeat split.
      * left. repeat split; try done. by exists e0.
    + destruct (Hst t src _ (chain_events p h c b1 b2 ++ [Sleep (sleep a)]) Hrun)
        as (Ht&Hc&Hrest); try done.
      { unfold add_events; simpl. by rewrite <- app_assoc. }
      exists (chain_events p h c b1 b2 ++ [Sleep (sleep a)]).
      split; [exact Ht|]. rewrite requests_app, sleeps_app, sleeps_chain_events.
      split; [rewrite length_app;
              change (length (requests [Sleep (sleep a)])) with 0%nat; lia|].
      split; [|by right].
      right. exists t. rewrite Hc. simpl. repeat split; try done. by left.
  - exists (chain_events p h c b1 b2). rewrite Hrun. unfold add_events.
    cbn [fst snd trace cache rows fout unmatched_rows].
    split; [done|]. split; [exact Hreq|]. rewrite sleeps_chain_events.
    split; [by left|]. left. repeat split; try done. by exists e.
Qed.
End Summary.

(** ** The whole run *)

Lemma run_invariant net a fieldnames (P : state -> Prop) :
  (forall idx s, P s -> P (process_row net a fieldnames idx s).2) ->
  forall l s, P s -> P (for_each (process_row net a fieldnames) l s).2.
Proof.
  intros Hstep l. induction l as [|idx l IH]; intros s Hs; simpl; [done|].
  unfold mbind, M_bind. specialize (Hstep idx s Hs).
  destruct (process_row net a fieldnames idx s) as [[[]|e] s1]; simpl in *;
    [by apply IH|done].
Qed.

(** The state that [main] ends in is the one its loop ends in. *)
Lemma main_final net a table :
  final (main net a table) = initial table
  \/ exists fieldnames,
       final (main net a table)
       = (for_each (process_row net a fieldnames) (iterations a table)
                   (initial table)).2.
Proof.
  unfold main, iterations. destruct table as [|row0 rest]; [by left|].
  destruct (List.find _ _); [by left|]. right.
  exists (output_fieldnames (dict_keys row0)).
  destruct (for_each _ _ _) as [[[]|e] s1]; [|done].
  destruct (unmatched_rows s1); [done|].
  by destruct (write_rows _ _ _) as [[[]|e] w].
Qed.

Lemma main_invariant net a table (P : state -> Prop) :
  P (initial table) ->
  (forall fieldnames idx s, P s -> P (process_row net a fieldnames idx s).2) ->
  P (final (main net a table)).
Proof.
  intros H0 Hstep. destruct (main_final net a table) as [->|(fns&->)]; [done|].
  by apply run_invariant; [apply Hstep|].
Qed.

Lemma same_input_final_row a row t src : same_input (final_row a row t src) row.
Proof. intros col dflt Hc. by apply get_or_final_row. Qed.

Lemma same_input_addresses r r0 :
  same_input r r0 ->
  build_primary_address r = build_primary_address r0
  /\ build_hospital_address r = build_hospital_address r0
  /\ build_city_address r = build_city_address r0.
Proof.
  intros H.
  assert (F : forall col, In col (HOSP_COL :: required_columns) ->
              field r col = field r0 col).
  { intros col Hc. unfold field. rewrite H; [done|].
    intros Hr. simpl in Hc, Hr.
    destruct Hc as [<-|[<-|[<-|[<-|[<-|[<-|[]]]]]]];
      repeat destruct Hr as [Hr|Hr]; done. }
  unfold build_primary_address, build_hospital_address, build_city_address.
  rewrite !F by (simpl; auto 10). done.
Qed.

(** X9.  [main] never changes a cell outside the four result columns and
    never adds or removes a row: at the end, every row of the list agrees
    with the input row at the same position on all other columns, and so
    has the same three candidate addresses. *)
Theorem main_keeps_input_cells net a table :
  let s := final (main net a table) in
  length (rows s) = length table
  /\ forall k r,
       rows s !! k = Some r ->
       exists r0,
         table !! k = Some r0
         /\ (forall col dflt, ~ In col result_columns ->
               get_or r col dflt = get_or r0 col dflt)
         /\ build_primary_address r = build_primary_address r0
         /\ build_hospital_address r = build_hospital_address r0
         /\ build_city_address r = build_city_address r0.
Proof.
  cbv zeta.
  apply (main_invariant net a table
           (fun s => length (rows s) = length table
                     /\ forall k r, rows s !! k = Some r ->
                          exists r0, table !! k = Some r0
                            /\ (forall col dflt, ~ In col result_columns ->
                                  get_or r col dflt = get_or r0 col dflt)
                            /\ build_primary_address r = build_primary_address r0
                            /\ build_hospital_address r = build_hospital_address r0
                            /\ build_city_address r = build_city_address r0)).
  - split; [done|]. intros k r Hr. exists r. simpl in Hr. by repeat split.
  - intros fns idx s [Hlen Hrows].
    destruct (py_index (length (rows s)) idx) as [i|] eqn:Hi;
      [|by rewrite process_row_bad_index].
    destruct (lookup_lt_is_Some_2 (rows s) i (py_index_lt _ _ _ Hi)) as [row Hrow].
    destruct (iteration_summary net a fns idx s i row Hi Hrow)
      as (evs&_&_&_&[(->&_)|(t&src&_&->&_)]); [done|].
    split; [by rewrite length_insert|].
    intros k r Hr. destruct (decide (k = i)) as [->|Hne].
    + rewrite list_lookup_insert_eq in Hr by (by eapply lookup_lt_Some).
      injection Hr as <-.
      destruct (Hrows i row Hrow) as (r0&Hr0&Hsame&_).
      exists r0. split; [done|].
      assert (S : same_input (final_row a row t src) r0).
      { intros col dflt Hc. rewrite same_input_final_row by done. by apply Hsame. }
      split; [exact S|]. by apply same_input_addresses.
    + rewrite list_lookup_insert_ne in Hr by done. by apply Hrows.
Qed.

(** What one iteration, on any index, adds to the trace and the lists. *)
Lemma step_bounds net a fieldnames idx s :
  let rs := process_row net a fieldnames idx s in
  exists evs,
    trace rs.2 = trace s ++ evs
    /\ (length (requests evs) <= 3)%nat
    /\ (sleeps evs = [] \/ sleeps evs = [sleep a])
    /\ (length (unmatched_rows rs.2) <= length (unmatched_rows s) + 1)%nat
    /\ (length (fout rs.2) <= length (fout s) + 1)%nat.
Proof.
  cbv zeta.
  destruct (py_index (length (rows s)) idx) as [i|] eqn:Hi.
  2:{ rewrite process_row_bad_index by done. exists []. simpl.
      rewrite app_nil_r. repeat split; auto; lia. }
  destruct (lookup_lt_is_Some_2 (rows s) i (py_index_lt _ _ _ Hi)) as [row Hrow].
  destruct (iteration_summary net a fieldnames idx s i row Hi Hrow)
    as (evs&Htr&Hreq&Hc&Hr).
  exists evs. split; [done|]. split; [done|]. split.
  { destruct Hc as [(_&->)|(t&_&_&_&[(->&_)|(e&->&_)])]; auto. }
  destruct Hr as [(_&->&->&_)|(t&src&_&_&->&Hw)]; [lia|].
  split.
  - rewrite length_app. destruct (is_unmatched _); simpl; lia.
  - destruct Hw as [(rec&_&_&->)|(_&_&->)]; [rewrite length_app; simpl|]; lia.
Qed.

Lemma run_bounds net a fieldnames l : forall s,
  let rs := for_each (process_row net a fieldnames) l s in
  exists evs,
    trace rs.2 = trace s ++ evs
    /\ (length (requests evs) <= 3 * length l)%nat
    /\ (length (sleeps evs) <= length l)%nat
    /\ (forall d, In d (sleeps evs) -> d = sleep a)
    /\ (length (unmatched_rows rs.2) <= length (unmatched_rows s) + length l)%nat
    /\ (length (fout rs.2) <= length (fout s) + length l)%nat.
Proof.
  induction l as [|idx l IH]; intros s; cbv zeta.
  { exists []. simpl. rewrite app_nil_r. repeat split; auto; try lia; by intros d []. }
  simpl. unfold mbind, M_bind.
  destruct (step_bounds net a fieldnames idx s) as (e1&T1&R1&S1&U1&F1).
  assert (S1' : (length (sleeps e1) <= 1)%nat /\ forall d, In d (sleeps e1) -> d = sleep a).
  { destruct S1 as [->| ->]; simpl; (split; [lia|]); intros d; [done|].
    by intros [<-|[]]. }
  destruct S1' as [S1a S1b].
  destruct (process_row net a fieldnames idx s) as [[[]|e] s1]; simpl in *.
  - destruct (IH s1) as (e2&T2&R2&S2&D2&U2&F2).
    exists (e1 ++ e2). rewrite T2, T1, <- app_assoc.
    rewrite requests_app, sleeps_app, !length_app.
    repeat split; try lia.
    intros d Hd. apply in_app_or in Hd as [Hd|Hd]; auto.
  - exists e1. repeat split; auto; lia.
Qed.

Lemma length_py_range lo hi : length (py_range lo hi) = Z.to_nat (hi - lo).
Proof. unfold py_range. by rewrite length_map, length_seq. Qed.

Lemma in_py_range lo hi k : In k (py_range lo hi) <-> lo <= k < hi.
Proof.
  unfold py_range. rewrite in_map_iff. split.
  - intros (n&<-&Hn). apply in_seq in Hn. lia.
  - intros H. exists (Z.to_nat (k - lo)). split; [lia|]. apply in_seq. lia.
Qed.

Lemma range_end_le a n : range_end a n <= Z.of_nat n.
Proof. unfold range_end. destruct (limit a); lia. Qed.

(** X10.  The work of [main] is bounded by the number of iterations of its
    loop, [range(args.start, end)]: at most three requests per iteration, at
    most one pause per iteration and every pause of the length given by
    [--sleep], at most one unmatched row and one output record per
    iteration.  With a non-negative [--start] the number of iterations is at
    most the number of rows, and at most [--limit] when that is given. *)
Theorem main_work_bounds net a table :
  let s := final (main net a table) in
  let n := length (iterations a table) in
  (length (requests (trace s)) <= 3 * n)%nat
  /\ (length (sleeps (trace s)) <= n)%nat
  /\ (forall d, In d (sleeps (trace s)) -> d = sleep a)
  /\ (length (unmatched_rows s) <= n)%nat
  /\ (length (fout s) <= n)%nat
  /\ (0 <= start a -> (n <= length table)%nat)
  /\ (forall l, limit a = Some l -> Z.of_nat n <= Z.max 0 l).
Proof.
  cbv zeta. split_and!.
  1-5: destruct (main_final net a table) as [->|(fns&->)]; simpl; try lia;
       try (by intros d []);
       destruct (run_bounds net a fns (iterations a table) (initial table))
         as (evs&T&R&S&D&U&F); simpl in *; rewrite ?T; auto.
  - intros H. unfold iterations. rewrite length_py_range.
    pose proof (range_end_le a (length table)). lia.
  - intros l Hl. unfold iterations. rewrite length_py_range.
    unfold range_end. rewrite Hl. lia.
Qed.


Lemma get_or_unmatched_copy p row col dflt :
  ~ In col [U_PRIMARY; U_HOSPITAL; U_CITY] ->
  get_or (unmatched_copy p row) col dflt = get_or row col dflt.
Proof.
  intros Hc. unfold get_or.
  destruct (unmatched_copy_spec p row) as (_&_&_&_&H). by rewrite H.
Qed.

Lemma addresses_unmatched_copy p row :
  build_primary_address (unmatched_copy p row) = build_primary_address row
  /\ build_hospital_address (unmatched_copy p row) = build_hospital_address row
  /\ build_city_address (unmatched_copy p row) = build_city_address row.
Proof.
  assert (F : forall col, In col (HOSP_COL :: required_columns) ->
              field (unmatched_copy p row) col = field row col).
  { intros col Hc. unfold field. rewrite get_or_unmatched_copy; [done|].
    intros Hr. simpl in Hc, Hr.
    destruct Hc as [<-|[<-|[<-|[<-|[<-|[<-|[]]]]]]];
      repeat destruct Hr as [Hr|Hr]; done. }
  unfold build_primary_address, build_hospital_address, build_city_address.
  rewrite !F by (simpl; auto 10). done.
Qed.

(** X12.  At the end of [main] every entry of the unmatched list lacks a
    latitude or a longitude ([None]), its three [Unmatched_..._Address]
    columns hold its own three candidate addresses, and on every other
    column outside the result columns it agrees with a row of the input. *)
Theorem unmatched_list_invariant net a table :
  let s := final (main net a table) in
  forall u,
    In u (unmatched_rows s) ->
    (get_or u LAT VNone = VNone \/ get_or u LON VNone = VNone)
    /\ dict_get u U_PRIMARY = Some (VStr (build_primary_address u))
    /\ dict_get u U_HOSPITAL = Some (VStr (build_hospital_address u))
    /\ dict_get u U_CITY = Some (VStr (build_city_address u))
    /\ exists r0,
         In r0 table
         /\ forall col dflt,
              ~ In col result_columns ->
              ~ In col [U_PRIMARY; U_HOSPITAL; U_CITY] ->
              get_or u col dflt = get_or r0 col dflt.
Proof.
  cbv zeta.
  pose (Q := fun u : pydict =>
    (get_or u LAT VNone = VNone \/ get_or u LON VNone = VNone)
    /\ dict_get u U_PRIMARY = Some (VStr (build_primary_address u))
    /\ dict_get u U_HOSPITAL = Some (VStr (build_hospital_address u))
    /\ dict_get u U_CITY = Some (VStr (build_city_address u))
    /\ exists r0,
         In r0 table
         /\ forall col dflt,
              ~ In col result_columns ->
              ~ In col [U_PRIMARY; U_HOSPITAL; U_CITY] ->
              get_or u col dflt = get_or r0 col dflt).
  pose (P := fun s : state =>
    (forall k r, rows s !! k = Some r -> exists r0, In r0 table /\ same_input r r0)
    /\ forall u, In u (unmatched_rows s) -> Q u).
  assert (H : P (final (main net a table))); [|by destruct H as (_&?)].
  apply main_invariant.
  - split; [|by intros u []].
    intros k r Hr. exists r. split; [|done]. simpl in Hr.
    apply list_elem_of_lookup_2 in Hr. by apply list_elem_of_In.
  - intros fns idx s (Hrows&Hum).
    destruct (py_index (length (rows s)) idx) as [i|] eqn:Hi;
      [|by rewrite process_row_bad_index].
    destruct (lookup_lt_is_Some_2 (rows s) i (py_index_lt _ _ _ Hi)) as [row Hrow].
    destruct (iteration_summary net a fns idx s i row Hi Hrow)
      as (evs&_&_&_&Hr).
    unfold P. destruct Hr as [(->&->&_)|(t&src&_&->&->&_)]; [done|].
    destruct (Hrows i row Hrow) as (r0&Hr0&Hsame).
    split.
    + intros k r Hk. destruct (decide (k = i)) as [->|Hne].
      * rewrite list_lookup_insert_eq in Hk by (by eapply lookup_lt_Some).
        injection Hk as <-. exists r0. split; [done|].
        intros col dflt Hc. rewrite same_input_final_row by done. by apply Hsame.
      * rewrite list_lookup_insert_ne in Hk by done. by eapply Hrows.
    + intros u Hu. apply in_app_or in Hu as [Hu|Hu]; [by apply Hum|].
      set (row' := final_row a row t src) in *.
      destruct (is_unmatched_cases row') as [(E&Hnone)|(E&_)];
        rewrite E in Hu; [|done].
      destruct Hu as [<-|[]].
      destruct (unmatched_copy_spec (build_primary_address row) row')
        as (U1&U2&U3&_&_).
      destruct (addresses_unmatched_copy (build_primary_address row) row')
        as (A1&A2&A3).
      destruct (addresses_final_row a row t src) as (B1&B2&B3). fold row' in B1, B2, B3.
      unfold Q. rewrite !get_or_unmatched_copy by (simpl; intros [|[|[|]]]; done).
      rewrite A1, A2, A3, B1. split_and!; try done.
      exists r0. split; [done|]. intros col dflt Hc Hc'.
      rewrite get_or_unmatched_copy by done. subst row'.
      rewrite same_input_final_row by done. by apply Hsame.
Qed.

Lemma unmatched_list_invariant_witness :
  let u := unmatched_copy "3 Unknown Rd, Atlantis, ZZ"
             (final_row sample_args (mk_row "Lost Clinic" "3 Unknown Rd" "Atlantis" "ZZ")
                        absent (VStr "census")) in
  In u (unmatched_rows (final (main sample_net sample_args sample_table)))
  /\ (get_or u LAT VNone = VNone \/ get_or u LON VNone = VNone)
  /\ dict_get u U_PRIMARY = Some (VStr (build_primary_address u)).
Proof.
  intros u.
  assert (Hin : In u (unmatched_rows (final (main sample_net sample_args sample_table)))).
  { vm_compute. left. reflexivity. }
  split; [exact Hin|].
  destruct (unmatched_list_invariant sample_net sample_args sample_table u Hin)
    as (H1&H2&_).
  split; [exact H1|exact H2].
Defined.

(** ** Rows that are not looked up, sources, failures *)

(** X13.  A row whose primary address is empty and whose latitude and
    longitude cells are strings (as every cell read from the file is) sends
    no request, leaves the cache alone and is never put on the unmatched
    list, whatever the cells hold; when the latitude cell is empty both
    cells are stored as they came, so the row is written without
    coordinates and without being reported. *)
Theorem addressless_row_is_not_reported net a fieldnames idx s i row x y :
  py_index (length (rows s)) idx = Some i ->
  rows s !! i = Some row ->
  build_primary_address row = "" ->
  get_or row LAT VNone = VStr x ->
  get_or row LON VNone = VStr y ->
  let rs := process_row net a fieldnames idx s in
  trace rs.2 = trace s /\ cache rs.2 = cache s
  /\ unmatched_rows rs.2 = unmatched_rows s
  /\ exists row',
       rows rs.2 !! i = Some row'
       /\ get_or row' SRC VNone = existing_source row
       /\ (x = "" -> get_or row' LAT VNone = VStr "" /\ get_or row' LON VNone = VStr y).
Proof.
  intros Hi Hrow Hp Hlat Hlon rs.
  assert (N : needs_lookup row = false).
  { unfold needs_lookup. rewrite Hp. simpl. apply andb_false_r. }
  subst rs. rewrite (iteration_skip net a fieldnames idx s i row Hi Hrow N).
  destruct (stored_fields a fieldnames i row (existing row) (existing_source row) s)
    as (->&->&->&->&_).
  assert (M : matched_t (existing row) = true).
  { unfold matched_t, matched, existing. simpl. by rewrite Hlat, Hlon. }
  rewrite final_row_unmatched, M. simpl. rewrite app_nil_r.
  split; [done|]. split; [done|]. split; [done|].
  eexists. split; [apply list_lookup_insert_eq; by eapply lookup_lt_Some|].
  destruct (final_row_results a row (existing row) (existing_source row))
    as (Hll&Hs&_).
  split; [exact Hs|]. intros ->.
  assert (R : round_coords (existing row).1.1 (existing row).1.2 (round_decimals a)
              = (VStr "", VStr y)).
  { unfold existing. simpl. rewrite Hlat, Hlon.
    by apply (round_coords_not_a_number _ _ _ ValueError). }
  rewrite R in Hll. by injection Hll as -> ->.
Qed.

Lemma addressless_row_is_not_reported_witness :
  let rs := process_row sample_net sample_args sample_headers 0 (initial [blank_row]) in
  trace rs.2 = [] /\ cache rs.2 = ∅ /\ unmatched_rows rs.2 = []
  /\ exists row',
       rows rs.2 !! 0%nat = Some row'
       /\ get_or row' SRC VNone = VStr "census"
       /\ (EmptyString = "" ->
           get_or row' LAT VNone = VStr "" /\ get_or row' LON VNone = VStr "").
Proof.
  exact (addressless_row_is_not_reported sample_net sample_args sample_headers 0
           (initial [blank_row]) 0%nat blank_row "" ""
           eq_refl eq_refl eq_refl eq_refl eq_refl).
Defined.

Lemma truthy_possible_source row src :
  possible_source row src ->
  truthy src = true
  /\ (src = get_or row SRC VNone
      \/ exists tag, In tag ("census" :: tier_tags) /\ src = VStr tag).
Proof.
  intros [->|(tag&Htag&->)].
  - unfold existing_source, py_or.
    destruct (truthy (get_or row SRC VNone)) eqn:T; [auto|].
    split; [done|]. right. exists "census". simpl. auto.
  - split.
    + simpl in Htag. by destruct Htag as [<-|[<-|[<-|[]]]].
    + right. exists tag. split; [by right|done].
Qed.

(** X14.  An iteration either leaves the rows as they are (it raised before
    the assignments) or stores in the row a source that is never empty: the
    source the row came with, or one of [census], [census_primary],
    [census_hospital], [census_city].  So also a row that no attempt matched
    is written with a source. *)
Theorem stored_source_is_never_empty net a fieldnames idx s i row :
  py_index (length (rows s)) idx = Some i ->
  rows s !! i = Some row ->
  let rs := process_row net a fieldnames idx s in
  (rows rs.2 = rows s /\ exists e, rs.1 = Raise e)
  \/ exists row',
       rows rs.2 !! i = Some row'
       /\ truthy (get_or row' SRC VNone) = true
       /\ (get_or row' SRC VNone = get_or row SRC VNone
           \/ exists tag, In tag ("census" :: tier_tags)
                          /\ get_or row' SRC VNone = VStr tag).
Proof.
  intros Hi Hrow rs.
  destruct (iteration_summary net a fieldnames idx s i row Hi Hrow)
    as (evs&_&_&_&[(Hr&_&_&He)|(t&src&Hsrc&Hr&_)]); [by left|right].
  fold rs in Hr. eexists. split.
  { rewrite Hr. apply list_lookup_insert_eq. by eapply lookup_lt_Some. }
  destruct (final_row_results a row t src) as (_&->&_).
  by apply truthy_possible_source.
Qed.

Lemma stored_source_is_never_empty_witness :
  let rs := process_row sample_net sample_args sample_headers 4
              (initial sample_table) in
  (rows rs.2 = sample_table /\ exists e, rs.1 = Raise e)
  \/ exists row',
       rows rs.2 !! 4%nat = Some row'
       /\ truthy (get_or row' SRC VNone) = true
       /\ (get_or row' SRC VNone
           = get_or (mk_row "Lost Clinic" "3 Unknown Rd" "Atlantis" "ZZ") SRC VNone
           \/ exists tag, In tag ("census" :: tier_tags)
                          /\ get_or row' SRC VNone = VStr tag).
Proof.
  exact (stored_source_is_never_empty sample_net sample_args sample_headers 4
           (initial sample_table) 4%nat _ eq_refl eq_refl).
Defined.

(** X15.  A request that fails is not caught: when the first lookup of an
    uncached row fails, the loop stops there with that exception, after one
    request and no pause, and the row, the cache, the unmatched list and the
    output are as before; no later row is processed.  When this happens on
    the first row of the table [main] ends with the exception, having
    written the header only, and writes no unmatched file. *)
Theorem failed_lookup_aborts_run :
  (forall net a fieldnames x l s i row e,
     py_index (length (rows s)) x = Some i ->
     rows s !! i = Some row ->
     needs_lookup row = true ->
     cache s !! build_primary_address row = None ->
     net (trace s) (build_primary_address row) = Failed e ->
     for_each (process_row net a fieldnames) (x :: l) s
     = (Raise e, add_events s [Get (build_primary_address row)]))
  /\ (forall net a row0 rest e,
        let table := row0 :: rest in
        (forall c, In c required_columns -> In c (dict_keys row0)) ->
        start a = 0 ->
        (forall l, limit a = Some l -> 0 < l) ->
        needs_lookup row0 = true ->
        net [] (build_primary_address row0) = Failed e ->
        main net a table
        = mkOutcome (Aborted e)
            (add_events (initial table) [Get (build_primary_address row0)])
            [(outfile a, mkCsv (output_fieldnames (dict_keys row0)) [])]).
Proof.
  assert (Hloop : forall net a fieldnames x l s i row e,
     py_index (length (rows s)) x = Some i ->
     rows s !! i = Some row ->
     needs_lookup row = true ->
     cache s !! build_primary_address row = None ->
     net (trace s) (build_primary_address row) = Failed e ->
     for_each (process_row net a fieldnames) (x :: l) s
     = (Raise e, add_events s [Get (build_primary_address row)])).
  { intros net a fns x l s i row e Hi Hrow N C F.
    destruct (iteration_miss net a fns x s i row Hi Hrow N C)
      as (b1&b2&r&(Hb1&Hb2&K1&_)&Hrun). cbv zeta in Hrun.
    assert (A : answer net (trace s) (build_primary_address row) = Raise e).
    { unfold answer. by rewrite F. }
    rewrite (K1 e A) in Hrun.
    assert (B1 : b1 = false).
    { destruct b1; [|done]. destruct Hb1 as [Hb1 _].
      destruct (Hb1 eq_refl) as ((?&?&?&Hx&_)&_). by rewrite A in Hx. }
    assert (B2 : b2 = false).
    { destruct b2; [|done]. destruct Hb2 as [Hb2 _].
      destruct (Hb2 eq_refl) as ((?&?&?&Hx&_)&_). by rewrite A in Hx. }
    subst b1 b2. simpl. unfold mbind, M_bind. by rewrite Hrun. }
  split; [exact Hloop|].
  intros net a row0 rest e table Hreq Hstart Hlimit N F. unfold main, table.
  rewrite (required_present row0 Hreq). fold table.
  assert (Hend : start a < range_end a (length table)).
  { unfold range_end. rewrite Hstart.
    destruct (limit a) as [l|] eqn:L; [specialize (Hlimit l eq_refl)|];
      simpl length; lia. }
  rewrite (py_range_cons _ _ Hend).
  rewrite (Hloop net a _ (start a) _ (initial table) 0%nat row0 e); try done.
  rewrite Hstart. done.
Qed.

Lemma failed_lookup_aborts_run_witness :
  main failing_net sample_args sample_table
  = mkOutcome (Aborted RequestException)
      (add_events (initial sample_table) [Get "900 23rd St NW, Washington, DC"])
      [("out.csv", mkCsv sample_headers [])].
Proof.
  refine (proj2 failed_lookup_aborts_run failing_net sample_args
            (mk_row "GW Hospital" "900 23rd St NW" "Washington" "DC")
            (tl sample_table) RequestException _ eq_refl _ eq_refl eq_refl).
  - intros c Hc. simpl in Hc. simpl.
    destruct Hc as [<-|[<-|[<-|[<-|[<-|[]]]]]]; auto 10.
  - intros l Hl. discriminate Hl.
Defined.

(** X16.  The delay is passed to [time.sleep] unchecked.  With a [--sleep]
    that [time.sleep] refuses with the exception [e0] (a negative one, as
    [-1], with [ValueError]) every uncached row that needs a lookup ends in
    an exception: the requests are sent and no pause is made, the row is not
    changed, nothing is written and nothing is added to the unmatched list;
    when the lookups themselves gave a result, the exception is [e0] and
    the result is already in the cache. *)
Theorem negative_sleep_aborts_after_lookup net a fieldnames idx s i row e0 :
  py_index (length (rows s)) idx = Some i ->
  rows s !! i = Some row ->
  needs_lookup row = true ->
  cache s !! build_primary_address row = None ->
  sleep_refusal (sleep a) = Some e0 ->
  let rs := process_row net a fieldnames idx s in
  rows rs.2 = rows s /\ fout rs.2 = fout s
  /\ unmatched_rows rs.2 = unmatched_rows s
  /\ (exists evs, trace rs.2 = trace s ++ evs /\ sleeps evs = []
                  /\ (1 <= length (requests evs))%nat)
  /\ ((exists e, rs.1 = Raise e /\ cache rs.2 = cache s)
      \/ (exists t, rs.1 = Raise e0
                    /\ cache rs.2 = <[build_primary_address row := t]> (cache s)))
  /\ (forall t, answer net (trace s) (build_primary_address row) = Ok t ->
      matched_t t = true ->
      rs = (Raise e0,
            mkState (rows s) (<[build_primary_address row := t]> (cache s))
                    (unmatched_rows s) (fout s)
                    (trace s ++ [Get (build_primary_address row)]))).
Proof.
  intros Hi Hrow N C Q rs.
  destruct (iteration_miss net a fieldnames idx s i row Hi Hrow N C)
    as (b1&b2&r&Hf&Hrun). cbv zeta in Hrun. fold rs in Hrun. rewrite Q in Hrun.
  assert (Hev : sleeps (chain_events (build_primary_address row)
                   (build_hospital_address row) (build_city_address row) b1 b2) = []
                /\ (1 <= length (requests (chain_events (build_primary_address row)
                   (build_hospital_address row) (build_city_address row) b1 b2)))%nat).
  { by destruct b1, b2; simpl; split; try lia. }
  split_and!.
  1-5: rewrite Hrun; destruct r as [[t src]|e]; simpl; eauto 10.
  intros t A M. rewrite Hrun.
  destruct (chain_sources _ _ _ _ _ _ _ _ _ Hf) as (H1&_).
  destruct H1 as (->&->&t'&A'&->).
  { destruct t as [[lat lon] conf]. by exists lat, lon, conf. }
  rewrite A in A'. by injection A' as <-.
Qed.

Lemma negative_sleep_aborts_after_lookup_witness :
  let rs := process_row sample_net hasty_args sample_headers 0 (initial sample_table) in
  sleep_refusal (sleep hasty_args) = Some ValueError
  /\ rows rs.2 = sample_table /\ fout rs.2 = [] /\ rs.1 = Raise ValueError.
Proof.
  assert (Q : sleep_refusal (sleep hasty_args) = Some ValueError)
    by (vm_compute; reflexivity).
  split; [exact Q|].
  pose proof (negative_sleep_aborts_after_lookup sample_net hasty_args sample_headers 0
           (initial sample_table) 0%nat _ ValueError eq_refl eq_refl eq_refl eq_refl Q)
    as (H1&H2&_&_&_&H6).
  split; [exact H1|]. split; [exact H2|].
  exact (f_equal fst (H6 _ eq_refl eq_refl)).
Defined.

(** ** Runs that finish *)

Lemma in_dict_keys_set c k v d :
  In c (dict_keys (dict_set k v d)) <-> In c (dict_keys d) \/ c = k.
Proof.
  rewrite dict_keys_set. destruct (mem k (dict_keys d)) eqn:E.
  - split; [auto|]. intros [?| ->]; [done|by apply mem_true_iff].
  - rewrite in_app_iff. simpl.
    split; [intros [?|[<-|[]]]; auto|intros [?| ->]; auto].
Qed.

Lemma in_keys_final_row a row t src c :
  In c (dict_keys (final_row a row t src))
  <-> In c (dict_keys row) \/ In c result_columns.
Proof.
  unfold final_row. destruct (round_coords _ _ _) as [lat lon].
  unfold set_results. rewrite !in_dict_keys_set. unfold result_columns. simpl.
  split; intros H.
  - destruct H as [[[[H|H]|H]|H]|H]; auto 10.
  - destruct H as [H|[H|[H|[H|[H|[]]]]]]; auto 10.
Qed.











(** ** The addresses that are requested *)

(** The requests of an iteration that goes through the three attempts. *)
Lemma miss_requests net a fieldnames idx s i row :
  py_index (length (rows s)) idx = Some i ->
  rows s !! i = Some row ->
  needs_lookup row = true ->
  cache s !! build_primary_address row = None ->
  let p := build_primary_address row in
  let h := build_hospital_address row in
  let c := build_city_address row in
  exists (b1 b2 : bool) r evs,
    chain_facts net (trace s) p h c (existing_source row) b1 b2 r
    /\ trace (process_row net a fieldnames idx s).2 = trace s ++ evs
    /\ requests evs = p :: (if b1 then [h] else []) ++ (if b2 then [c] else []).
Proof.
  intros Hi Hrow N C p h c.
  destruct (iteration_miss net a fieldnames idx s i row Hi Hrow N C)
    as (b1&b2&r&Hf&Hrun). cbv zeta in Hrun. fold p h c in Hrun, Hf.
  exists b1, b2, r.
  destruct r as [[t src]|e]; [destruct (sleep_refusal (sleep a))|].
  - exists (chain_events p h c b1 b2). split; [done|]. rewrite Hrun.
    split; [done|apply requests_chain_events].
  - exists (chain_events p h c b1 b2 ++ [Sleep (sleep a)]). split; [done|].
    rewrite Hrun.
    destruct (stored_fields a fieldnames i row t src
                (add_events
                   (mkState (rows s) (<[p := t]> (cache s)) (unmatched_rows s)
                            (fout s) (trace s ++ chain_events p h c b1 b2))
                   [Sleep (sleep a)])) as (_&_&->&_).
    split; [simpl; by rewrite <- app_assoc|].
    rewrite requests_app, requests_chain_events. simpl. by rewrite app_nil_r.
  - exists (chain_events p h c b1 b2). split; [done|]. rewrite Hrun.
    split; [done|apply requests_chain_events].
Qed.

Lemma iteration_requests net a fieldnames idx s i row :
  py_index (length (rows s)) idx = Some i ->
  rows s !! i = Some row ->
  exists evs,
    trace (process_row net a fieldnames idx s).2 = trace s ++ evs
    /\ forall x, In x (requests evs) ->
         nonempty x = true
         /\ (x = build_primary_address row \/ x = build_hospital_address row
             \/ x = build_city_address row).
Proof.
  intros Hi Hrow.
  destruct (needs_lookup row) eqn:N.
  2:{ exists []. rewrite (iteration_skip net a fieldnames idx s i row Hi Hrow N).
      destruct (stored_fields a fieldnames i row (existing row) (existing_source row) s)
        as (_&_&->&_). rewrite app_nil_r. split; [done|]. by intros x []. }
  destruct (cache s !! build_primary_address row) as [t|] eqn:C.
  { exists []. rewrite (iteration_hit net a fieldnames idx s i row Hi Hrow t N C).
    destruct (stored_fields a fieldnames i row t (existing_source row) s)
      as (_&_&->&_). rewrite app_nil_r. split; [done|]. by intros x []. }
  destruct (miss_requests net a fieldnames idx s i row Hi Hrow N C)
    as (b1&b2&r&evs&(Hb1&Hb2&_)&Htr&Hreq).
  exists evs. split; [exact Htr|]. rewrite Hreq. intros x [<-|Hx].
  - split; [|by left]. unfold needs_lookup in N. by apply andb_true_iff in N as [_ ?].
  - apply in_app_or in Hx as [Hx|Hx].
    + destruct b1; [|done]. destruct Hx as [<-|[]].
      destruct Hb1 as [Hb1 _]. destruct (Hb1 eq_refl) as (_&?&_). auto.
    + destruct b2; [|done]. destruct Hx as [<-|[]].
      destruct Hb2 as [Hb2 _]. destruct (Hb2 eq_refl) as (_&_&?). auto.
Qed.

(** X19.  Every address [main] sends to the service is non-empty and is the
    primary, the hospital or the city address of a row of the input. *)
Theorem requests_are_row_addresses net a table :
  let s := final (main net a table) in
  forall x,
    In x (requests (trace s)) ->
    nonempty x = true
    /\ exists r0,
         In r0 table
         /\ (x = build_primary_address r0 \/ x = build_hospital_address r0
             \/ x = build_city_address r0).
Proof.
  cbv zeta.
  pose (P := fun s : state =>
    (forall k r, rows s !! k = Some r -> exists r0, In r0 table /\ same_input r r0)
    /\ forall x, In x (requests (trace s)) ->
         nonempty x = true
         /\ exists r0,
              In r0 table
              /\ (x = build_primary_address r0 \/ x = build_hospital_address r0
                  \/ x = build_city_address r0)).
  assert (H : P (final (main net a table))); [|by destruct H as (_&?)].
  apply main_invariant.
  - split; [|by intros x []].
    intros k r Hr. exists r. split; [|done]. simpl in Hr.
    apply list_elem_of_lookup_2 in Hr. by apply list_elem_of_In.
  - intros fns idx s (Hrows&Hreq).
    destruct (py_index (length (rows s)) idx) as [i|] eqn:Hi;
      [|by rewrite process_row_bad_index].
    destruct (lookup_lt_is_Some_2 (rows s) i (py_index_lt _ _ _ Hi)) as [row Hrow].
    destruct (Hrows i row Hrow) as (r0&Hr0&Hsame).
    unfold P. split.
    + destruct (iteration_summary net a fns idx s i row Hi Hrow)
        as (evs&_&_&_&[(->&_)|(t&src&_&->&_)]); [done|].
      intros k r Hk. destruct (decide (k = i)) as [->|Hne].
      * rewrite list_lookup_insert_eq in Hk by (by eapply lookup_lt_Some).
        injection Hk as <-. exists r0. split; [done|].
        intros col dflt Hc. rewrite same_input_final_row by done. by apply Hsame.
      * rewrite list_lookup_insert_ne in Hk by done. by eapply Hrows.
    + destruct (iteration_requests net a fns idx s i row Hi Hrow) as (evs&->&Hevs).
      intros x Hx. rewrite requests_app in Hx.
      apply in_app_or in Hx as [Hx|Hx]; [by apply Hreq|].
      destruct (Hevs x Hx) as (Hne&Hx').
      split; [done|]. exists r0. split; [done|].
      destruct (same_input_addresses row r0 Hsame) as (<-&<-&<-). exact Hx'.
Qed.

Lemma requests_are_row_addresses_witness :
  nonempty "Nowhere Clinic, Richmond, VA" = true
  /\ exists r0,
       In r0 sample_table
       /\ ("Nowhere Clinic, Richmond, VA" = build_primary_address r0
           \/ "Nowhere Clinic, Richmond, VA" = build_hospital_address r0
           \/ "Nowhere Clinic, Richmond, VA" = build_city_address r0).
Proof.
  apply (requests_are_row_addresses sample_net sample_args sample_table
           "Nowhere Clinic, Richmond, VA").
  vm_compute. right. right. left. reflexivity.
Defined.

(** X20.  A row whose primary address is its city address (a row with a
    blank street) and whose lookups find nothing has the same address
    requested twice in its iteration: at the first attempt and again at the
    third, with the hospital attempt in between when the hospital address
    differs. *)
Theorem city_requested_twice net a fieldnames idx s i row :
  py_index (length (rows s)) idx = Some i ->
  rows s !! i = Some row ->
  needs_lookup row = true ->
  cache s !! build_primary_address row = None ->
  build_primary_address row = build_city_address row ->
  let p := build_primary_address row in
  let h := build_hospital_address row in
  unmatched_answer (answer net (trace s) p) ->
  (nonempty h = true -> h <> p ->
   unmatched_answer (answer net (trace s ++ [Get p]) h)) ->
  exists evs,
    trace (process_row net a fieldnames idx s).2 = trace s ++ evs
    /\ ((requests evs = [p; p] /\ (nonempty h = false \/ h = p))
        \/ (requests evs = [p; h; p] /\ h <> p)).
Proof.
  intros Hi Hrow N C Hpc p h U1 U2.
  destruct (miss_requests net a fieldnames idx s i row Hi Hrow N C)
    as (b1&b2&r&evs&(Hb1&Hb2&_)&Htr&Hreq).
  fold p h in Hb1, Hb2, Hreq. rewrite <- Hpc in Hb2, Hreq. fold p in Hb2, Hreq.
  assert (Hp : nonempty p = true).
  { unfold needs_lookup in N. by apply andb_true_iff in N as [_ ?]. }
  assert (B2 : b2 = true).
  { apply Hb2. split; [done|]. split; [|done].
    intros B1. apply Hb1 in B1 as (_&?&?). by apply U2. }
  subst b2. exists evs. split; [exact Htr|]. rewrite Hreq.
  destruct b1 eqn:B1.
  - right. split; [done|]. destruct Hb1 as [Hb1 _]. by destruct (Hb1 eq_refl) as (_&_&?).
  - left. split; [done|].
    destruct (nonempty h) eqn:Hh; [|by left]. right.
    destruct (String.eqb h p) eqn:E; [by apply String.eqb_eq|].
    apply String.eqb_neq in E. destruct Hb1 as [_ Hb1].
    assert (F : false = true) by (by apply Hb1). discriminate F.
Qed.

Lemma city_requested_twice_witness :
  exists evs,
    trace (process_row sample_net sample_args sample_headers 0
             (initial [mk_row "Lost Clinic" "" "Atlantis" "ZZ"])).2 = [] ++ evs
    /\ ((requests evs = ["Atlantis, ZZ"; "Atlantis, ZZ"]
         /\ (nonempty "Lost Clinic, Atlantis, ZZ" = false
             \/ "Lost Clinic, Atlantis, ZZ" = "Atlantis, ZZ"))
        \/ (requests evs = ["Atlantis, ZZ"; "Lost Clinic, Atlantis, ZZ"; "Atlantis, ZZ"]
            /\ "Lost Clinic, Atlantis, ZZ" <> "Atlantis, ZZ")).
Proof.
  refine (city_requested_twice sample_net sample_args sample_headers 0
            (initial [mk_row "Lost Clinic" "" "Atlantis" "ZZ"]) 0%nat
            (mk_row "Lost Clinic" "" "Atlantis" "ZZ")
            eq_refl eq_refl eq_refl eq_refl eq_refl _ _).
  - exists VNone, VNone, VNone. split; vm_compute; reflexivity.
  - intros _ _. exists VNone, VNone, VNone. split; vm_compute; reflexivity.
Defined.

(** * The tables that are written *)

(** ** Records *)

Lemma result_default a row t src col d :
  In col result_columns ->
  get_or (final_row a row t src) col d = get_or (final_row a row t src) col VNone.
Proof.
  intros Hc. unfold final_row. destruct (round_coords _ _ _) as [lat lon].
  unfold set_results. simpl in Hc.
  destruct Hc as [<-|[<-|[<-|[<-|[]]]]];
    repeat first [ rewrite !get_or_set_eq | rewrite get_or_set_ne by done ]; done.
Qed.

Lemma record_cells fieldnames row rec :
  dict_to_list fieldnames row = Ok rec ->
  rec = map (fun c => get_or row c (VStr "")) fieldnames.
Proof. unfold dict_to_list. destruct (forallb _ _); [by intros [= <-]|done]. Qed.

Lemma dict_to_list_ok fieldnames row :
  (forall c, In c (dict_keys row) -> In c fieldnames) ->
  dict_to_list fieldnames row = Ok (map (fun c => get_or row c (VStr "")) fieldnames).
Proof.
  intros H. unfold dict_to_list.
  assert (F : forallb (fun k => mem k fieldnames) (dict_keys row) = true).
  { apply forallb_forall. intros c Hc. by apply mem_true_iff, H. }
  by rewrite F.
Qed.

(** The cell of a record under a column. *)
Lemma record_cell fieldnames (row : pydict) pos col :
  fieldnames !! pos = Some col ->
  map (fun c => get_or row c (VStr "")) fieldnames !! pos
  = Some (get_or row col (VStr "")).
Proof. intros H. by rewrite list_lookup_fmap, H. Qed.

(** An iteration on a row whose columns are among the field names, as in
    [main], writes the stored row when it reaches the assignments. *)
Lemma stored_written a fieldnames i row t src s1 :
  (forall c, In c (dict_keys row) -> In c fieldnames) ->
  (forall c, In c result_columns -> In c fieldnames) ->
  let row' := final_row a row t src in
  stored a fieldnames i row t src s1
  = (Ok tt,
     mkState (<[i := row']> (rows s1)) (cache s1)
       (unmatched_rows s1 ++
          (if is_unmatched row'
           then [unmatched_copy (build_primary_address row) row'] else []))
       (fout s1 ++ [map (fun c => get_or row' c (VStr "")) fieldnames])
       (trace s1)).
Proof.
  intros H1 H2. cbv zeta. unfold stored. rewrite dict_to_list_ok; [done|].
  intros c Hc. apply in_keys_final_row in Hc as [?|?]; auto.
Qed.

(** ** The tables of a run *)

Section Tables.
Context (net : network) (a : args) (fieldnames : list string).
Let body := process_row net a fieldnames.
Let record (r : pydict) := map (fun c => get_or r c (VStr "")) fieldnames.
Let copy (r : pydict) := unmatched_copy (build_primary_address r) r.

(** The iterations of a list of indices leave the other rows alone. *)
Lemma run_rows_frame l : forall s j,
  (forall idx, In idx l -> py_index (length (rows s)) idx <> Some j) ->
  rows (for_each body l s).2 !! j = rows s !! j.
Proof.
  induction l as [|x l IH]; intros s j Hl; simpl; [done|].
  unfold mbind, M_bind.
  destruct (py_index (length (rows s)) x) as [i|] eqn:Hi.
  2:{ subst body. by rewrite process_row_bad_index. }
  destruct (lookup_lt_is_Some_2 (rows s) i (py_index_lt _ _ _ Hi)) as [row Hrow].
  destruct (iteration_frame net a fieldnames x s i row Hi Hrow) as (_&_&Hlen&Hj&_).
  assert (Hne : j <> i).
  { intros ->. by apply (Hl x); [left|]. }
  fold body in Hlen, Hj.
  destruct (body x s) as [[[]|e] s1]; simpl in *; [|by apply Hj].
  rewrite IH; [by apply Hj|].
  intros idx Hidx. rewrite Hlen. apply Hl. by right.
Qed.

(** A completed loop over [n] consecutive rows: the records written and the
    unmatched rows are read off the rows as they are stored at the end. *)
Lemma run_tables n : forall lo s s',
  0 <= lo -> (n = 0%nat \/ lo + Z.of_nat n <= Z.of_nat (length (rows s))) ->
  for_each body (py_range lo (lo + Z.of_nat n)) s = (Ok tt, s') ->
  let done := take n (drop (Z.to_nat lo) (rows s')) in
  length done = n
  /\ fout s' = fout s ++ map record done
  /\ unmatched_rows s' = unmatched_rows s ++ map copy (List.filter is_unmatched done)
  /\ forall k r', done !! k = Some r' ->
       exists r t src,
         rows s !! (Z.to_nat lo + k)%nat = Some r /\ r' = final_row a r t src.
Proof.
  induction n as [|n IH]; intros lo s s' Hlo Hhi Hrun; cbv zeta.
  { rewrite py_range_nil in Hrun by lia. injection Hrun as <-.
    rewrite take_0. simpl. rewrite !app_nil_r. repeat split; done. }
  destruct Hhi as [Hhi|Hhi]; [done|].
  rewrite py_range_cons in Hrun by lia.
  apply for_each_cons_ok in Hrun as (s1&H1&Hrest).
  replace (lo + Z.of_nat (S n)) with ((lo + 1) + Z.of_nat n) in Hrest by lia.
  assert (Hi : py_index (length (rows s)) lo = Some (Z.to_nat lo))
    by (apply py_index_nat; lia).
  set (i := Z.to_nat lo) in *.
  destruct (lookup_lt_is_Some_2 (rows s) i ltac:(lia)) as [row Hrow].
  destruct (iteration_ok net a fieldnames lo s i row Hi Hrow) as
    (t&src&rec&evs&Hr&Hu&Hd&Hf&_).
  { fold body. by rewrite H1. }
  fold body in Hr, Hu, Hf. rewrite H1 in Hr, Hu, Hf. simpl in Hr, Hu, Hf.
  set (row' := final_row a row t src) in *.
  assert (Hlen1 : length (rows s1) = length (rows s)) by (by rewrite Hr, length_insert).
  destruct (IH (lo + 1) s1 s' ltac:(lia) ltac:(right; lia) Hrest) as (L&F&U&K).
  replace (Z.to_nat (lo + 1)) with (S i) in L, F, U, K by lia.
  assert (Hi' : rows s' !! i = Some row').
  { replace s' with (for_each body (py_range (lo + 1) (lo + 1 + Z.of_nat n)) s1).2
      by (by rewrite Hrest).
    rewrite run_rows_frame.
    - rewrite Hr. apply list_lookup_insert_eq. by eapply lookup_lt_Some.
    - intros idx Hidx. apply in_py_range in Hidx. unfold py_index.
      destruct (Z.leb_spec 0 idx); [|lia].
      destruct (idx <? Z.of_nat (length (rows s1))); [|done].
      intros [= E]. lia. }
  rewrite (drop_S _ _ _ Hi'). rewrite firstn_cons.
  split; [simpl; by rewrite L|]. split; [|split].
  - rewrite F, Hf. simpl. rewrite <- app_assoc. simpl.
    by rewrite (record_cells _ _ _ Hd).
  - rewrite U, Hu. simpl. rewrite <- app_assoc. f_equal.
    destruct (is_unmatched row') eqn:E; simpl; [|done].
    unfold copy at 2. subst row'.
    by destruct (addresses_final_row a row t src) as (->&_).
  - intros [|k] r' Hk; simpl in Hk.
    + injection Hk as <-. exists row, t, src. by rewrite Nat.add_0_r.
    + destruct (K k r' Hk) as (r&t1&src1&Hrk&->).
      exists r, t1, src1. split; [|done].
      rewrite Hr in Hrk. rewrite list_lookup_insert_ne in Hrk by lia.
      by replace (i + S k)%nat with (S i + k)%nat by lia.
Qed.
End Tables.

(** When [main], started at a non-negative index, finishes: the output
    file holds the record of each row of the range, as it is stored at the
    end, and the unmatched list holds the copies of those among them that
    lack a coordinate, in the same order. *)
Lemma main_tables net a table :
  0 <= start a ->
  let o := main net a table in
  result o = Finished ->
  let n := length (iterations a table) in
  let done := take n (drop (Z.to_nat (start a)) (rows (final o))) in
  exists row0,
    head table = Some row0
    /\ let fns := output_fieldnames (dict_keys row0) in
       files o !! 0%nat
       = Some (outfile a,
               mkCsv fns (map (fun r => map (fun c => get_or r c (VStr "")) fns) done))
       /\ length done = n
       /\ unmatched_rows (final o)
          = map (fun r => unmatched_copy (build_primary_address r) r)
                (List.filter is_unmatched done)
       /\ forall k r', done !! k = Some r' ->
            exists r t src,
              table !! (Z.to_nat (start a) + k)%nat = Some r
              /\ r' = final_row a r t src.
Proof.
  intros Hs o Hfin n done. subst o done n. unfold iterations. revert Hfin.
  unfold main. destruct table as [|row0 rest]; [done|].
  destruct (List.find _ required_columns); [done|].
  set (table := row0 :: rest).
  set (fns := output_fieldnames (dict_keys row0)).
  set (hi := range_end a (length table)).
  assert (Hhi : hi <= Z.of_nat (length table)) by apply range_end_le.
  set (n := length (py_range (start a) hi)).
  assert (Hn : n = Z.to_nat (hi - start a)) by apply length_py_range.
  assert (Hrange : py_range (start a) hi = py_range (start a) (start a + Z.of_nat n)).
  { destruct (Z.le_gt_cases hi (start a)).
    - rewrite !py_range_nil; [done|lia|lia].
    - f_equal. lia. }
  destruct (for_each (process_row net a fns) (py_range (start a) hi) (initial table))
    as [[[]|e] s'] eqn:Hrun; [|done].
  rewrite Hrange in Hrun.
  destruct (run_tables net a fns n (start a) (initial table) s' Hs) as (L&F&U&K);
    [|exact Hrun|].
  { change (rows (initial table)) with table.
    destruct (Z.le_gt_cases hi (start a)); [left|right]; lia. }
  simpl in F, U, K.
  assert (Hgoal : forall fl,
            files (mkOutcome Finished s' ((outfile a, mkCsv fns (fout s')) :: fl)) !! 0%nat
            = Some (outfile a, mkCsv fns (fout s'))) by done.
  destruct (unmatched_rows s') as [|u0 us] eqn:Hu; cbv beta iota zeta.
  - intros _. exists row0. split; [done|]. cbv zeta. simpl. rewrite Hu, F.
    repeat split; done.
  - destruct (write_rows (dict_keys u0) (u0 :: us) []) as [[[]|e] w]; [|done].
    intros _. exists row0. split; [done|]. cbv zeta. simpl. rewrite Hu, F.
    repeat split; done.
Qed.

(** * The claims on what is stored and written *)





(** The record of a stored row: under a result column it holds the value
    stored for it. *)
Lemma stored_record_cell a fieldnames row t src pos col :
  In col result_columns ->
  fieldnames !! pos = Some col ->
  map (fun c => get_or (final_row a row t src) c (VStr "")) fieldnames !! pos
  = Some (get_or (final_row a row t src) col VNone).
Proof.
  intros Hc Hpos. rewrite (record_cell _ _ _ _ Hpos). f_equal.
  by apply result_default.
Qed.

(** ** C10: the source tag of a cache hit *)



(** ** C3: rows that already carry coordinates *)





(** ** C8: the delay *)








(** ** C4: the unmatched rows *)

Lemma is_unmatched_copy p row : is_unmatched (unmatched_copy p row) = is_unmatched row.
Proof.
  unfold is_unmatched.
  by rewrite !get_or_unmatched_copy by (simpl; intros [|[|[|]]]; done).
Qed.

Lemma is_unmatched_none row :
  is_unmatched row = true
  <-> get_or row LAT VNone = VNone \/ get_or row LON VNone = VNone.
Proof.
  destruct (is_unmatched_cases row) as [(->&H)|(->&H1&H2)]; split; try done.
  intros [?|?]; done.
Qed.

(** C4 (amended).  (1) An iteration either raises before the assignments,
    changing no row, no list and no output, or stores the row; the stored
    row is copied to the unmatched list exactly when its latitude or its
    longitude is [None], which an empty cell is not; the copy has every
    column of the stored row, with the same values, and the three columns
    [Unmatched_Primary_Address], [Unmatched_Hospital_Address] and
    [Unmatched_City_Address] hold the three candidate addresses of the row;
    when the columns of the row and the result columns are among the field
    names, as they are in [main], the stored row is written, with its
    latitude and longitude in their cells.  (2) When [main], started at a
    non-negative index, finishes, the output file holds one record per row
    of the range, made of the row as it is stored at the end, and the
    unmatched list holds, in the same order, the copies of exactly those of
    these rows whose latitude or longitude is [None].  (3) [main] writes a
    second file only when the unmatched list is not empty, at the fixed
    path, with the columns of the first unmatched row and one record per
    unmatched row.  (4) For an uncached row whose primary (and, if tried,
    hospital) answer is unmatched, with a delay that is accepted and
    columns among the field names: if the city answer matches, the source
    is [census_city], stored and written, and nothing is appended; if the
    city answer is unmatched too, the row is appended with its three
    addresses, its latitude or longitude is [None], stored and written, and
    both are when the last answer is the absent result. *)
Theorem C4_unmatched_rows :
  (forall net a fieldnames idx s i row,
     py_index (length (rows s)) idx = Some i ->
     rows s !! i = Some row ->
     let rs := process_row net a fieldnames idx s in
     (rows rs.2 = rows s /\ unmatched_rows rs.2 = unmatched_rows s
      /\ fout rs.2 = fout s /\ exists e, rs.1 = Raise e)
     \/ exists row',
          rows rs.2 !! i = Some row'
          /\ (get_or row' LAT VNone = VNone \/ get_or row' LON VNone = VNone ->
              exists u,
                unmatched_rows rs.2 = unmatched_rows s ++ [u]
                /\ dict_get u U_PRIMARY = Some (VStr (build_primary_address row))
                /\ dict_get u U_HOSPITAL = Some (VStr (build_hospital_address row))
                /\ dict_get u U_CITY = Some (VStr (build_city_address row))
                /\ (forall k, In k (dict_keys row') -> In k (dict_keys u))
                /\ (forall k, ~ In k [U_PRIMARY; U_HOSPITAL; U_CITY] ->
                    dict_get u k = dict_get row' k))
          /\ (get_or row' LAT VNone <> VNone -> get_or row' LON VNone <> VNone ->
              unmatched_rows rs.2 = unmatched_rows s)
          /\ ((forall c, In c (dict_keys row) -> In c fieldnames) ->
              (forall c, In c result_columns -> In c fieldnames) ->
              exists rec,
                rs.1 = Ok tt /\ fout rs.2 = fout s ++ [rec]
                /\ length rec = length fieldnames
                /\ (forall pos, fieldnames !! pos = Some LAT ->
                      rec !! pos = Some (get_or row' LAT VNone))
                /\ (forall pos, fieldnames !! pos = Some LON ->
                      rec !! pos = Some (get_or row' LON VNone))))
  /\ (forall net a table,
        0 <= start a ->
        let o := main net a table in
        result o = Finished ->
        let n := length (iterations a table) in
        let done := take n (drop (Z.to_nat (start a)) (rows (final o))) in
        exists row0,
          head table = Some row0
          /\ let fns := output_fieldnames (dict_keys row0) in
             files o !! 0%nat
             = Some (outfile a,
                     mkCsv fns
                       (map (fun r => map (fun c => get_or r c (VStr "")) fns) done))
             /\ length done = n
             /\ unmatched_rows (final o)
                = map (fun r => unmatched_copy (build_primary_address r) r)
                      (List.filter is_unmatched done)
             /\ (forall r',
                   In r' done ->
                   (In (unmatched_copy (build_primary_address r') r')
                       (unmatched_rows (final o))
                    <-> get_or r' LAT VNone = VNone \/ get_or r' LON VNone = VNone))
             /\ (forall u,
                   In u (unmatched_rows (final o)) ->
                   exists r', In r' done
                              /\ u = unmatched_copy (build_primary_address r') r'))
  /\ (forall net a table,
        let o := main net a table in
        (forall path csv,
           files o !! 1%nat = Some (path, csv) ->
           path = unmatched_path
           /\ exists u0,
                head (unmatched_rows (final o)) = Some u0
                /\ header csv = dict_keys u0
                /\ (result o = Finished ->
                    records csv
                    = map (fun u => map (fun k => get_or u k (VStr "")) (dict_keys u0))
                          (unmatched_rows (final o))))
        /\ (unmatched_rows (final o) = [] -> (length (files o) <= 1)%nat)
        /\ (result o = Finished -> unmatched_rows (final o) <> [] ->
            exists csv, files o !! 1%nat = Some (unmatched_path, csv)))
  /\ (forall net a fieldnames idx s i row (hosp_tried : bool),
        py_index (length (rows s)) idx = Some i ->
        rows s !! i = Some row ->
        needs_lookup row = true ->
        let p := build_primary_address row in
        let h := build_hospital_address row in
        let c := build_city_address row in
        let a1 := answer net (trace s) p in
        let a2 := answer net (trace s ++ [Get p]) h in
        let a3 := answer net (trace s ++ Get p :: (if hosp_tried then [Get h] else [])) c in
        let rs := process_row net a fieldnames idx s in
        cache s !! p = None ->
        (hosp_tried = true <-> nonempty h = true /\ h <> p) ->
        unmatched_answer a1 ->
        (hosp_tried = true -> unmatched_answer a2) ->
        nonempty c = true ->
        sleep_refusal (sleep a) = None ->
        (forall k, In k (dict_keys row) -> In k fieldnames) ->
        (forall k, In k result_columns -> In k fieldnames) ->
        (matched_answer a3 \/ unmatched_answer a3) ->
        exists row' rec,
          rs.1 = Ok tt
          /\ rows rs.2 !! i = Some row'
          /\ fout rs.2 = fout s ++ [rec]
          /\ (forall pos, fieldnames !! pos = Some LAT ->
                rec !! pos = Some (get_or row' LAT VNone))
          /\ (forall pos, fieldnames !! pos = Some LON ->
                rec !! pos = Some (get_or row' LON VNone))
          /\ (forall pos, fieldnames !! pos = Some SRC ->
                rec !! pos = Some (get_or row' SRC VNone))
          /\ (matched_answer a3 ->
              get_or row' SRC VNone = VStr "census_city"
              /\ get_or row' LAT VNone <> VNone /\ get_or row' LON VNone <> VNone
              /\ unmatched_rows rs.2 = unmatched_rows s)
          /\ (unmatched_answer a3 ->
              (get_or row' LAT VNone = VNone \/ get_or row' LON VNone = VNone)
              /\ (a3 = Ok absent ->
                  get_or row' LAT VNone = VNone /\ get_or row' LON VNone = VNone)
              /\ exists u,
                   unmatched_rows rs.2 = unmatched_rows s ++ [u]
                   /\ dict_get u U_PRIMARY = Some (VStr p)
                   /\ dict_get u U_HOSPITAL = Some (VStr h)
                   /\ dict_get u U_CITY = Some (VStr c))).
Proof.
  split; [|split; [|split; [exact main_unmatched_file|]]].
  - intros net a fieldnames idx s i row Hi Hrow rs.
    destruct (iteration_summary net a fieldnames idx s i row Hi Hrow)
      as (evs&_&_&_&[Hraise|(t&src&_&Hr&Hu&Hw)]); [by left|right].
    fold rs in Hr, Hu, Hw.
    set (row' := final_row a row t src) in *.
    exists row'. split.
    { rewrite Hr. apply list_lookup_insert_eq. by eapply lookup_lt_Some. }
    destruct (unmatched_copy_spec (build_primary_address row) row')
      as (U1&U2&U3&U4&U5).
    destruct (addresses_final_row a row t src) as (_&A2&A3). fold row' in A2, A3.
    rewrite A2 in U2. rewrite A3 in U3.
    split; [|split].
    + intros Hn. apply is_unmatched_none in Hn. rewrite Hn in Hu.
      eexists. split; [exact Hu|]. done.
    + intros N1 N2.
      destruct (is_unmatched row') eqn:E.
      * apply is_unmatched_none in E as [?|?]; done.
      * by rewrite app_nil_r in Hu.
    + intros K1 K2.
      assert (D : dict_to_list fieldnames row'
                  = Ok (map (fun c => get_or row' c (VStr "")) fieldnames)).
      { apply dict_to_list_ok. intros c Hc.
        apply in_keys_final_row in Hc as [?|?]; auto. }
      destruct Hw as [(rec&Hd&Hok&Hf)|(Hd&_)]; [|by rewrite D in Hd].
      rewrite D in Hd. injection Hd as <-.
      eexists. split; [exact Hok|]. split; [exact Hf|].
      split; [by rewrite length_map|].
      split; intros pos Hpos; subst row'; apply stored_record_cell; simpl; auto.
  - intros net a table Hs o Hfin n done.
    destruct (main_tables net a table Hs Hfin) as (row0&H0&Hfile&Hlen&Hum&_).
    fold o n done in Hfile, Hlen, Hum.
    exists row0. split; [exact H0|]. cbv zeta.
    split; [exact Hfile|]. split; [exact Hlen|]. split; [exact Hum|]. split.
    + intros r' Hin. rewrite Hum, in_map_iff. rewrite <- is_unmatched_none. split.
      * intros (r''&E&Hin'). apply filter_In in Hin' as [_ Hun].
        rewrite <- (is_unmatched_copy (build_primary_address r') r'), <- E.
        by rewrite is_unmatched_copy.
      * intros Hun. exists r'. split; [done|]. by apply filter_In.
    + intros u Hu. rewrite Hum in Hu. apply in_map_iff in Hu as (r'&<-&Hin).
      apply filter_In in Hin as [Hin _]. by exists r'.
  - intros net a fieldnames idx s i row b Hi Hrow N p h c a1 a2 a3 rs C Hb U1 U2 Hc
      Q K1 K2 Ha3.
    destruct (iteration_miss net a fieldnames idx s i row Hi Hrow N C)
      as (b1&b2&r&Hf&Hrun). cbv zeta in Hrun. fold p h c rs in Hf, Hrun.
    pose proof Hf as (F1&F2&_&_&_&K4&_).
    assert (b1 = b) as ->.
    { destruct b1, b; try done.
      - destruct (proj1 F1 eq_refl) as (_&?&?). symmetry. by apply Hb.
      - apply F1. split; [done|]. by apply Hb. }
    assert (b2 = true) as ->.
    { apply F2. split; [done|]. split; [|done]. exact U2. }
    fold a3 in K4.
    assert (Ht : exists t, a3 = Ok t).
    { destruct Ha3 as [(?&?&?&->&_)|(?&?&?&->&_)]; eauto. }
    destruct Ht as (t&Ht).
    rewrite (K4 t eq_refl Ht), Q in Hrun.
    set (src := if matched_t t then VStr "census_city" else existing_source row) in *.
    match type of Hrun with _ = stored _ _ _ _ _ _ ?s1 =>
      pose proof (stored_written a fieldnames i row t src s1 K1 K2) as E end.
    cbv zeta in E. rewrite <- Hrun in E.
    set (row' := final_row a row t src) in *.
    exists row', (map (fun k => get_or row' k (VStr "")) fieldnames).
    rewrite E. cbn [fst snd rows fout unmatched_rows add_events].
    split; [done|]. split.
    { apply list_lookup_insert_eq. by eapply lookup_lt_Some. }
    split; [done|].
    split; [intros pos Hpos; subst row'; apply stored_record_cell; simpl; auto|].
    split; [intros pos Hpos; subst row'; apply stored_record_cell; simpl; auto|].
    split; [intros pos Hpos; subst row'; apply stored_record_cell; simpl; auto|].
    destruct (final_row_results a row t src) as (Hll&Hs&_). fold row' in Hll, Hs.
    pose proof (final_row_unmatched a row t src) as Hun. fold row' in Hun.
    split.
    + intros M. apply matched_answer_t in M as (t'&Ht'&Mt).
      rewrite Ht in Ht'. injection Ht' as <-.
      subst src. rewrite Mt in *. simpl in Hun.
      split; [exact Hs|].
      destruct (is_unmatched_cases row') as [(E'&_)|(_&N1&N2)]; [congruence|].
      rewrite Hun, app_nil_r. done.
    + intros U. apply unmatched_answer_t in U as (t'&Ht'&Mt).
      rewrite Ht in Ht'. injection Ht' as <-.
      rewrite Mt in Hun. simpl in Hun.
      destruct (is_unmatched_cases row') as [(_&Hn)|(E'&_)]; [|congruence].
      split; [exact Hn|]. split.
      * intros Habs. rewrite Habs in Ht. injection Ht as <-.
        simpl in Hll. by injection Hll as -> ->.
      * rewrite Hun. eexists. split; [done|].
        destruct (unmatched_copy_spec p row') as (V1&V2&V3&_).
        destruct (addresses_final_row a row t src) as (_&A2&A3).
        fold row' in A2, A3. rewrite A2 in V2. rewrite A3 in V3. done.
Qed.

Lemma C4_unmatched_rows_witness :
  let rs := process_row sample_net sample_args sample_headers 4 (initial sample_table) in
  exists row' rec u,
    rs.1 = Ok tt
    /\ rows rs.2 !! 4%nat = Some row'
    /\ fout rs.2 = [rec]
    /\ rec !! 5%nat = Some (get_or row' LAT VNone)
    /\ get_or row' LAT VNone = VNone
    /\ unmatched_rows rs.2 = [u]
    /\ dict_get u U_CITY = Some (VStr "Atlantis, ZZ").
Proof.
  cbv zeta.
  destruct (proj2 (proj2 (proj2 C4_unmatched_rows))
              sample_net sample_args sample_headers 4
              (initial sample_table) 4%nat
              (mk_row "Lost Clinic" "3 Unknown Rd" "Atlantis" "ZZ") true
              eq_refl eq_refl eq_refl eq_refl)
    as (row' & rec & Hok & Hr & Hf & Hlat & _ & _ & _ & Hun).
  - split; [intros _; split; [reflexivity|discriminate]|reflexivity].
  - exists VNone, VNone, VNone. split; vm_compute; reflexivity.
  - intros _. exists VNone, VNone, VNone. split; vm_compute; reflexivity.
  - reflexivity.
  - vm_compute. reflexivity.
  - intros k Hk. simpl in Hk. vm_compute.
    destruct Hk as [<-|[<-|[<-|[<-|[<-|[]]]]]]; auto 10.
  - intros k Hk. simpl in Hk. vm_compute.
    destruct Hk as [<-|[<-|[<-|[<-|[]]]]]; auto 10.
  - right. exists VNone, VNone, VNone. split; vm_compute; reflexivity.
  - destruct Hun as (_ & Hboth & u & Hu & _ & _ & Hcity).
    { exists VNone, VNone, VNone. split; vm_compute; reflexivity. }
    exists row', rec, u. split; [exact Hok|]. split; [exact Hr|].
    split; [exact Hf|]. split; [by apply Hlat|].
    split; [by apply Hboth; vm_compute|]. split; [exact Hu|exact Hcity].
Defined.

(** A processed row without coordinates that is not reported: its address
    cells and its coordinate cells are empty, so nothing is looked up, the
    empty strings are stored and written, and they are not [None]. *)
Lemma C4_counterexample :
  let o := main sample_net sample_args [blank_row] in
  result o = Finished
  /\ trace (final o) = []
  /\ unmatched_rows (final o) = []
  /\ exists fieldnames rec,
       files o = [("out.csv", mkCsv fieldnames [rec])]
       /\ fieldnames !! 5%nat = Some LAT /\ rec !! 5%nat = Some (VStr "")
       /\ fieldnames !! 6%nat = Some LON /\ rec !! 6%nat = Some (VStr "").
Proof.
  cbv zeta. split; [by vm_compute|]. split; [by vm_compute|]. split; [by vm_compute|].
  eexists _, _. split; [vm_compute; reflexivity|]. repeat split.
Qed.
